(** * Bore geometry and acoustic evaluation pipeline of windfoam

    A shallow embedding of the algorithmic core of the clarinet barrel
    designer: the profile generators, the thickness map, the unfolded
    outline, the placeholder and engine-backed simulation adapters, the
    performance commentary, the optimizer's cost function, the bounded
    comparison list, the in-memory design store and the session codec.

    Python floats are modelled by exact rationals ([Q], compared with
    [==]); where the code needs [sin] the reals are used.  Where a
    statement turns on the rounding of the interpreter's binary64 floats,
    the expression is given in primitive floats as well ([x_vals_float],
    [impedance_float], [admittance_float]), which compute what the
    interpreter computes.  A Python exception is a value of the [Raise]
    constructor of [result]. *)

From Stdlib Require Import Reals Lra.
From Stdlib Require Import ZArith QArith Qabs Qround Lia Lqa List String Ascii.
From Stdlib Require Import Sorting.Sorted Sorting.Permutation.
From Stdlib Require Import DecimalString DecimalNat.
From Stdlib Require Import PrimFloat Uint63.
From stdpp Require Import gmap strings.
Import ListNotations.

Set Warnings "-register-all".

Local Open Scope Z_scope.
Local Open Scope Q_scope.
Local Open Scope string_scope.
Local Open Scope list_scope.

(** ** Python run-time conventions *)

Module Py.

(** The exception classes the modelled functions can raise. [NotFinite]
    is not a Python exception: it stands for a numpy float computation
    whose value is [inf] or [nan] (numpy warns and goes on), a value that
    no rational represents. *)
Inductive exn : Type :=
| KeyError
| TypeError
| AttributeError
| ValueError
| IndexError
| ZeroDivisionError
| JSONDecodeError
| NotFinite.

Inductive result (A : Type) : Type :=
| Ok (a : A)
| Raise (e : exn).

Arguments Ok {A} a.
Arguments Raise {A} e.

Definition bind {A B : Type} (m : result A) (k : A -> result B) : result B :=
  match m with
  | Ok a => k a
  | Raise e => Raise e
  end.

Definition ret {A : Type} (a : A) : result A := Ok a.

Fixpoint mapM {A B : Type} (f : A -> result B) (l : list A) : result (list B) :=
  match l with
  | [] => Ok []
  | a :: l' => bind (f a) (fun b => bind (mapM f l') (fun bs => Ok (b :: bs)))
  end.

(** [a / b] on floats and ints: division by zero raises. *)
Definition div (a b : Q) : result Q :=
  if Qeq_bool b 0 then Raise ZeroDivisionError else Ok (a / b).

(** [l[i]] for a non-negative index. *)
Definition getitem {A : Type} (l : list A) (i : nat) : result A :=
  match nth_error l i with
  | Some a => Ok a
  | None => Raise IndexError
  end.

(** [enumerate(l)]. *)
Definition enumerate {A : Type} (l : list A) : list (nat * A) :=
  combine (seq 0 (List.length l)) l.

(** [l[-1]] with a default standing for the value of an empty list, which
    the callers never read. *)
Definition last_item (l : list Q) : Q := List.last l 0.

(** [l[0]], same convention. *)
Definition first_item (l : list Q) : Q := List.hd 0 l.

(** [range(start, stop, step)] for a positive step. *)
Definition range (start stop step : Z) : list Z :=
  let count := Z.to_nat ((stop - start + step - 1) / step) in
  List.map (fun i => (start + Z.of_nat i * step)%Z) (seq 0 count).

(** [l[-k:]]: the last [k] items, all of them when there are fewer. *)
Definition last_slice {A : Type} (k : nat) (l : list A) : list A :=
  skipn (List.length l - k) l.

(** A float from a natural number. *)
Definition of_nat (n : nat) : Q := inject_Z (Z.of_nat n).

(** The same conversion into the binary64 floats the interpreter computes
    with; it is exact for the small counts it is used on. *)
Definition float_of_nat (n : nat) : float :=
  PrimFloat.of_uint63 (Uint63.of_Z (Z.of_nat n)).

(** The comparisons [a < b], [a > b] and [a >= b] on numbers. *)
Definition lt (a b : Q) : bool := negb (Qle_bool b a).
Definition gt (a b : Q) : bool := lt b a.
Definition ge (a b : Q) : bool := Qle_bool b a.

(** [round(x)] to the nearest integer, ties to the even one. *)
Definition round_half_even (x : Q) : Z :=
  let f := Qfloor x in
  match Qcompare (x - inject_Z f) (1 # 2) with
  | Lt => f
  | Gt => (f + 1)%Z
  | Eq => if Z.even f then f else (f + 1)%Z
  end.

(** [round(x, ndigits)]. *)
Definition round (x : Q) (ndigits : nat) : Q :=
  let scale := inject_Z (10 ^ Z.of_nat ndigits) in
  inject_Z (round_half_even (x * scale)) / scale.

(** [str(n)] for a natural number. *)
Definition str_of_nat (n : nat) : string :=
  NilZero.string_of_uint (Nat.to_uint n).

(** The values that cross the JSON and UI boundaries: [None], booleans,
    numbers (with the float [nan], which pandas uses for a missing cell),
    strings, lists, and dicts with string keys in insertion order. *)
Inductive value : Type :=
| VNone
| VBool (b : bool)
| VNum (q : Q)
| VNaN
| VStr (s : string)
| VList (l : list value)
| VDict (d : list (string * value)).

Definition dict : Type := list (string * value).

(** Truth value of an object, as [if v:] and [v or w] test it. *)
Definition truthy (v : value) : bool :=
  match v with
  | VNone => false
  | VBool b => b
  | VNum q => negb (Qeq_bool q 0)
  | VNaN => true
  | VStr s => negb (String.eqb s "")
  | VList l => match l with [] => false | _ => true end
  | VDict d => match d with [] => false | _ => true end
  end.

(** [a or b]. *)
Definition or_else (a b : value) : value := if truthy a then a else b.

(** [d.get(k)] as an option. *)
Fixpoint dict_lookup (d : dict) (k : string) : option value :=
  match d with
  | [] => None
  | (k', v) :: d' => if String.eqb k' k then Some v else dict_lookup d' k
  end.

(** [d.get(k, default)]. *)
Definition dict_get (d : dict) (k : string) (default : value) : value :=
  match dict_lookup d k with
  | Some v => v
  | None => default
  end.

(** [d[k] = v]: an existing key keeps its place, a new one goes last. *)
Fixpoint dict_set (d : dict) (k : string) (v : value) : dict :=
  match d with
  | [] => [(k, v)]
  | (k', v') :: d' =>
      if String.eqb k' k then (k', v) :: d' else (k', v') :: dict_set d' k v
  end.

(** [dict(pairs)]. *)
Definition dict_of_pairs (pairs : list (string * value)) : dict :=
  fold_left (fun d kv => dict_set d (fst kv) (snd kv)) pairs [].

(** [v[k]] for a string key: a dict raises [KeyError] on a missing key,
    anything else is not subscriptable by a string. *)
Definition subscript (v : value) (k : string) : result value :=
  match v with
  | VDict d =>
      match dict_lookup d k with
      | Some x => Ok x
      | None => Raise KeyError
      end
  | _ => Raise TypeError
  end.

(** [v.get(k, default)]: only dicts have the method. *)
Definition method_get (v : value) (k : string) (default : value) : result value :=
  match v with
  | VDict d => Ok (dict_get d k default)
  | _ => Raise AttributeError
  end.

(** No dict inside the value has a repeated key (true of every Python
    object; the association-list representation alone does not force it). *)
Fixpoint keys_unique (v : value) : Prop :=
  match v with
  | VList l =>
      (fix all (l : list value) : Prop :=
         match l with
         | [] => True
         | x :: l' => keys_unique x /\ all l'
         end) l
  | VDict d =>
      List.NoDup (List.map fst d) /\
      (fix all (d : list (string * value)) : Prop :=
         match d with
         | [] => True
         | kv :: d' => keys_unique (snd kv) /\ all d'
         end) d
  | _ => True
  end.

(** [-v]: defined on numbers, a bool counting as 0 or 1; [-nan] is
    [nan]. Anything else has no unary minus. *)
Definition neg (v : value) : result value :=
  match v with
  | VNum q => Ok (VNum (- q))
  | VBool b => Ok (VNum (if b then - (1) else 0))
  | VNaN => Ok VNaN
  | _ => Raise TypeError
  end.

(** [np.linspace(start, stop, num)] on floats. *)
Definition linspace (start stop : Q) (num : nat) : list Q :=
  List.map (fun i => start + of_nat i * ((stop - start) / (of_nat num - 1)))
           (seq 0 num).

(** A loop that threads a state through the items and stops at the first
    exception. *)
Fixpoint foldM {A S : Type} (f : S -> A -> result S) (l : list A) (s : S)
    : result S :=
  match l with
  | [] => Ok s
  | a :: l' => bind (f s a) (fun s' => foldM f l' s')
  end.

End Py.

#[global] Instance result_ret : MRet Py.result := @Py.ret.
#[global] Instance result_bind : MBind Py.result :=
  fun A B k m => Py.bind m k.

(** ** geometry.py *)

Module Geometry.

(** [{"Low": 10, "Medium": 30, "High": 60}.get(resolution, 30)] *)
Definition resolution_points (resolution : string) : nat :=
  if String.eqb resolution "Low" then 10%nat
  else if String.eqb resolution "Medium" then 30%nat
  else if String.eqb resolution "High" then 60%nat
  else 30%nat.

Definition num_points_of (resolution : string) : nat :=
  let num_points := resolution_points resolution in
  if (num_points <? 2)%nat then 2%nat else num_points.

(** The diameter of sample [i]: linear interpolation, then the shape factor. *)
Definition shaped_diameter (bore_shape : string) (entry_diam exit_diam fraction : Q) : Q :=
  let diameter := entry_diam + fraction * (exit_diam - entry_diam) in
  if String.eqb bore_shape "Tapered" then
    diameter * (1 + (1 # 10) * fraction)
  else if String.eqb bore_shape "Reverse Tapered" then
    diameter * (1 + (1 # 10) * (1 - fraction))
  else if String.eqb bore_shape "Parabolic" then
    diameter * (1 + (15 # 100) * (fraction - (1 # 2)) ^ 2)
  else if String.eqb bore_shape "Stepped" then
    if Py.gt fraction (1 # 2) then diameter * (105 # 100) else diameter
  else diameter.

Definition generate_barrel_profile (bore_shape : string)
    (entry_diam exit_diam length_mm : Q) (resolution : string)
    : list Q * list Q :=
  let num_points := num_points_of resolution in
  let x_vals :=
    List.map (fun i => Py.of_nat i * (length_mm / (Py.of_nat num_points - 1)))
             (seq 0 num_points) in
  let diam_vals :=
    List.map (fun i =>
                let fraction := Py.of_nat i / (Py.of_nat num_points - 1) in
                shaped_diameter bore_shape entry_diam exit_diam fraction)
             (seq 0 num_points) in
  (x_vals, diam_vals).

(** The positions of [generate_barrel_profile] in the interpreter's own
    arithmetic, binary64 floats with their rounding:
    [[i * (length_mm / (num_points - 1)) for i in range(num_points)]]. *)
Definition x_vals_float (length_mm : float) (resolution : string) : list float :=
  let num_points := num_points_of resolution in
  List.map (fun i =>
              (Py.float_of_nat i
               * (length_mm / Py.float_of_nat (num_points - 1)))%float)
           (seq 0 num_points).

(** The outer-diameter factor of sample [i] at position [x];
    [n] is [len(x_vals)] and [length] the span of the axis. *)
Definition outer_factor (exterior_shape : string) (n : nat) (length : Q)
    (i : nat) (x : Q) : Py.result Q :=
  if String.eqb exterior_shape "Hourglass (waist tapered)" then
    let midpoint := (1 # 2) * length in
    let dist_from_center := Qabs (x - midpoint) in
    Py.Ok ((11 # 10) - (5 # 10000) * dist_from_center)
  else if String.eqb exterior_shape "Bell-like Flare (tuned for resonance)" then
    fraction ← Py.div (Py.of_nat i) (Py.of_nat n - 1);
    Py.Ok (1 + (2 # 10) * fraction)
  else if String.eqb exterior_shape "Reverse Taper (bulged center)" then
    fraction ← Py.div (Py.of_nat i) (Py.of_nat n - 1);
    Py.Ok (1 + (25 # 100) * (1 - (fraction - (1 # 2)) ^ 2))
  else if String.eqb exterior_shape "Standard (parallel exterior)" then
    Py.Ok (105 # 100)
  else if String.eqb exterior_shape "User-Defined" then
    fraction ← Py.div (Py.of_nat i) (Py.of_nat n - 1);
    Py.Ok (1 + (5 # 100) * fraction)
  else Py.Ok 1.

(** The body of the loop: the wall thickness of sample [i]. *)
Definition thickness_at (bore_diam_vals : list Q) (factor : nat -> Q -> Py.result Q)
    (ix : nat * Q) : Py.result Q :=
  outer_factor ← factor (fst ix) (snd ix);
  bore ← Py.getitem bore_diam_vals (fst ix);
  let outer_diam := bore * outer_factor in
  Py.Ok ((outer_diam - bore) / 2).

Definition mock_thickness_map (x_vals bore_diam_vals : list Q)
    (exterior_shape : string) : Py.result (list Q) :=
  match x_vals with
  | [] => Py.Ok []
  | _ =>
      let length := Py.last_item x_vals - Py.first_item x_vals in
      Py.mapM (thickness_at bore_diam_vals
                 (outer_factor exterior_shape (List.length x_vals) length))
              (Py.enumerate x_vals)
  end.

(** A row of the bore table. *)
Record segment : Type := {
  start_pos : Q;
  end_pos : Q;
  start_dia : Q;
  end_dia : Q;
  sec_type : string;
  param : option Q
}.

(** [sorted(bore_data, key=lambda seg: seg["start_pos"])]: the sort is
    stable, a segment stays before the later ones with the same key. *)
Fixpoint insert_segment (s : segment) (l : list segment) : list segment :=
  match l with
  | [] => [s]
  | t :: l' =>
      if Qle_bool (start_pos s) (start_pos t) then s :: t :: l'
      else t :: insert_segment s l'
  end.

Definition sorted_segments (bore_data : list segment) : list segment :=
  fold_right insert_segment [] bore_data.

Definition top_points (seg : segment) : list (Q * Q) :=
  [(start_pos seg, start_dia seg / 2); (end_pos seg, end_dia seg / 2)].

Definition bot_points (seg : segment) : list (Q * Q) :=
  [(end_pos seg, - (end_dia seg / 2)); (start_pos seg, - (start_dia seg / 2))].

Definition build_unfolded_bore_outline (bore_data : list segment)
    : list Q * list Q :=
  match bore_data with
  | [] => ([], [])
  | _ =>
      let sorted := sorted_segments bore_data in
      let top_edge := flat_map top_points sorted in
      let bot_edge := flat_map bot_points (rev sorted) in
      (List.map fst top_edge ++ List.map fst bot_edge,
       List.map snd top_edge ++ List.map snd bot_edge)
  end.

(** The top edge alone, as a list of points. *)
Definition build_unfolded_bore_fill (bore_data : list segment) : list (Q * Q) :=
  match bore_data with
  | [] => []
  | _ => flat_map top_points (sorted_segments bore_data)
  end.

(** The rows of the holes table are dicts; a cell can hold any value. *)
Definition hole_points (h : Py.dict) : Py.result (list (Py.value * Py.value)) :=
  let pos := Py.dict_get h "position" (Py.VNum 0) in
  let diam := Py.dict_get h "diameter" (Py.VNum 0) in
  bottom ← Py.neg diam;
  Py.Ok [(pos, Py.VNum 0); (pos, bottom)].

Definition build_unfolded_holes (holes_data : list Py.dict)
    : Py.result (list (Py.value * Py.value)) :=
  results ← Py.mapM hole_points holes_data;
  Py.Ok (concat results).

(** The three other helpers have the body of [build_unfolded_holes]. *)
Definition build_unfolded_fingering := build_unfolded_holes.
Definition build_unfolded_chimney := build_unfolded_holes.
Definition build_unfolded_tube := build_unfolded_holes.

End Geometry.

(** ** simulation.py *)

Module Simulation.

(** The generator behind [random.random()]: the stream of the successive
    draws, each in the half-open unit interval, and how many were taken. *)
Record rng : Type := { draws : nat -> Q; taken : nat }.

Definition unit_draws (g : rng) : Prop :=
  forall k : nat, 0 <= draws g k /\ draws g k < 1.

(** [random.uniform(a, b)] is [a + (b - a) * random.random()]. *)
Definition uniform (a b : Q) (g : rng) : Q * rng :=
  (a + (b - a) * draws g (taken g),
   {| draws := draws g; taken := S (taken g) |}).

(** [[random.uniform(a, b) for _ in items]] *)
Fixpoint uniform_each {A : Type} (a b : Q) (items : list A) (g : rng)
    : list Q * rng :=
  match items with
  | [] => ([], g)
  | _ :: items' =>
      let (x, g1) := uniform a b g in
      let (xs, g2) := uniform_each a b items' g1 in
      (x :: xs, g2)
  end.

(** [random.uniform(a, b)] in the interpreter's binary64 floats, for the
    draw [u] of [random.random()]: [a + (b - a) * u], with its rounding. *)
Definition uniform_float (a b u : float) : float := (a + (b - a) * u)%float.

(** One item of the impedance curve of [run_mock_simulation] and its item
    of the admittance curve, [1.0 / imp], in binary64 floats. *)
Definition impedance_float (u : float) : float := uniform_float 0.5 1.5 u.
Definition admittance_float (imp : float) : float := (1 / imp)%float.

Record sim_results : Type := {
  f1 : Q;
  cutoff : Q;
  resistance : Q;
  freq : list Z;
  impedance_curve : list Q;
  admittance_curve : list Q;
  harmonicity : Q;
  brightness : Q
}.

Definition run_mock_simulation (profile_points : list Q) (material : string)
    (thickness : Q) (g : rng) : Py.result sim_results * rng :=
  let (u1, g) := uniform (-30) 30 g in
  let f1 := Py.round (450 + u1) 2 in
  let cutoff := Py.round (f1 * (22 # 10)) 2 in
  let (u2, g) := uniform 20 80 g in
  let resistance := Py.round u2 2 in
  let freq := Py.range 100 2000 50 in
  let (impedance, g) := uniform_each (1 # 2) (3 # 2) freq g in
  let admittance := Py.mapM (fun imp => Py.div 1 imp) impedance in
  let (u3, g) := uniform (7 # 10) (95 # 100) g in
  let harmonicity := Py.round u3 3 in
  let (u4, g) := uniform (3 # 10) (8 # 10) g in
  let brightness := Py.round u4 3 in
  (admittance ← admittance;
   Py.Ok {| f1 := f1; cutoff := cutoff; resistance := resistance;
            freq := freq; impedance_curve := impedance;
            admittance_curve := admittance;
            harmonicity := harmonicity; brightness := brightness |},
   g).

Definition very_free_blowing : string :=
  "Very free-blowing (low resistance). Requires less air pressure but can sacrifice some control.".
Definition moderate_resistance : string :=
  "Moderate resistance, balancing control and ease of airflow.".
Definition high_resistance : string :=
  "High resistance—requires stronger air support but may offer greater dynamic control.".
Definition darker_timbre : string :=
  "Leans toward a darker or warmer timbre.".
Definition moderately_bright : string :=
  "Moderately bright—somewhere between dark and brilliant.".
Definition quite_bright : string :=
  "Quite bright—clear and projecting tone.".
Definition overtones_align : string :=
  "Overtones align well (high harmonicity)—stable, pure core.".
Definition overtones_mismatched : string :=
  "Lower harmonicity—overtones may be mismatched, potentially more complex or tricky to voice.".

(** The comments, in order; the code wraps each in an [html.Li] and the
    list in an [html.Ul]. [lower_harmonicity] is the text of the last
    comment, the only place where the copies of the function differ. *)
Definition comments_of (lower_harmonicity : string) (sim : sim_results)
    : list string :=
  let comments := [] in
  let comments :=
    if Py.lt (resistance sim) 30 then comments ++ [very_free_blowing]
    else if Py.lt (resistance sim) 70 then comments ++ [moderate_resistance]
    else comments ++ [high_resistance] in
  let comments :=
    if Py.lt (brightness sim) (4 # 10) then comments ++ [darker_timbre]
    else if Py.lt (brightness sim) (6 # 10) then comments ++ [moderately_bright]
    else comments ++ [quite_bright] in
  let comments :=
    if Py.ge (harmonicity sim) (85 # 100) then comments ++ [overtones_align]
    else if Py.lt (harmonicity sim) (75 # 100) then comments ++ [lower_harmonicity]
    else comments in
  comments.

Definition evaluate_barrel_attributes (sim : sim_results) : list string :=
  comments_of overtones_mismatched sim.

(** The step-based generator of simulation.py: [resolution] is the
    distance between two samples, [length_mm] an integer. *)
Definition generate_barrel_profile (bore_shape : string)
    (entry_diam exit_diam : Q) (length_mm resolution : Z)
    : list Z * list Q :=
  let resolution := if (resolution <? 1)%Z then 1%Z else resolution in
  let x_vals := Py.range 0 (length_mm + 1) resolution in
  let total_steps :=
    if (1 <? List.length x_vals)%nat then (List.length x_vals - 1)%nat
    else 1%nat in
  let diam_vals :=
    List.map (fun ix : nat * Z =>
                let frac :=
                  if (0 <? total_steps)%nat
                  then Py.of_nat (fst ix) / Py.of_nat total_steps
                  else 0 in
                let diameter := entry_diam + frac * (exit_diam - entry_diam) in
                if String.eqb bore_shape "Tapered" then
                  diameter * (1 + (5 # 100) * frac)
                else if String.eqb bore_shape "Reverse Tapered" then
                  diameter * (1 + (5 # 100) * (1 - frac))
                else if String.eqb bore_shape "Parabolic" then
                  diameter * (1 + (1 # 10) * (frac - (1 # 2)) ^ 2)
                else if String.eqb bore_shape "Stepped" then
                  if Py.gt frac (1 # 2) then diameter * (102 # 100)
                  else diameter
                else diameter)
             (Py.enumerate x_vals) in
  (x_vals, diam_vals).

(** The third copy of the thickness map: it guards against an empty or
    mismatched input and works on the fraction [x / length]. *)
Definition outer_factor (exterior_shape : string) (frac : Q) : Q :=
  if String.eqb exterior_shape "Standard" then 105 # 100
  else if String.eqb exterior_shape "Hourglass (waist tapered)" then
    let dist_from_center := Qabs (frac - (1 # 2)) in
    (11 # 10) - (2 # 10) * dist_from_center
  else if String.eqb exterior_shape "Reverse Taper (bulged center)" then
    1 + (15 # 100) * (1 - (frac - (1 # 2)) ^ 2)
  else if String.eqb exterior_shape "Bell-like Flare (tuned)" then
    1 + (25 # 100) * frac
  else if String.eqb exterior_shape "User-Defined" then
    1 + (5 # 100) * frac
  else 1.

Definition mock_thickness_map (x_vals bore_diam_vals : list Q)
    (exterior_shape : string) : Py.result (list Q) :=
  match x_vals, bore_diam_vals with
  | [], _ => Py.Ok []
  | _, [] => Py.Ok []
  | _, _ =>
      if negb (List.length x_vals =? List.length bore_diam_vals)%nat
      then Py.Ok []
      else
        let length := Py.last_item x_vals - Py.first_item x_vals in
        Py.mapM (fun ix : nat * Q =>
                   let frac := if Qeq_bool length 0 then 0 else snd ix / length in
                   let outer_factor := outer_factor exterior_shape frac in
                   bore ← Py.getitem bore_diam_vals (fst ix);
                   let outer_diam := bore * outer_factor in
                   bore' ← Py.getitem bore_diam_vals (fst ix);
                   Py.Ok ((outer_diam - bore') / 2))
                (Py.enumerate x_vals)
  end.

(** The dict returned by [run_real_simulation]. *)
Record real_results : Type := {
  real_f1 : Q;
  real_cutoff : Q;
  real_freq : list Z;
  impedances : list Q;
  thickness_factor : Q;
  material_factor : Q
}.

(** [thickness] is a number or a list of thicknesses (per the docstring);
    the five geometry arguments are not used by the body. *)
Definition run_real_simulation (bore_shape : string)
    (entry_diam exit_diam : Q) (length_mm resolution : Z)
    (material : string) (thickness : Q + list Q) (g : rng)
    : real_results * rng :=
  let (u, g) := uniform (-20) 20 g in
  let f1 := Py.round (440 + u) 2 in
  let cutoff := Py.round (f1 * (21 # 10)) 2 in
  let freq := Py.range 200 2000 100 in
  let (impedances, g) := uniform_each (1 # 2) 2 freq g in
  let mat_factor :=
    if String.eqb material "African Blackwood" then 105 # 100
    else if String.eqb material "Hard Rubber" then 95 # 100
    else 1 in
  let f1 := f1 * mat_factor in
  let cutoff := cutoff * mat_factor in
  let thickness_factor :=
    match thickness with
    | inl t => t
    | inr _ => 1
    end in
  let impedances :=
    List.map (fun z => z * (1 + (1 # 100) * thickness_factor)) impedances in
  ({| real_f1 := f1; real_cutoff := cutoff; real_freq := freq;
      impedances := impedances; thickness_factor := thickness_factor;
      material_factor := mat_factor |},
   g).

End Simulation.

(** ** barrel.py *)

Module Barrel.

(** As in geometry.py, except that the fraction divides by
    [max(1, len(x_vals) - 1)]. *)
Definition outer_factor (exterior_shape : string) (n : nat) (length : Q)
    (i : nat) (x : Q) : Py.result Q :=
  if String.eqb exterior_shape "Hourglass (waist tapered)" then
    let midpoint := (1 # 2) * length in
    let dist_from_center := Qabs (x - midpoint) in
    Py.Ok ((11 # 10) - (5 # 10000) * dist_from_center)
  else if String.eqb exterior_shape "Bell-like Flare (tuned for resonance)" then
    fraction ← Py.div (Py.of_nat i) (Py.of_nat (Nat.max 1 (n - 1)));
    Py.Ok (1 + (2 # 10) * fraction)
  else if String.eqb exterior_shape "Reverse Taper (bulged center)" then
    fraction ← Py.div (Py.of_nat i) (Py.of_nat (Nat.max 1 (n - 1)));
    Py.Ok (1 + (25 # 100) * (1 - (fraction - (1 # 2)) ^ 2))
  else if String.eqb exterior_shape "Standard (parallel exterior)" then
    Py.Ok (105 # 100)
  else if String.eqb exterior_shape "User-Defined" then
    fraction ← Py.div (Py.of_nat i) (Py.of_nat (Nat.max 1 (n - 1)));
    Py.Ok (1 + (5 # 100) * fraction)
  else Py.Ok 1.

Definition mock_thickness_map (x_vals bore_diam_vals : list Q)
    (exterior_shape : string) : Py.result (list Q) :=
  let length :=
    match x_vals with
    | [] => 0
    | _ => Py.last_item x_vals - Py.first_item x_vals
    end in
  Py.mapM (Geometry.thickness_at bore_diam_vals
             (outer_factor exterior_shape (List.length x_vals) length))
          (Py.enumerate x_vals).

Definition overtones_slightly_mismatched : string :=
  "Lower harmonicity—overtones may be slightly mismatched, potentially more complex or tricky to voice.".

Definition evaluate_barrel_attributes (sim : Simulation.sim_results)
    : list string :=
  Simulation.comments_of overtones_slightly_mismatched sim.

End Barrel.

(** ** The part of plotly the callbacks use *)

Module Plotly.

(** A [go.Scatter] trace: the data and the two labels the callbacks set. *)
Record scatter : Type := {
  x : list Q;
  y : list Q;
  mode : string;
  name : string
}.

(** A [go.Figure]: the traces added so far and the titles of the layout. *)
Record figure : Type := {
  traces : list scatter;
  title : option string;
  xaxis_title : option string;
  yaxis_title : option string
}.

(** [go.Figure()] *)
Definition empty : figure :=
  {| traces := []; title := None; xaxis_title := None; yaxis_title := None |}.

End Plotly.

(** ** callbacks.py (the same two callbacks are repeated in barrel.py) *)

Module Callbacks.

(** A row of the comparison table. *)
Record entry : Type := {
  name : string;
  entry_f1 : Py.value;
  entry_cutoff : Py.value;
  entry_resistance : Py.value;
  entry_brightness : Py.value;
  entry_harmonicity : Py.value
}.

(** The second output of the callback: a message, or the table built
    from the rows (its HTML rendering is not modelled). *)
Inductive children : Type :=
| Message (text : string)
| Table (rows : list entry).

(** Truth value of the store's data: [None] and the empty dict are false. *)
Definition sim_present (current_sim : option Py.dict) : bool :=
  match current_sim with
  | Some (_ :: _) => true
  | _ => false
  end.

(** Truth value of the name field: [None] and the empty string are false. *)
Definition name_given (design_name : option string) : bool :=
  match design_name with
  | Some s => negb (String.eqb s "")
  | None => false
  end.

Definition sim_get (current_sim : option Py.dict) (k : string) : Py.value :=
  match current_sim with
  | Some d => Py.dict_get d k (Py.VNum 0)
  | None => Py.VNum 0
  end.

Definition render (comparison_data : list entry) : list entry * children :=
  match comparison_data with
  | [] => (comparison_data, Message "No designs currently in comparison.")
  | _ => (comparison_data, Table comparison_data)
  end.

Definition add_to_comparison (triggered_id : string) (n_clicks : Z)
    (current_sim : option Py.dict) (design_name : option string)
    (comparison_data : option (list entry)) : list entry * children :=
  let comparison_data :=
    match comparison_data with
    | None => []
    | Some l => l
    end in
  if String.eqb triggered_id "compare-mode-btn" then
    if negb (sim_present current_sim) then
      (comparison_data, Message "No simulation results to compare.")
    else
      let design_name :=
        if negb (name_given design_name)
        then String.append "Design "
               (Py.str_of_nat (List.length comparison_data + 1))
        else match design_name with Some s => s | None => "" end in
      let entry :=
        {| name := design_name;
           entry_f1 := sim_get current_sim "f1";
           entry_cutoff := sim_get current_sim "cutoff";
           entry_resistance := sim_get current_sim "resistance";
           entry_brightness := sim_get current_sim "brightness";
           entry_harmonicity := sim_get current_sim "harmonicity" |} in
      let comparison_data := comparison_data ++ [entry] in
      let comparison_data := Py.last_slice 5 comparison_data in
      render comparison_data
  else render comparison_data.

(** What is kept for a saved design. *)
Record design : Type := {
  bore_shape : Py.value;
  exterior_shape : Py.value;
  entry_diam : Py.value;
  exit_diam : Py.value;
  length_mm : Py.value;
  resolution : Py.value;
  material : Py.value;
  simulation : Py.value
}.

(** The process state the callback touches: the shared dict of designs
    and the lines printed so far. *)
Record app_state : Type := {
  stored_designs : gmap string design;
  stdout : list string
}.

Definition save_design_to_memory (n_clicks : Z) (design_name : option string)
    (bore_shape exterior_shape entry_diam exit_diam length_mm resolution
       material sim_data : Py.value)
    (st : app_state) : Z * app_state :=
  match design_name with
  | Some design_name =>
      if String.eqb design_name "" then (0%Z, st)
      else
        let design_dict :=
          {| bore_shape := bore_shape;
             exterior_shape := exterior_shape;
             entry_diam := entry_diam;
             exit_diam := exit_diam;
             length_mm := length_mm;
             resolution := resolution;
             material := material;
             simulation := sim_data |} in
        (0%Z,
         {| stored_designs := <[design_name := design_dict]> (stored_designs st);
            stdout := stdout st ++ [String.append "Saved design: " design_name] |})
  | None => (0%Z, st)
  end.

(** A number field of the form: [None] when empty. Its truth value is
    that of the number, so [None] and 0 are false. *)
Definition given_number (v : option Q) : option Q :=
  match v with
  | Some q => if Qeq_bool q 0 then None else Some q
  | None => None
  end.

(** Truth value of [edu_mode and len(edu_mode) > 0]. *)
Definition edu_on (edu_mode : option (list string)) : bool :=
  match edu_mode with
  | Some (_ :: _) => true
  | _ => false
  end.

Definition thickness_note : string :=
  "Wall thickness is the difference between outer and bore radii. Thin walls can affect resonance or stability.".

Definition update_bore_profile (bore_shape : string)
    (entry_diam exit_diam length_mm : option Q) (resolution : string)
    (exterior_shape : string) (edu_mode : option (list string))
    : Py.result (Plotly.figure * string) :=
  match given_number entry_diam, given_number exit_diam,
        given_number length_mm with
  | Some entry_diam, Some exit_diam, Some length_mm =>
      let profile :=
        Geometry.generate_barrel_profile bore_shape entry_diam exit_diam
          length_mm resolution in
      let x_vals := fst profile in
      let bore_diam_vals := snd profile in
      thickness_vals ←
        Geometry.mock_thickness_map x_vals bore_diam_vals exterior_shape;
      let outer_diam_vals :=
        List.map (fun bt : Q * Q => fst bt + 2 * snd bt)
                 (combine bore_diam_vals thickness_vals) in
      let fig :=
        {| Plotly.traces :=
             [{| Plotly.x := x_vals; Plotly.y := bore_diam_vals;
                 Plotly.mode := "lines"; Plotly.name := "Bore Diameter" |};
              {| Plotly.x := x_vals; Plotly.y := outer_diam_vals;
                 Plotly.mode := "lines"; Plotly.name := "Outer Diameter" |}];
           Plotly.title := Some "Barrel Cross-Section View";
           Plotly.xaxis_title := Some "Barrel Axis (mm)";
           Plotly.yaxis_title := Some "Diameter (mm)" |} in
      let thickness_comment := if edu_on edu_mode then thickness_note else "" in
      Py.Ok (fig, thickness_comment)
  | _, _, _ =>
      Py.Ok ({| Plotly.traces := [];
                Plotly.title := Some "Please enter valid dimensions.";
                Plotly.xaxis_title := None;
                Plotly.yaxis_title := None |}, "")
  end.

(** The dict [run_mock_simulation] returns, with its keys in order. *)
Definition sim_to_dict (r : Simulation.sim_results) : Py.dict :=
  [("f1", Py.VNum (Simulation.f1 r));
   ("cutoff", Py.VNum (Simulation.cutoff r));
   ("resistance", Py.VNum (Simulation.resistance r));
   ("freq", Py.VList (List.map (fun z => Py.VNum (inject_Z z)) (Simulation.freq r)));
   ("impedance_curve", Py.VList (List.map Py.VNum (Simulation.impedance_curve r)));
   ("admittance_curve", Py.VList (List.map Py.VNum (Simulation.admittance_curve r)));
   ("harmonicity", Py.VNum (Simulation.harmonicity r));
   ("brightness", Py.VNum (Simulation.brightness r))].

(** The statistics panel: nothing, or the insight comments below the table
    of metrics and the note shown in educational mode (the table and its
    printed numbers are not modelled). *)
Inductive stats_section : Type :=
| NoStats
| Stats (insights : list string) (edu_note : bool).

Definition curve_figure (freq : list Z) (curve : list Q)
    (name yaxis title : string) : Plotly.figure :=
  {| Plotly.traces :=
       [{| Plotly.x := List.map inject_Z freq; Plotly.y := curve;
           Plotly.mode := "lines"; Plotly.name := name |}];
     Plotly.title := Some title;
     Plotly.xaxis_title := Some "Frequency (Hz)";
     Plotly.yaxis_title := Some yaxis |}.

(** The simulation callback. A number field left empty is [None], on which
    the arithmetic of the profile generator raises [TypeError]. *)
Definition run_simulation (n_clicks : Z) (bore_shape : string)
    (entry_diam exit_diam length_mm : option Q) (resolution : string)
    (exterior_shape : string) (material : string)
    (edu_mode : option (list string)) (g : Simulation.rng)
    : Py.result (Py.dict * stats_section * Plotly.figure * Plotly.figure)
      * Simulation.rng :=
  if (n_clicks =? 0)%Z then
    (Py.Ok ([], NoStats, Plotly.empty, Plotly.empty), g)
  else
    match entry_diam, exit_diam, length_mm with
    | Some entry_diam, Some exit_diam, Some length_mm =>
        let profile :=
          Geometry.generate_barrel_profile bore_shape entry_diam exit_diam
            length_mm resolution in
        let x_vals := fst profile in
        let bore_diam_vals := snd profile in
        match Geometry.mock_thickness_map x_vals bore_diam_vals exterior_shape with
        | Py.Raise e => (Py.Raise e, g)
        | Py.Ok thickness_vals =>
            let avg_thickness :=
              match thickness_vals with
              | [] => 0
              | _ => fold_right Qplus 0 thickness_vals
                     / Py.of_nat (List.length thickness_vals)
              end in
            let (sim, g) :=
              Simulation.run_mock_simulation bore_diam_vals material
                avg_thickness g in
            (sim_results ← sim;
             let attribute_feedback :=
               Simulation.evaluate_barrel_attributes sim_results in
             let imp_fig :=
               curve_figure (Simulation.freq sim_results)
                 (Simulation.impedance_curve sim_results)
                 "Impedance" "Impedance (arbitrary units)"
                 "Impedance vs Frequency" in
             let adm_fig :=
               curve_figure (Simulation.freq sim_results)
                 (Simulation.admittance_curve sim_results)
                 "Admittance" "Admittance (arbitrary units)"
                 "Admittance vs Frequency" in
             Py.Ok (sim_to_dict sim_results,
                    Stats attribute_feedback (edu_on edu_mode),
                    imp_fig, adm_fig),
             g)
        end
    | _, _, _ => (Py.Raise Py.TypeError, g)
    end.

(** The style dict of the comparison section. *)
Definition show_comparison_mode_section (n_clicks : Z) : Py.dict :=
  if (n_clicks mod 2 =? 1)%Z
  then [("display", Py.VStr "block"); ("marginTop", Py.VStr "10px")]
  else [("display", Py.VStr "none")].

Definition add_bore_row (n_clicks : Z) (current_data : list Py.dict)
    : list Py.dict :=
  let new_row :=
    [("start_pos", Py.VNum 0);
     ("end_pos", Py.VNum 10);
     ("start_dia", Py.VNum (146 # 10));
     ("end_dia", Py.VNum (146 # 10));
     ("sec_type", Py.VStr "cone");
     ("param", Py.VNone)] in
  current_data ++ [new_row].

Definition add_holes_row (n_clicks : Z) (current_data : list Py.dict)
    : list Py.dict :=
  let new_row :=
    [("label",
      Py.VStr (String.append "Hole"
                 (Py.str_of_nat (List.length current_data + 1))));
     ("position", Py.VNum 0);
     ("chimney", Py.VNum 3);
     ("diameter", Py.VNum 7)] in
  current_data ++ [new_row].

End Callbacks.

(** ** deepseek.py *)

Module Deepseek.

Record geometry : Type := {
  entry_diam : Q;
  exit_diam : Q;
  length_mm : Q
}.

(** The dict returned by [_run_openwind_simulation]. *)
Record openwind_result : Type := {
  f1 : Q;
  impedance_curve : list Q;
  frequencies : list Q
}.

(** What is passed as [target_impedance]: a Python list, or a
    one-dimensional numpy array of two or more items (an array of one item
    is left out, and so is the empty array, whose truth value depends on
    the numpy version). *)
Inductive target_curve : Type :=
| PyList (items : list Q)
| NdArray (first second : Q) (rest : list Q).

Definition curve_items (target : target_curve) : list Q :=
  match target with
  | PyList items => items
  | NdArray first second rest => first :: second :: rest
  end.

Record BarrelOptimizer : Type := {
  target_f1 : Q;
  target_impedance : option target_curve
}.

(** [BarrelOptimizer(target_f1=440, target_impedance=None)]: an omitted
    argument is [None] here. *)
Definition init (target_f1 : option Q) (target_impedance : option target_curve)
    : BarrelOptimizer :=
  {| target_f1 := match target_f1 with Some t => t | None => 440 end;
     target_impedance := target_impedance |}.

(** [a - b] on one-dimensional arrays, with numpy's broadcasting of a
    one-element array. *)
Definition np_sub (a b : list Q) : Py.result (list Q) :=
  if (List.length a =? List.length b)%nat then
    Py.Ok (List.map (fun xy : Q * Q => fst xy - snd xy) (combine a b))
  else
    match a, b with
    | _, [y] => Py.Ok (List.map (fun x => x - y) a)
    | [x], _ => Py.Ok (List.map (fun y => x - y) b)
    | _, _ => Py.Raise Py.ValueError
    end.

(** [a ** 2] *)
Definition np_square (a : list Q) : list Q := List.map (fun x => x ^ 2) a.

(** [np.mean(a)]; the mean of an empty array is [nan]. *)
Definition np_mean (a : list Q) : Py.result Q :=
  match a with
  | [] => Py.Raise Py.NotFinite
  | _ => Py.Ok (fold_right Qplus 0 a / Py.of_nat (List.length a))
  end.

(** [x / y] where [x] is a numpy float: a zero divisor gives [inf] or [nan]. *)
Definition np_div (x y : Q) : Py.result Q :=
  if Qeq_bool y 0 then Py.Raise Py.NotFinite else Py.Ok (x / y).

(** Truth value of [self.target_impedance], as [if self.target_impedance:]
    tests it: [None] and the empty list are false and a list with items is
    true; an array of two or more items has no truth value, numpy raises
    [ValueError]. *)
Definition target_truth (target : option target_curve) : Py.result bool :=
  match target with
  | None => Py.Ok false
  | Some (PyList []) => Py.Ok false
  | Some (PyList (_ :: _)) => Py.Ok true
  | Some (NdArray _ _ _) => Py.Raise Py.ValueError
  end.

Section CostFunction.

(** The call into the external impedance engine. *)
Variable _run_openwind_simulation : geometry -> Py.result openwind_result.

Definition _cost_function (self : BarrelOptimizer) (params : list Q)
    : Py.result Q :=
  match params with
  | [entry; exit_diam; length] =>
      let geometry :=
        {| entry_diam := entry; exit_diam := exit_diam; length_mm := length |} in
      result ← _run_openwind_simulation geometry;
      f1_error ← np_div (Qabs (f1 result - target_f1 self)) (target_f1 self);
      given ← target_truth (target_impedance self);
      impedance_error ←
        (if given : bool then
           match target_impedance self with
           | Some target =>
               diff ← np_sub (impedance_curve result) (curve_items target);
               np_mean (np_square diff)
           | None => Py.Ok 0
           end
         else Py.Ok 0);
      Py.Ok ((7 # 10) * f1_error + (3 # 10) * impedance_error)
  | _ => Py.Raise Py.ValueError
  end.

End CostFunction.

(** [np.argmax(a)]: the first index of the largest item; an empty array
    raises. *)
Fixpoint argmax_from (best : Q) (best_i i : nat) (a : list Q) : nat :=
  match a with
  | [] => best_i
  | v :: a' =>
      if Py.lt best v then argmax_from v i (S i) a'
      else argmax_from best best_i (S i) a'
  end.

Definition np_argmax (a : list Q) : Py.result nat :=
  match a with
  | [] => Py.Raise Py.ValueError
  | v :: a' => Py.Ok (argmax_from v 0 1 a')
  end.

(** The one component handed to the engine: a cone, in metres. *)
Record cone : Type := {
  cone_length : Q;
  radius_0 : Q;
  radius_1 : Q
}.

Section Engine.

(** [np.abs(ImpedanceComputation(frequencies, InstrumentGeometry(components)))]:
    the external engine, up to the magnitude of its answer. *)
Variable impedance_magnitude : list Q -> cone -> Py.result (list Q).

Definition _run_openwind_simulation (geometry : geometry)
    : Py.result openwind_result :=
  let components :=
    {| cone_length := length_mm geometry / 1000;
       radius_0 := entry_diam geometry / 2000;
       radius_1 := exit_diam geometry / 2000 |} in
  let frequencies := Py.linspace 100 2000 100 in
  impedance ← impedance_magnitude frequencies components;
  peak ← np_argmax impedance;
  f1 ← Py.getitem frequencies peak;
  Py.Ok {| f1 := f1; impedance_curve := impedance; frequencies := frequencies |}.

End Engine.

(** The fields of scipy's [OptimizeResult] that are read. *)
Record optimize_result : Type := {
  opt_x : list Q;
  opt_success : bool
}.

(** The dict returned by [optimize_geometry]. *)
Record optimized : Type := {
  best_entry_diam : Q;
  best_exit_diam : Q;
  best_length_mm : Q;
  success : bool
}.

(** The box of the search, one interval per variable. *)
Definition search_bounds (initial_params : geometry) : list (Q * Q) :=
  [(entry_diam initial_params * (8 # 10), entry_diam initial_params * (12 # 10));
   (exit_diam initial_params * (7 # 10), exit_diam initial_params * (13 # 10));
   (length_mm initial_params * (9 # 10), length_mm initial_params * (11 # 10))].

Section Optimize.

(** [scipy.optimize.minimize(fun, x0=..., bounds=..., method=...)] *)
Variable minimize :
  (list Q -> Py.result Q) -> list Q -> list (Q * Q) -> string ->
  Py.result optimize_result.

(** The engine behind [_run_openwind_simulation]. *)
Variable impedance_magnitude : list Q -> cone -> Py.result (list Q).

Definition optimize_geometry (self : BarrelOptimizer)
    (initial_params : geometry) : Py.result optimized :=
  let bounds := search_bounds initial_params in
  result ←
    minimize (_cost_function (_run_openwind_simulation impedance_magnitude) self)
      [entry_diam initial_params; exit_diam initial_params;
       length_mm initial_params]
      bounds "L-BFGS-B";
  x0 ← Py.getitem (opt_x result) 0;
  x1 ← Py.getitem (opt_x result) 1;
  x2 ← Py.getitem (opt_x result) 2;
  Py.Ok {| best_entry_diam := x0; best_exit_diam := x1;
           best_length_mm := x2; success := opt_success result |}.

End Optimize.

(** The design parameters kept in the store of deepseek.py. *)
Record design_params : Type := {
  params_bore_shape : string;
  params_material : string;
  params_entry_diam : Q;
  params_exit_diam : Q;
  params_length_mm : Q
}.

(** The profile callback of deepseek.py: a 50-point line per shape. *)
Definition update_bore_profile (params : option design_params)
    : Plotly.figure :=
  match params with
  | None => Plotly.empty
  | Some params =>
      let x := Py.linspace 0 (params_length_mm params) 50 in
      let y :=
        if String.eqb (params_bore_shape params) "cylindrical" then
          Py.linspace (params_entry_diam params) (params_entry_diam params) 50
        else if String.eqb (params_bore_shape params) "tapered" then
          Py.linspace (params_entry_diam params) (params_exit_diam params) 50
        else if String.eqb (params_bore_shape params) "reverse_tapered" then
          Py.linspace (params_exit_diam params) (params_entry_diam params) 50
        else
          Py.linspace (params_entry_diam params) (params_exit_diam params) 50 in
      {| Plotly.traces :=
           [{| Plotly.x := x; Plotly.y := y; Plotly.mode := "lines";
               Plotly.name := "Bore Profile" |}];
         Plotly.title := Some "Bore Profile";
         Plotly.xaxis_title := Some "Length (mm)";
         Plotly.yaxis_title := Some "Diameter (mm)" |}
  end.

End Deepseek.

(** ** The part of pandas the session code uses *)

Module Pandas.

(** A frame: the column labels and the rows of cells (the row index is
    not modelled). *)
Record DataFrame : Type := {
  columns : list string;
  rows : list (list Py.value)
}.

(** [df.to_dict(orient="records")]: one [dict(zip(columns, row))] per row. *)
Definition to_dict_records (df : DataFrame) : list Py.value :=
  List.map (fun row => Py.VDict (Py.dict_of_pairs (combine (columns df) row)))
           (rows df).

(** The keys of the records in the order of their first appearance. *)
Definition add_keys (cols : list string) (keys : list string) : list string :=
  fold_left (fun cols k => if existsb (String.eqb k) cols then cols else cols ++ [k])
            keys cols.

Definition union_keys (records : list Py.dict) : list string :=
  fold_left (fun cols d => add_keys cols (List.map fst d)) records [].

(** [pd.DataFrame(records)] for a list of dicts: a cell a record does not
    give is [nan]. *)
Definition of_records (records : list Py.dict) : DataFrame :=
  let cols := union_keys records in
  {| columns := cols;
     rows := List.map (fun d => List.map (fun c => Py.dict_get d c Py.VNaN) cols)
                      records |}.

(** The payload seen as a list of dicts, when it is one. *)
Fixpoint all_dicts (l : list Py.value) : option (list Py.dict) :=
  match l with
  | [] => Some []
  | Py.VDict d :: l' =>
      match all_dicts l' with
      | Some ds => Some (d :: ds)
      | None => None
      end
  | _ => None
  end.

Definition as_records (data : Py.value) : option (list Py.dict) :=
  match data with
  | Py.VList l => all_dicts l
  | _ => None
  end.

(** [pd.DataFrame(data)]. What pandas does with a payload that is not a
    list of dicts (it accepts some, raises on others) is left to
    [other_payload]. *)
Definition DataFrame_of (other_payload : Py.value -> Py.result DataFrame)
    (data : Py.value) : Py.result DataFrame :=
  match as_records data with
  | Some records => Py.Ok (of_records records)
  | None => other_payload data
  end.

(** The frame of a sampled bore: columns [position] and [diameter]. *)
Definition of_profile (profile : list (Q * Q)) : DataFrame :=
  {| columns := ["position"; "diameter"];
     rows := List.map (fun pd : Q * Q => [Py.VNum (fst pd); Py.VNum (snd pd)])
                      profile |}.

(** [df[cols].values.tolist()]: the rows restricted to [cols]; a label
    that is not a column raises [KeyError]. *)
Fixpoint column_index (cols : list string) (c : string) : option nat :=
  match cols with
  | [] => None
  | c' :: cols' =>
      if String.eqb c' c then Some 0%nat
      else option_map S (column_index cols' c)
  end.

Definition select_values (df : DataFrame) (cols : list string)
    : Py.result (list (list Py.value)) :=
  idx ← Py.mapM (fun c => match column_index (columns df) c with
                          | Some i => Py.Ok i
                          | None => Py.Raise Py.KeyError
                          end) cols;
  Py.Ok (List.map (fun row => List.map (fun i => nth i row Py.VNaN) idx) (rows df)).

(** [df[c]]: the cells of one column; an unknown label raises [KeyError]. *)
Definition column (df : DataFrame) (c : string) : Py.result (list Py.value) :=
  match column_index (columns df) c with
  | Some i => Py.Ok (List.map (fun row => nth i row Py.VNaN) (rows df))
  | None => Py.Raise Py.KeyError
  end.

(** [pd.DataFrame({c1: v1, c2: v2})] for two distinct labels and two
    columns of values; columns of different lengths raise [ValueError]. *)
Definition of_two_columns (c1 : string) (v1 : list Py.value)
    (c2 : string) (v2 : list Py.value) : Py.result DataFrame :=
  if (List.length v1 =? List.length v2)%nat then
    Py.Ok {| columns := [c1; c2];
             rows := List.map (fun ab : Py.value * Py.value => [fst ab; snd ab])
                              (combine v1 v2) |}
  else Py.Raise Py.ValueError.

End Pandas.

(** ** session_manager.py *)

Module SessionManager.

Section Codec.

(** [json.dumps(v, indent=2)] and [json.loads(s)]; the functions below
    only pass the serialized text along, whose type is left open. *)
Variable text : Type.
Variable json_dumps : Py.value -> text.
Variable json_loads : text -> Py.result Py.value.

(** [datetime.now().isoformat()] at the time of the call. *)
Variable now_isoformat : string.

(** See [Pandas.DataFrame_of]. *)
Variable other_payload : Py.value -> Py.result Pandas.DataFrame.

Definition save_session (bore_df : Pandas.DataFrame)
    (temperature humidity material_props notes : Py.value) : text :=
  let session :=
    Py.dict_of_pairs
      [("timestamp", Py.VStr now_isoformat);
       ("notes", notes);
       ("bore_profile", Py.VList (Pandas.to_dict_records bore_df));
       ("environment",
        Py.VDict (Py.dict_of_pairs [("temperature", temperature);
                                    ("humidity", humidity)]));
       ("material", Py.or_else material_props (Py.VDict []))] in
  json_dumps (Py.VDict session).

Definition load_session (json_string : text)
    : Py.result (Pandas.DataFrame * Py.value * Py.value * Py.value * Py.value) :=
  session_data ← json_loads json_string;
  bore_profile ← Py.subscript session_data "bore_profile";
  bore_df ← Pandas.DataFrame_of other_payload bore_profile;
  environment ← Py.subscript session_data "environment";
  temperature ← Py.method_get environment "temperature" (Py.VNum 22);
  environment ← Py.subscript session_data "environment";
  humidity ← Py.method_get environment "humidity" (Py.VNum 50);
  material_props ← Py.method_get session_data "material" (Py.VDict []);
  notes ← Py.method_get session_data "notes" (Py.VStr "");
  Py.Ok (bore_df, temperature, humidity, material_props, notes).

End Codec.

Arguments save_session {text} json_dumps now_isoformat bore_df
  temperature humidity material_props notes.
Arguments load_session {text} json_loads other_payload json_string.

End SessionManager.

(** ** openwind_adapter.py *)

Module OpenwindAdapter.

(** [np.linspace(start, stop, num)] *)
Definition linspace (start stop : R) (num : nat) : list R :=
  List.map (fun i => (start + INR i * ((stop - start) / (INR num - 1)))%R)
           (seq 0 num).

(** [np.angle(x)] for a real [x]: the argument of [x + 0j]. *)
Definition np_angle (x : R) : R := if Rlt_dec x 0 then PI else 0%R.

(** The returned dict: arrays by key. *)
Definition response : Type := list (string * list R).

Fixpoint response_get (r : response) (k : string) : option (list R) :=
  match r with
  | [] => None
  | (k', a) :: r' => if String.eqb k' k then Some a else response_get r' k
  end.

Definition default_freq_range : R * R := (200%R, 2000%R).

Section Engine.

(** [openwind.temporal_simulation.simulate], called with [duration],
    [main_bore], [temperature], [losses], [record_energy], [hdf5_file]
    and [verbosity]; its record is not used afterwards, only whether it
    raised matters. *)
Variable simulate :
  Q -> list (list Py.value) -> Py.value -> bool -> bool -> option string -> Z ->
  Py.result unit.

Definition run_impedance_simulation (bore_df : Pandas.DataFrame)
    (temperature material_props : Py.value) (freq_range : R * R)
    : Py.result response :=
  main_bore ← Pandas.select_values bore_df ["position"; "diameter"];
  rec ← simulate (5 # 100) main_bore temperature true true None 0%Z;
  let f := linspace (fst freq_range) (snd freq_range) 500 in
  let impedance_mag :=
    List.map (fun f => (Rabs (sin (2 * PI * f / 1500)) * 1000000)%R) f in
  let impedance_phase :=
    List.map (fun f => (np_angle (sin (2 * PI * f / 1500)) * 180 / PI)%R) f in
  Py.Ok [("frequency", f); ("magnitude", impedance_mag);
         ("phase", impedance_phase)].

End Engine.

End OpenwindAdapter.

(** ** autotune.py *)

Module Autotune.

(** [np.argmin(a)]: the first index of the smallest item. *)
Fixpoint argmin_from (best : R) (best_i i : nat) (a : list R) : nat :=
  match a with
  | [] => best_i
  | v :: a' =>
      if Rlt_dec v best then argmin_from v i (S i) a'
      else argmin_from best best_i (S i) a'
  end.

Definition np_argmin (a : list R) : Py.result nat :=
  match a with
  | [] => Py.Raise Py.ValueError
  | v :: a' => Py.Ok (argmin_from v 0 1 a')
  end.

(** [r[k]] on the dict an adapter returns. *)
Definition response_item (r : OpenwindAdapter.response) (k : string)
    : Py.result (list R) :=
  match OpenwindAdapter.response_get r k with
  | Some a => Py.Ok a
  | None => Py.Raise Py.KeyError
  end.

(** The three variables of the search: [best_score] is [None] for the
    initial minus infinity. *)
Record best : Type := {
  best_score : option R;
  best_bore : option Pandas.DataFrame;
  best_result : option OpenwindAdapter.response
}.

(** [peak_value > best_score] *)
Definition improves (peak_value : R) (best_score : option R) : bool :=
  match best_score with
  | None => true
  | Some s => if Rgt_dec peak_value s then true else false
  end.

Section Search.

Variable simulate :
  Q -> list (list Py.value) -> Py.value -> bool -> bool -> option string -> Z ->
  Py.result unit.

(** The body of the two nested loops for one pair of diameters. *)
Definition try_candidate (bore_df : Pandas.DataFrame) (target_freq : R)
    (temperature material_props : Py.value) (freq_range : R * R)
    (st : best) (candidate : Q * Q) : Py.result best :=
  let entry_d := fst candidate in
  let exit_d := snd candidate in
  opt_x ← Pandas.column bore_df "position";
  let opt_y :=
    Py.linspace (entry_d / 1000) (exit_d / 1000) (List.length opt_x) in
  test_bore ←
    Pandas.of_two_columns "position" opt_x "diameter" (List.map Py.VNum opt_y);
  result ←
    OpenwindAdapter.run_impedance_simulation simulate test_bore temperature
      material_props freq_range;
  f ← response_item result "frequency";
  mag ← response_item result "magnitude";
  idx ← np_argmin (List.map (fun v => Rabs (v - target_freq)) f);
  peak_value ← Py.getitem mag idx;
  if improves peak_value (best_score st) then
    Py.Ok {| best_score := Some peak_value;
             best_bore := Some test_bore;
             best_result := Some result |}
  else Py.Ok st.

Definition autotune_bore (bore_df : Pandas.DataFrame) (target_freq : R)
    (temperature material_props : Py.value) (freq_range : R * R)
    (max_iter : nat)
    : Py.result (option Pandas.DataFrame * option OpenwindAdapter.response) :=
  let entry_range := Py.linspace (125 # 10) 15 max_iter in
  let exit_range := Py.linspace (125 # 10) 15 max_iter in
  final ←
    Py.foldM (try_candidate bore_df target_freq temperature material_props
                freq_range)
             (list_prod entry_range exit_range)
             {| best_score := None; best_bore := None; best_result := None |};
  Py.Ok (best_bore final, best_result final).

End Search.

End Autotune.

(** ** Vocabulary of the statements *)

(** *** The comparison list under repeated presses of the compare button *)

Module ComparisonHistory.

(** One press: the inputs the callback receives besides the list it
    updates. *)
Record addition : Type := {
  clicks : Z;
  sim : option Py.dict;
  given_name : option string
}.

(** The list returned by the callback when the button triggers it. *)
Definition after (a : addition) (comparison_data : list Callbacks.entry)
    : list Callbacks.entry :=
  fst (Callbacks.add_to_comparison "compare-mode-btn" (clicks a) (sim a)
         (given_name a) (Some comparison_data)).

Definition no_entry : Callbacks.entry :=
  {| Callbacks.name := "";
     Callbacks.entry_f1 := Py.VNone;
     Callbacks.entry_cutoff := Py.VNone;
     Callbacks.entry_resistance := Py.VNone;
     Callbacks.entry_brightness := Py.VNone;
     Callbacks.entry_harmonicity := Py.VNone |}.

(** The entry a press appends: the last one of the returned list. *)
Definition added_entry (a : addition) (comparison_data : list Callbacks.entry)
    : Callbacks.entry :=
  List.last (after a comparison_data) no_entry.

(** The list after a sequence of presses; the store feeds each result
    back into the next call. *)
Fixpoint run_additions (adds : list addition)
    (comparison_data : list Callbacks.entry) : list Callbacks.entry :=
  match adds with
  | [] => comparison_data
  | a :: adds' => run_additions adds' (after a comparison_data)
  end.

(** Every entry appended along the way, oldest first. *)
Fixpoint added_log (adds : list addition)
    (comparison_data : list Callbacks.entry) : list Callbacks.entry :=
  match adds with
  | [] => []
  | a :: adds' =>
      added_entry a comparison_data :: added_log adds' (after a comparison_data)
  end.

(** A press with a design name typed in and a result in the store. *)
Definition named (s : string) : addition :=
  {| clicks := 1; sim := Some [("f1", Py.VNum 440)]; given_name := Some s |}.

End ComparisonHistory.

(** *** Thickness map, outline and cost *)

(** For the hourglass exterior the sample at [x] lies within 200 of half
    the axis span [length], which is where its outer factor reaches 1. *)
Definition hourglass_in_range (exterior_shape : string) (length x : Q) : Prop :=
  exterior_shape = "Hourglass (waist tapered)" ->
  Qabs (x - (1 # 2) * length) <= 200.

Definition hourglass_curve_in_range (exterior_shape : string)
    (x_vals : list Q) : Prop :=
  List.Forall (hourglass_in_range exterior_shape
                 (Py.last_item x_vals - Py.first_item x_vals)) x_vals.

(** Segment order by starting position. *)
Definition starts_before (s t : Geometry.segment) : Prop :=
  Geometry.start_pos s <= Geometry.start_pos t.

(** The outline as points: the two coordinate lists side by side. *)
Definition outline_points (outline : list Q * list Q) : list (Q * Q) :=
  combine (fst outline) (snd outline).


(** The records a sampled bore is saved as. *)
Definition profile_dicts (profile : list (Q * Q)) : list Py.dict :=
  List.map (fun pd : Q * Q =>
              [("position", Py.VNum (fst pd)); ("diameter", Py.VNum (snd pd))])
           profile.

(** *** Profiles, outlines and hole tables *)

(** The point below the axis that faces [p]. *)
Definition mirror (p : Q * Q) : Q * Q := (fst p, - snd p).

(** The values Python's unary minus accepts: numbers (and [nan]), a bool
    counting as a number. *)
Definition has_minus (v : Py.value) : bool :=
  match v with
  | Py.VNum _ | Py.VBool _ | Py.VNaN => true
  | _ => false
  end.

(** A bore shape that none of the four special cases of the generator
    names: ["Cylindrical"], or any other text. *)
Definition plain_shape (bore_shape : string) : Prop :=
  bore_shape <> "Tapered" /\ bore_shape <> "Reverse Tapered" /\
  bore_shape <> "Parabolic" /\ bore_shape <> "Stepped".

(** Positions that start at 0 and stay between 0 and the last one. *)
Definition on_axis (x_vals : list Q) : Prop :=
  Py.first_item x_vals == 0 /\
  List.Forall (fun x => 0 <= x /\ x <= Py.last_item x_vals) x_vals.

(** The holes table after [k] presses of its add-row button. *)
Fixpoint press_add_holes (k : nat) (current_data : list Py.dict)
    : list Py.dict :=
  match k with
  | O => current_data
  | S k' => Callbacks.add_holes_row (Z.of_nat k) (press_add_holes k' current_data)
  end.

(** The row a press appends to a table of [n] rows. *)
Definition hole_row (n : nat) : Py.dict :=
  [("label", Py.VStr (String.append "Hole" (Py.str_of_nat (n + 1))));
   ("position", Py.VNum 0);
   ("chimney", Py.VNum 3);
   ("diameter", Py.VNum 7)].

(** *** Comparison entries and saved designs *)

(** The comparison entry of a simulation result under a name. *)
Definition entry_of (design_name : string) (r : Simulation.sim_results)
    : Callbacks.entry :=
  {| Callbacks.name := design_name;
     Callbacks.entry_f1 := Py.VNum (Simulation.f1 r);
     Callbacks.entry_cutoff := Py.VNum (Simulation.cutoff r);
     Callbacks.entry_resistance := Py.VNum (Simulation.resistance r);
     Callbacks.entry_brightness := Py.VNum (Simulation.brightness r);
     Callbacks.entry_harmonicity := Py.VNum (Simulation.harmonicity r) |}.

(** A press with a result in the store and the name field left empty. *)
Definition unnamed (a : ComparisonHistory.addition) : Prop :=
  Callbacks.sim_present (ComparisonHistory.sim a) = true /\
  Callbacks.name_given (ComparisonHistory.given_name a) = false.

(** The name an unnamed design gets when the list holds [n] entries. *)
Definition default_name (n : nat) : string :=
  String.append "Design " (Py.str_of_nat (n + 1)).

(** One press of the save button: the name typed in and the design on
    the form. *)
Record save_request : Type := {
  save_name : option string;
  saved : Callbacks.design
}.

Definition save_one (r : save_request) (st : Callbacks.app_state)
    : Callbacks.app_state :=
  snd (Callbacks.save_design_to_memory 1 (save_name r)
         (Callbacks.bore_shape (saved r)) (Callbacks.exterior_shape (saved r))
         (Callbacks.entry_diam (saved r)) (Callbacks.exit_diam (saved r))
         (Callbacks.length_mm (saved r)) (Callbacks.resolution (saved r))
         (Callbacks.material (saved r)) (Callbacks.simulation (saved r)) st).

(** The state after a sequence of presses. *)
Fixpoint run_saves (requests : list save_request) (st : Callbacks.app_state)
    : Callbacks.app_state :=
  match requests with
  | [] => st
  | r :: requests' => run_saves requests' (save_one r st)
  end.

(** The request was typed in under the name [s]. *)
Definition saved_as (s : string) (r : save_request) : bool :=
  match save_name r with
  | Some n => String.eqb n s
  | None => false
  end.

(** What a press prints: one line when a name is given. *)
Definition printed_line (r : save_request) : list string :=
  match save_name r with
  | Some n => if String.eqb n "" then [] else [String.append "Saved design: " n]
  | None => []
  end.

(** *** The optimizer, the adapter and the tuner *)

(** The cone handed to the engine for a geometry in millimetres. *)
Definition cone_of (geometry : Deepseek.geometry) : Deepseek.cone :=
  {| Deepseek.cone_length := Deepseek.length_mm geometry / 1000;
     Deepseek.radius_0 := Deepseek.entry_diam geometry / 2000;
     Deepseek.radius_1 := Deepseek.exit_diam geometry / 2000 |}.

(** The frequency grid of the optimizer's engine call. *)
Definition engine_grid : list Q := Py.linspace 100 2000 100.

(** A point lies in a box: one coordinate per interval, each inside. *)
Definition in_box (x : list Q) (bounds : list (Q * Q)) : Prop :=
  List.Forall2 (fun v b => fst b <= v /\ v <= snd b) x bounds.

(** The point the search starts from. *)
Definition start_point (initial_params : Deepseek.geometry) : list Q :=
  [Deepseek.entry_diam initial_params; Deepseek.exit_diam initial_params;
   Deepseek.length_mm initial_params].



(** The three arrays the engine adapter computes for a frequency range. *)
Definition response_of (freq_range : R * R) : OpenwindAdapter.response :=
  let f := OpenwindAdapter.linspace (fst freq_range) (snd freq_range) 500 in
  [("frequency", f);
   ("magnitude",
    List.map (fun f => (Rabs (sin (2 * PI * f / 1500)) * 1000000)%R) f);
   ("phase",
    List.map (fun f => (OpenwindAdapter.np_angle (sin (2 * PI * f / 1500))
                        * 180 / PI)%R) f)].

(** The bore the tuner tries for a pair of end diameters, in millimetres,
    over the positions [opt_x]. *)
Definition candidate_bore (opt_x : list Py.value) (candidate : Q * Q)
    : Pandas.DataFrame :=
  {| Pandas.columns := ["position"; "diameter"];
     Pandas.rows :=
       List.map (fun ab : Py.value * Py.value => [fst ab; snd ab])
         (combine opt_x
            (List.map Py.VNum
               (Py.linspace (fst candidate / 1000) (snd candidate / 1000)
                  (List.length opt_x)))) |}.

(** Whether a value is a JSON object. *)
Definition is_object (v : Py.value) : bool :=
  match v with
  | Py.VDict _ => true
  | _ => false
  end.

(** *** Worked inputs *)

(** An engine run that succeeds. *)
Definition engine_ok
    : Q -> list (list Py.value) -> Py.value -> bool -> bool ->
      option string -> Z -> Py.result unit :=
  fun _ _ _ _ _ _ _ => Py.Ok tt.

(** A 66 mm cylindrical bore, in metres. *)
Definition short_bore : Pandas.DataFrame :=
  Pandas.of_profile [(0, 15 # 1000); (66 # 1000, 15 # 1000)].

(** A generator whose every draw is one half. *)
Definition steady_rng : Simulation.rng :=
  {| Simulation.draws := fun _ => 1 # 2; Simulation.taken := 0 |}.

(** A result at the three boundary values. *)
Definition boundary_result : Simulation.sim_results :=
  {| Simulation.f1 := 450; Simulation.cutoff := 990;
     Simulation.resistance := 30;
     Simulation.freq := []; Simulation.impedance_curve := [];
     Simulation.admittance_curve := [];
     Simulation.harmonicity := 80 # 100;
     Simulation.brightness := 4 # 10 |}.

(** A session object without any optional field. *)
Definition bare_session : Py.value :=
  Py.VDict [("bore_profile",
             Py.VList [Py.VDict [("position", Py.VNum 0); ("diameter", Py.VNum 15)]]);
            ("environment", Py.VDict [])].

(** A session object with both required fields and no optional one, whose
    environment is JSON's [null]. *)
Definition null_environment_session : Py.value :=
  Py.VDict [("bore_profile",
             Py.VList [Py.VDict [("position", Py.VNum 0); ("diameter", Py.VNum 15)]]);
            ("environment", Py.VNone)].

(** A codec that reads back what it writes: the text is the value. *)
Definition plain_dumps (v : Py.value) : Py.value := v.
Definition plain_loads (t : Py.value) : Py.result Py.value := Py.Ok t.

(** A payload handler that rejects whatever is not a list of records. *)
Definition reject_payload (data : Py.value) : Py.result Pandas.DataFrame :=
  Py.Raise Py.ValueError.

(** An engine answer for the cost function. *)
Definition flat_response (g : Deepseek.geometry)
    : Py.result Deepseek.openwind_result :=
  Py.Ok {| Deepseek.f1 := 450;
           Deepseek.impedance_curve := [1; 2; 3];
           Deepseek.frequencies := [100; 200; 300] |}.

(** A design as the form holds it. *)
Definition study_design : Callbacks.design :=
  {| Callbacks.bore_shape := Py.VStr "Cylindrical";
     Callbacks.exterior_shape := Py.VStr "Standard (parallel exterior)";
     Callbacks.entry_diam := Py.VNum 15;
     Callbacks.exit_diam := Py.VNum 15;
     Callbacks.length_mm := Py.VNum 66;
     Callbacks.resolution := Py.VStr "Low";
     Callbacks.material := Py.VStr "Composite";
     Callbacks.simulation := Py.VNone |}.

(** The application before any design is saved. *)
Definition empty_state : Callbacks.app_state :=
  {| Callbacks.stored_designs := ∅; Callbacks.stdout := [] |}.

(** A minimizer that returns its starting point. *)
Definition keep_start (f : list Q -> Py.result Q) (x0 : list Q)
    (bounds : list (Q * Q)) (method : string)
    : Py.result Deepseek.optimize_result :=
  Py.Ok {| Deepseek.opt_x := x0; Deepseek.opt_success := true |}.

(** An engine whose impedance magnitude is 1 at every frequency. *)
Definition silent_engine (frequencies : list Q) (c : Deepseek.cone)
    : Py.result (list Q) :=
  Py.Ok (List.map (fun _ => 1) frequencies).

(** A 66 mm cylindrical barrel, in millimetres. *)
Definition plain_barrel : Deepseek.geometry :=
  {| Deepseek.entry_diam := 15; Deepseek.exit_diam := 15;
     Deepseek.length_mm := 66 |}.

(** * Properties *)

(** ** Lists, numbers and the exception monad *)

Ltac py_run := unfold mbind, result_bind; cbn [Py.bind].

Lemma nth_map_seq {A : Type} (f : nat -> A) (n i : nat) (d : A) :
  (i < n)%nat -> nth i (List.map f (seq 0 n)) d = f i.
Proof.
  intros Hi.
  rewrite (nth_indep _ d (f 0%nat))
    by (rewrite List.length_map, List.length_seq; exact Hi).
  rewrite List.map_nth. rewrite List.seq_nth by exact Hi. reflexivity.
Qed.

Lemma of_nat_lt (i j : nat) : (i < j)%nat -> Py.of_nat i < Py.of_nat j.
Proof. intros H. unfold Py.of_nat. rewrite <- Zlt_Qlt. lia. Qed.

Lemma of_nat_le (i j : nat) : (i <= j)%nat -> Py.of_nat i <= Py.of_nat j.
Proof. intros H. unfold Py.of_nat. rewrite <- Zle_Qle. lia. Qed.

Lemma of_nat_nonneg (i : nat) : 0 <= Py.of_nat i.
Proof. change 0 with (Py.of_nat 0). apply of_nat_le. lia. Qed.

Lemma of_nat_pred (n : nat) :
  (1 <= n)%nat -> Py.of_nat (n - 1) == Py.of_nat n - 1.
Proof.
  intros H. unfold Py.of_nat.
  replace (Z.of_nat (n - 1)) with (Z.of_nat n - 1)%Z by lia.
  unfold Qeq, Qminus, Qplus, Qopp, inject_Z; simpl; lia.
Qed.

Lemma of_nat_pred_pos (n : nat) : (2 <= n)%nat -> 0 < Py.of_nat n - 1.
Proof.
  intros H. rewrite <- of_nat_pred by lia.
  change 0 with (Py.of_nat 0). apply of_nat_lt. lia.
Qed.

Lemma div_ok (a b : Q) : 0 < b -> Py.div a b = Py.Ok (a / b).
Proof.
  intros Hb. unfold Py.div. destruct (Qeq_bool b 0) eqn:E; [|reflexivity].
  apply Qeq_bool_iff in E. rewrite E in Hb. discriminate.
Qed.

Lemma enumerate_length {A : Type} (l : list A) :
  List.length (Py.enumerate l) = List.length l.
Proof.
  unfold Py.enumerate. rewrite List.length_combine, List.length_seq. lia.
Qed.

Lemma enumerate_In {A : Type} (l : list A) (i : nat) (x : A) :
  In (i, x) (Py.enumerate l) -> (i < List.length l)%nat /\ In x l.
Proof.
  unfold Py.enumerate. intros H. split.
  - apply in_combine_l in H. apply List.in_seq in H. lia.
  - apply in_combine_r in H. exact H.
Qed.

(** A loop whose every iteration succeeds returns one item per input. *)
Lemma mapM_ok {A B : Type} (f : A -> Py.result B) (P : B -> Prop) (l : list A) :
  (forall a, In a l -> exists b, f a = Py.Ok b /\ P b) ->
  exists bs, Py.mapM f l = Py.Ok bs /\
             List.length bs = List.length l /\ List.Forall P bs.
Proof.
  induction l as [|a l IH]; intros H.
  - exists []. repeat split. constructor.
  - destruct (H a (or_introl eq_refl)) as (b & Hb & HP).
    destruct IH as (bs & Hbs & Hlen & Hall);
      [intros a' Ha'; apply H; right; exact Ha'|].
    exists (b :: bs). cbn [Py.mapM]. rewrite Hb. cbn [Py.bind].
    rewrite Hbs. cbn [Py.bind].
    repeat split; [cbn; rewrite Hlen; reflexivity | constructor; assumption].
Qed.

Lemma Forall2_nth_Q (P : Q -> Q -> Prop) (l1 l2 : list Q) :
  List.Forall2 P l1 l2 ->
  List.length l1 = List.length l2 /\
  forall i, (i < List.length l2)%nat -> P (nth i l1 0) (nth i l2 0).
Proof.
  induction 1 as [|x y l1 l2 Hxy _ [IHl IHn]].
  - split; [reflexivity|]. intros i Hi. cbn in Hi. lia.
  - split; [cbn; rewrite IHl; reflexivity|].
    intros [|i] Hi; cbn in *; [exact Hxy|]. apply IHn. lia.
Qed.

Lemma lt_cases (a b : Q) :
  (Py.lt a b = true /\ a < b) \/ (Py.lt a b = false /\ b <= a).
Proof.
  unfold Py.lt. destruct (Qle_bool b a) eqn:E.
  - right. split; [reflexivity|]. apply Qle_bool_iff. exact E.
  - left. split; [reflexivity|]. apply Qnot_le_lt. intro H.
    apply Qle_bool_iff in H. congruence.
Qed.

Lemma ge_cases (a b : Q) :
  (Py.ge a b = true /\ b <= a) \/ (Py.ge a b = false /\ a < b).
Proof.
  unfold Py.ge. destruct (Qle_bool b a) eqn:E.
  - left. split; [reflexivity|]. apply Qle_bool_iff. exact E.
  - right. split; [reflexivity|]. apply Qnot_le_lt. intro H.
    apply Qle_bool_iff in H. congruence.
Qed.

(** ** The profile generators *)

Lemma num_points_ge_2 (resolution : string) :
  (2 <= Geometry.num_points_of resolution)%nat.
Proof.
  unfold Geometry.num_points_of.
  destruct (Nat.ltb_spec (Geometry.resolution_points resolution) 2); lia.
Qed.

Lemma range_from_zero_length (stop step : Z) :
  (0 <= stop)%Z -> (1 <= step)%Z ->
  List.length (Py.range 0 (stop + 1) step) = S (Z.to_nat (stop / step)).
Proof.
  intros Hs Hp. unfold Py.range. rewrite List.length_map, List.length_seq.
  replace (stop + 1 - 0 + step - 1)%Z with (stop + 1 * step)%Z by lia.
  rewrite Z_div_plus_full by lia.
  pose proof (Z.div_pos stop step Hs ltac:(lia)). lia.
Qed.

Lemma range_from_zero_nth (stop step : Z) (i : nat) :
  (i < List.length (Py.range 0 stop step))%nat ->
  nth i (Py.range 0 stop step) 0%Z = (Z.of_nat i * step)%Z.
Proof.
  unfold Py.range. rewrite List.length_map, List.length_seq. intros Hi.
  rewrite nth_map_seq by exact Hi. lia.
Qed.

(** C1, as amended. The generator of geometry.py takes the sample count
    [n] from the name of the resolution, 10 for Low, 60 for High and 30 for
    Medium and every other value; it returns [n] positions and [n]
    diameters with [position[i] = i * (length_mm / (n - 1))], the first
    position is 0, and the positions are strictly increasing as soon as the
    step [length_mm / (n - 1)] is positive. The generator of simulation.py
    (the resolution is an integer step, at least 1) returns
    [n = length_mm // step + 1] positions and diameters with
    [position[i] = i * step]: they increase strictly from 0 to
    [length_mm - length_mm mod step], and equal [i * length_mm / (n - 1)],
    ending at [length_mm], when the step divides the length. *)
Theorem C1_profile_positions (bore_shape : string)
    (entry_diam exit_diam length_mm : Q) (resolution : string)
    (length_steps step_mm : Z) :
  0 < length_mm / (Py.of_nat (Geometry.num_points_of resolution) - 1) ->
  (0 < length_steps)%Z ->
  (let n := Geometry.num_points_of resolution in
   let x_vals :=
     fst (Geometry.generate_barrel_profile bore_shape entry_diam exit_diam
            length_mm resolution) in
   let diam_vals :=
     snd (Geometry.generate_barrel_profile bore_shape entry_diam exit_diam
            length_mm resolution) in
   (resolution = "Low" -> n = 10%nat) /\
   (resolution = "High" -> n = 60%nat) /\
   (resolution <> "Low" -> resolution <> "High" -> n = 30%nat) /\
   (2 <= n)%nat /\
   List.length x_vals = n /\
   List.length diam_vals = n /\
   (forall i, (i < n)%nat ->
      nth i x_vals 0 = Py.of_nat i * (length_mm / (Py.of_nat n - 1))) /\
   (forall i j, (i < j)%nat -> (j < n)%nat -> nth i x_vals 0 < nth j x_vals 0) /\
   nth 0 x_vals 0 == 0) /\
  (let step := if (step_mm <? 1)%Z then 1%Z else step_mm in
   let x_vals :=
     fst (Simulation.generate_barrel_profile bore_shape entry_diam exit_diam
            length_steps step_mm) in
   let diam_vals :=
     snd (Simulation.generate_barrel_profile bore_shape entry_diam exit_diam
            length_steps step_mm) in
   let n := List.length x_vals in
   n = S (Z.to_nat (length_steps / step)) /\
   List.length diam_vals = n /\
   (forall i, (i < n)%nat -> nth i x_vals 0%Z = (Z.of_nat i * step)%Z) /\
   (forall i j, (i < j)%nat -> (j < n)%nat ->
      (nth i x_vals 0 < nth j x_vals 0)%Z) /\
   nth 0 x_vals 0%Z = 0%Z /\
   nth (n - 1) x_vals 0%Z = (length_steps - length_steps mod step)%Z /\
   ((step | length_steps)%Z ->
    (2 <= n)%nat /\
    nth (n - 1) x_vals 0%Z = length_steps /\
    forall i, (i < n)%nat ->
      inject_Z (nth i x_vals 0%Z)
      == Py.of_nat i * inject_Z length_steps / (Py.of_nat n - 1))).
Proof.
  intros Hpos Hsteps. split.
  - intros n x_vals diam_vals.
    pose proof (num_points_ge_2 resolution) as Hn. fold n in Hn, Hpos.
    subst x_vals diam_vals. unfold Geometry.generate_barrel_profile.
    fold n. cbn [fst snd].
    split; [intros ->; reflexivity|].
    split; [intros ->; reflexivity|].
    split.
    { intros Hlow Hhigh. subst n.
      unfold Geometry.num_points_of, Geometry.resolution_points.
      destruct (String.eqb_spec resolution "Low"); [contradiction|].
      destruct (String.eqb resolution "Medium"); [reflexivity|].
      destruct (String.eqb_spec resolution "High"); [contradiction|].
      reflexivity. }
    split; [exact Hn|].
    split; [rewrite List.length_map, List.length_seq; reflexivity|].
    split; [rewrite List.length_map, List.length_seq; reflexivity|].
    split.
    { intros i Hi.
      exact (nth_map_seq
               (fun i => Py.of_nat i * (length_mm / (Py.of_nat n - 1)))
               n i 0 Hi). }
    split.
    { intros i j Hij Hj. rewrite !nth_map_seq by lia.
      apply Qmult_lt_compat_r; [exact Hpos|]. apply of_nat_lt; exact Hij. }
    rewrite nth_map_seq by lia. unfold Py.of_nat. simpl inject_Z. ring.
  - intros step x_vals diam_vals n.
    assert (Hstep : (1 <= step)%Z)
      by (subst step; destruct (Z.ltb_spec step_mm 1); lia).
    assert (Hx : x_vals = Py.range 0 (length_steps + 1) step) by reflexivity.
    assert (Hn : n = S (Z.to_nat (length_steps / step))).
    { subst n. rewrite Hx. apply range_from_zero_length; lia. }
    assert (Hnth : forall i, (i < n)%nat ->
                             nth i x_vals 0%Z = (Z.of_nat i * step)%Z).
    { intros i Hi. rewrite Hx. apply range_from_zero_nth. rewrite <- Hx. exact Hi. }
    assert (Hq : (0 <= length_steps / step)%Z) by (apply Z.div_pos; lia).
    assert (Hpred : (n - 1)%nat = Z.to_nat (length_steps / step)) by lia.
    assert (Hlast : nth (n - 1) x_vals 0%Z = (length_steps - length_steps mod step)%Z).
    { rewrite Hnth by lia. rewrite Hpred, Z.mod_eq by lia.
      rewrite Z2Nat.id by exact Hq. lia. }
    split; [exact Hn|].
    split.
    { subst diam_vals. unfold Simulation.generate_barrel_profile. cbn [snd].
      rewrite List.length_map, enumerate_length. reflexivity. }
    split; [exact Hnth|].
    split; [intros i j Hij Hj; rewrite !Hnth by lia; nia|].
    split; [rewrite Hnth by lia; lia|].
    split; [exact Hlast|].
    intros [k Hk].
    assert (Hdiv : (length_steps / step = k)%Z) by (rewrite Hk; apply Z.div_mul; lia).
    assert (Hkpos : (1 <= k)%Z) by nia.
    split; [rewrite Hn, Hdiv; lia|].
    split; [rewrite Hlast, Hk, Z.mod_mul by lia; lia|].
    intros i Hi. rewrite Hnth by exact Hi.
    rewrite <- of_nat_pred by lia.
    assert (Hn1 : Py.of_nat (n - 1) == inject_Z k).
    { unfold Py.of_nat. rewrite Hpred, Z2Nat.id by exact Hq.
      rewrite Hdiv. reflexivity. }
    rewrite Hn1, Hk. unfold Py.of_nat. rewrite !inject_Z_mult.
    field. intro E.
    assert (Hk0 : inject_Z 0 < inject_Z k) by (rewrite <- Zlt_Qlt; lia).
    rewrite E in Hk0. discriminate.
Qed.

Lemma C1_profile_positions_witness :
  0 < 66 / (Py.of_nat (Geometry.num_points_of "High") - 1) /\ (0 < 66)%Z /\
  List.length
    (fst (Geometry.generate_barrel_profile "Cylindrical" 15 15 66 "High"))
  = 60%nat /\
  nth 22 (fst (Simulation.generate_barrel_profile "Cylindrical" 15 15 66 3)) 0%Z
    = 66%Z.
Proof.
  assert (H1 : 0 < 66 / (Py.of_nat (Geometry.num_points_of "High") - 1))
    by reflexivity.
  assert (H2 : (0 < 66)%Z) by reflexivity.
  destruct (C1_profile_positions "Cylindrical" 15 15 66 "High" 66 3 H1 H2)
    as [Hg Hs].
  cbv zeta in Hg, Hs.
  destruct Hg as (_ & Hhigh & _ & _ & Hlen & _).
  destruct Hs as (_ & _ & _ & _ & _ & Hend & _).
  split; [exact H1|]. split; [exact H2|].
  split; [rewrite Hlen; apply Hhigh; reflexivity | exact Hend].
Defined.

(** The claim of C1 fails on the step-based generator of simulation.py:
    for a length of 10 and a step of 3 the four positions are 0, 3, 6, 9.
    It also fails on the last position of geometry.py, which the
    interpreter computes in binary64 floats: for a length of 60 and the
    Medium resolution, [29 * (60 / 29)] is not 60 but the next float
    above it. *)
Lemma C1_counterexample :
  let x_vals :=
    fst (Simulation.generate_barrel_profile "Cylindrical" 15 15 10 3) in
  let n := List.length x_vals in
  (n = 4%nat /\
   x_vals = [0; 3; 6; 9]%Z /\
   ~ inject_Z (nth 1 x_vals 0%Z) == Py.of_nat 1 * 10 / (Py.of_nat n - 1) /\
   ~ inject_Z (nth (n - 1) x_vals 0%Z) == 10) /\
  (let last := nth 29 (Geometry.x_vals_float 60 "Medium") 0%float in
   List.length (Geometry.x_vals_float 60 "Medium") = 30%nat /\
   PrimFloat.eqb last 60 = false /\
   PrimFloat.ltb 60 last = true /\
   PrimFloat.eqb last (PrimFloat.next_up 60) = true).
Proof.
  cbv zeta. split.
  - split; [reflexivity|]. split; [reflexivity|].
    split; intro H; vm_compute in H; discriminate.
  - split; [reflexivity|]. split; [vm_compute; reflexivity|].
    split; vm_compute; reflexivity.
Qed.

(** ** The simulation adapters *)

Lemma uniform_bounds (a b : Q) (g : Simulation.rng) :
  Simulation.unit_draws g -> a < b ->
  a <= fst (Simulation.uniform a b g) /\ fst (Simulation.uniform a b g) < b.
Proof.
  intros Hg Hab. unfold Simulation.uniform. cbn [fst].
  destruct (Hg (Simulation.taken g)) as [H0 H1].
  set (d := Simulation.draws g (Simulation.taken g)) in *.
  assert (Hlo : 0 <= (b - a) * d) by (apply Qmult_le_0_compat; lra).
  assert (Hhi : (b - a) * d < (b - a) * 1) by (apply Qmult_lt_l; lra).
  split; lra.
Qed.

Lemma uniform_keeps_draws (a b : Q) (g : Simulation.rng) :
  Simulation.unit_draws g -> Simulation.unit_draws (snd (Simulation.uniform a b g)).
Proof. intros Hg. exact Hg. Qed.

Lemma uniform_each_spec {A : Type} (a b : Q) (items : list A) :
  a < b ->
  forall g : Simulation.rng,
  Simulation.unit_draws g ->
  List.length (fst (Simulation.uniform_each a b items g)) = List.length items /\
  List.Forall (fun x => a <= x /\ x < b)
              (fst (Simulation.uniform_each a b items g)) /\
  Simulation.unit_draws (snd (Simulation.uniform_each a b items g)).
Proof.
  intros Hab. induction items as [|it items IH]; intros g Hg.
  - cbn. repeat split; [constructor | apply Hg | apply Hg].
  - cbn [Simulation.uniform_each].
    pose proof (uniform_bounds a b g Hg Hab) as Hx.
    pose proof (uniform_keeps_draws a b g Hg) as Hg1.
    destruct (Simulation.uniform a b g) as [x g1].
    cbn [fst snd] in Hx, Hg1. specialize (IH g1 Hg1).
    destruct (Simulation.uniform_each a b items g1) as [xs g2].
    cbn [fst snd] in *. destruct IH as (Hlen & Hall & Hg2).
    split; [cbn; rewrite Hlen; reflexivity|].
    split; [constructor; assumption | exact Hg2].
Qed.

Lemma div_one_ok (z : Q) : ~ z == 0 -> Py.div 1 z = Py.Ok (1 / z).
Proof.
  intros Hz. unfold Py.div. destruct (Qeq_bool z 0) eqn:E; [|reflexivity].
  apply Qeq_bool_iff in E. contradiction.
Qed.

Lemma reciprocals_spec (zs : list Q) :
  List.Forall (fun z => ~ z == 0) zs ->
  exists adm, Py.mapM (fun imp => Py.div 1 imp) zs = Py.Ok adm /\
              List.Forall2 (fun a z => a * z == 1) adm zs.
Proof.
  induction 1 as [|z zs Hz _ IH].
  - exists []. split; [reflexivity | constructor].
  - destruct IH as (adm & Hadm & Hall).
    exists (1 / z :: adm). split.
    + cbn [Py.mapM]. rewrite (div_one_ok z Hz). cbn [Py.bind].
      rewrite Hadm. reflexivity.
    + constructor; [|exact Hall]. field. exact Hz.
Qed.

(** The admittance curve: each item is the quotient computed from its
    impedance. *)
Lemma reciprocals_div (zs : list Q) :
  List.Forall (fun z => ~ z == 0) zs ->
  exists adm, Py.mapM (fun imp => Py.div 1 imp) zs = Py.Ok adm /\
              List.Forall2 (fun a z => Py.Ok a = Py.div 1 z) adm zs.
Proof.
  induction 1 as [|z zs Hz _ IH].
  - exists []. split; [reflexivity | constructor].
  - destruct IH as (adm & Hadm & Hall).
    exists (1 / z :: adm). split.
    + cbn [Py.mapM]. rewrite (div_one_ok z Hz). cbn [Py.bind].
      rewrite Hadm. reflexivity.
    + constructor; [|exact Hall]. rewrite (div_one_ok z Hz). reflexivity.
Qed.

Lemma linspace_length (start stop : R) (num : nat) :
  List.length (OpenwindAdapter.linspace start stop num) = num.
Proof.
  unfold OpenwindAdapter.linspace.
  rewrite List.length_map, List.length_seq. reflexivity.
Qed.

(** C2, as amended. Every result of the placeholder adapter
    [run_mock_simulation] has a frequency axis of 38 points and impedance
    and admittance curves of that length, every impedance lies between 0.5
    and 1.5 and so is not zero, and the admittance at every index is the
    quotient [1.0 / impedance], a division that does not fail. The
    engine-backed adapter [run_impedance_simulation], when the engine run
    succeeds, returns the three arrays [frequency], [magnitude] and
    [phase], each of 500 points, and no admittance curve. *)
Theorem C2_adapter_curves
    (profile_points : list Q) (material : string) (thickness : Q)
    (g : Simulation.rng)
    (simulate : Q -> list (list Py.value) -> Py.value -> bool -> bool ->
                option string -> Z -> Py.result unit)
    (bore_df : Pandas.DataFrame) (temperature material_props : Py.value)
    (freq_range : R * R) (main_bore : list (list Py.value)) :
  Simulation.unit_draws g ->
  Pandas.select_values bore_df ["position"; "diameter"] = Py.Ok main_bore ->
  simulate (5 # 100) main_bore temperature true true None 0%Z = Py.Ok tt ->
  (exists r : Simulation.sim_results,
     fst (Simulation.run_mock_simulation profile_points material thickness g)
       = Py.Ok r /\
     List.length (Simulation.freq r) = 38%nat /\
     List.length (Simulation.impedance_curve r) = List.length (Simulation.freq r) /\
     List.length (Simulation.admittance_curve r) = List.length (Simulation.freq r) /\
     forall i, (i < List.length (Simulation.freq r))%nat ->
       (1 # 2) <= nth i (Simulation.impedance_curve r) 0 /\
       nth i (Simulation.impedance_curve r) 0 <= (3 # 2) /\
       ~ nth i (Simulation.impedance_curve r) 0 == 0 /\
       Py.div 1 (nth i (Simulation.impedance_curve r) 0)
       = Py.Ok (nth i (Simulation.admittance_curve r) 0)) /\
  (exists (r : OpenwindAdapter.response) (f mag phase : list R),
     OpenwindAdapter.run_impedance_simulation simulate bore_df temperature
       material_props freq_range = Py.Ok r /\
     r = [("frequency", f); ("magnitude", mag); ("phase", phase)] /\
     List.length f = 500%nat /\
     List.length mag = 500%nat /\
     List.length phase = 500%nat /\
     OpenwindAdapter.response_get r "admittance_curve" = None).
Proof.
  intros Hg Hsel Hsim. split.
  - unfold Simulation.run_mock_simulation.
    pose proof (uniform_keeps_draws (-30) 30 g Hg) as Hg1.
    destruct (Simulation.uniform (-30) 30 g) as [u1 g1]. cbn [snd] in Hg1.
    pose proof (uniform_keeps_draws 20 80 g1 Hg1) as Hg2.
    destruct (Simulation.uniform 20 80 g1) as [u2 g2]. cbn [snd] in Hg2.
    pose proof (uniform_each_spec (1 # 2) (3 # 2) (Py.range 100 2000 50)
                  eq_refl g2 Hg2) as (Hlen & Hall & Hg3).
    destruct (Simulation.uniform_each (1 # 2) (3 # 2) (Py.range 100 2000 50) g2)
      as [impedance g3].
    cbn [fst snd] in Hlen, Hall, Hg3.
    destruct (Simulation.uniform (7 # 10) (95 # 100) g3) as [u3 g4].
    destruct (Simulation.uniform (3 # 10) (8 # 10) g4) as [u4 g5].
    assert (Hnz : List.Forall (fun z => ~ z == 0) impedance).
    { eapply List.Forall_impl; [|exact Hall]. cbn. intros z [Hz _] E.
      rewrite E in Hz. apply Hz. reflexivity. }
    destruct (reciprocals_div impedance Hnz) as (adm & Hadm & Hrec).
    destruct (Forall2_nth_Q _ _ _ Hrec) as [Hlen2 Hnth].
    cbn [fst]. rewrite Hadm.
    eexists. split; [reflexivity|].
    cbn [Simulation.freq Simulation.impedance_curve Simulation.admittance_curve].
    split; [reflexivity|].
    split; [exact Hlen|].
    split; [rewrite Hlen2; exact Hlen|].
    intros i Hi.
    assert (Hi' : (i < List.length impedance)%nat) by (rewrite Hlen; exact Hi).
    pose proof (proj1 (List.Forall_forall _ _) Hall (nth i impedance 0)
                  (nth_In _ _ Hi')) as [Hlo Hhi].
    split; [exact Hlo|]. split; [apply Qlt_le_weak; exact Hhi|].
    split; [|symmetry; apply Hnth; exact Hi'].
    intro E. rewrite E in Hlo. apply Hlo. reflexivity.
  - unfold OpenwindAdapter.run_impedance_simulation.
    rewrite Hsel. py_run. rewrite Hsim. cbn [Py.bind].
    eexists _, _, _, _. split; [reflexivity|]. split; [reflexivity|].
    rewrite !List.length_map, linspace_length. auto.
Qed.

Lemma C2_adapter_curves_witness :
  Simulation.unit_draws steady_rng /\
  (exists r : Simulation.sim_results,
     fst (Simulation.run_mock_simulation [15; 15] "Composite" 1 steady_rng)
       = Py.Ok r /\
     List.length (Simulation.admittance_curve r) = List.length (Simulation.freq r)) /\
  (exists r : OpenwindAdapter.response,
     OpenwindAdapter.run_impedance_simulation engine_ok short_bore (Py.VNum 22)
       Py.VNone OpenwindAdapter.default_freq_range = Py.Ok r /\
     OpenwindAdapter.response_get r "admittance_curve" = None).
Proof.
  assert (Hg : Simulation.unit_draws steady_rng).
  { intros k. cbn. split; [discriminate | reflexivity]. }
  destruct (C2_adapter_curves [15; 15] "Composite" 1 steady_rng engine_ok
              short_bore (Py.VNum 22) Py.VNone OpenwindAdapter.default_freq_range
              [[Py.VNum 0; Py.VNum (15 # 1000)];
               [Py.VNum (66 # 1000); Py.VNum (15 # 1000)]]
              Hg eq_refl eq_refl) as [Hmock Hengine].
  split; [exact Hg|]. split.
  - destruct Hmock as (r & Hr & _ & _ & Hadm & _). exists r. split; assumption.
  - destruct Hengine as (r & f & mag & phase & Hr & _ & _ & _ & _ & Hnone).
    exists r. split; assumption.
Defined.

(** The claim of C2 fails on the placeholder adapter, whose curves are
    binary64 floats: for the draw [u = 4168646214881816 / 2^53], one of the
    values [random.random()] returns, the impedance [0.5 + 1.0 * u] times
    the admittance [1.0 / impedance] is not 1 but the float just below
    it. *)
Lemma C2_counterexample :
  let u := 0x1.d9eb929aa2430p-2%float in
  let impedance := Simulation.impedance_float u in
  let admittance := Simulation.admittance_float impedance in
  PrimFloat.leb 0 u = true /\
  PrimFloat.ltb u 1 = true /\
  PrimFloat.eqb (u * 0x1p53) (PrimFloat.of_uint63 4168646214881816) = true /\
  PrimFloat.eqb impedance 0x1.ecf5c94d51218p-1 = true /\
  PrimFloat.eqb (admittance * impedance) 1 = false /\
  PrimFloat.eqb (admittance * impedance) (PrimFloat.next_down 1) = true.
Proof.
  cbv zeta. repeat split; vm_compute; reflexivity.
Qed.

(** ** The session codec *)

Lemma records_of_profile (profile : list (Q * Q)) :
  Pandas.to_dict_records (Pandas.of_profile profile)
  = List.map Py.VDict (profile_dicts profile).
Proof.
  unfold Pandas.to_dict_records, Pandas.of_profile, profile_dicts.
  cbn [Pandas.rows Pandas.columns]. rewrite !List.map_map. reflexivity.
Qed.

Lemma all_dicts_map (ds : list Py.dict) :
  Pandas.all_dicts (List.map Py.VDict ds) = Some ds.
Proof.
  induction ds as [|d ds IH]; [reflexivity|].
  cbn [List.map Pandas.all_dicts]. rewrite IH. reflexivity.
Qed.

Lemma union_keys_profile_from (profile : list (Q * Q)) :
  fold_left (fun cols d => Pandas.add_keys cols (List.map fst d))
            (profile_dicts profile) ["position"; "diameter"]
  = ["position"; "diameter"].
Proof.
  induction profile as [|pd profile IH]; [reflexivity|].
  cbn [profile_dicts List.map fold_left]. exact IH.
Qed.

Lemma of_records_profile (profile : list (Q * Q)) :
  Pandas.of_records (profile_dicts profile) =
  match profile with
  | [] => {| Pandas.columns := []; Pandas.rows := [] |}
  | _ => Pandas.of_profile profile
  end.
Proof.
  destruct profile as [|pd profile]; [reflexivity|].
  assert (Hkeys : Pandas.union_keys (profile_dicts (pd :: profile))
                  = ["position"; "diameter"])
    by apply (union_keys_profile_from profile).
  unfold Pandas.of_records. rewrite Hkeys.
  unfold Pandas.of_profile, profile_dicts. rewrite List.map_map. reflexivity.
Qed.

Lemma keys_unique_records (profile : list (Q * Q)) :
  Py.keys_unique (Py.VList (Pandas.to_dict_records (Pandas.of_profile profile))).
Proof.
  rewrite records_of_profile. cbn [Py.keys_unique].
  induction profile as [|pd profile IH]; [exact I|].
  cbn [List.map profile_dicts]. split; [|exact IH].
  cbn. split; [|auto]. repeat constructor; cbn; intuition discriminate.
Qed.

Lemma or_else_dict (m : Py.dict) :
  Py.or_else (Py.VDict m) (Py.VDict []) = Py.VDict m.
Proof. destruct m; reflexivity. Qed.

(** C3. With a JSON library that reads back every value it writes, saving
    a design (a bore profile of position/diameter records, temperature,
    humidity, a material mapping, notes) and loading the text returns the
    same temperature, humidity, material and notes and a frame with the
    same records; the frame itself is the same as soon as the profile
    has a sample. *)
Theorem C3_session_round_trip
    (text : Type) (json_dumps : Py.value -> text)
    (json_loads : text -> Py.result Py.value) (now_isoformat : string)
    (other_payload : Py.value -> Py.result Pandas.DataFrame)
    (profile : list (Q * Q)) (temperature humidity : Q)
    (material : Py.dict) (notes : string) :
  (forall v : Py.value,
     Py.keys_unique v -> json_loads (json_dumps v) = Py.Ok v) ->
  Py.keys_unique (Py.VDict material) ->
  exists bore_df : Pandas.DataFrame,
    SessionManager.load_session json_loads other_payload
      (SessionManager.save_session json_dumps now_isoformat
         (Pandas.of_profile profile) (Py.VNum temperature) (Py.VNum humidity)
         (Py.VDict material) (Py.VStr notes))
    = Py.Ok (bore_df, Py.VNum temperature, Py.VNum humidity,
             Py.VDict material, Py.VStr notes) /\
    Pandas.to_dict_records bore_df
      = Pandas.to_dict_records (Pandas.of_profile profile) /\
    Pandas.rows bore_df = Pandas.rows (Pandas.of_profile profile) /\
    (profile <> [] -> bore_df = Pandas.of_profile profile).
Proof.
  intros Hcodec Hmat.
  exists (Pandas.of_records (profile_dicts profile)).
  split.
  - unfold SessionManager.save_session, SessionManager.load_session.
    rewrite or_else_dict.
    rewrite Hcodec.
    + cbn -[Pandas.to_dict_records Pandas.of_profile Pandas.DataFrame_of].
      unfold Pandas.DataFrame_of, Pandas.as_records.
      rewrite records_of_profile, all_dicts_map. reflexivity.
    + cbn -[Pandas.to_dict_records Pandas.of_profile].
      pose proof (keys_unique_records profile) as Hrec.
      cbn [Py.keys_unique] in Hrec. cbn [Py.keys_unique] in Hmat.
      repeat split; try exact I; try (apply Hrec); try (apply Hmat).
      all: repeat constructor; cbn; intuition discriminate.
  - rewrite of_records_profile. destruct profile as [|pd profile].
    + repeat split. congruence.
    + repeat split.
Qed.

Lemma C3_session_round_trip_witness :
  (forall v : Py.value,
     Py.keys_unique v -> plain_loads (plain_dumps v) = Py.Ok v) /\
  Py.keys_unique (Py.VDict [("name", Py.VStr "Composite")]) /\
  exists bore_df : Pandas.DataFrame,
    SessionManager.load_session plain_loads reject_payload
      (SessionManager.save_session plain_dumps "2024-05-01T10:00:00"
         (Pandas.of_profile [(0, 146 # 10); (33, 148 # 10); (66, 15)])
         (Py.VNum 22) (Py.VNum 50)
         (Py.VDict [("name", Py.VStr "Composite")]) (Py.VStr "three samples"))
    = Py.Ok (bore_df, Py.VNum 22, Py.VNum 50,
             Py.VDict [("name", Py.VStr "Composite")], Py.VStr "three samples") /\
    bore_df = Pandas.of_profile [(0, 146 # 10); (33, 148 # 10); (66, 15)].
Proof.
  assert (Hcodec : forall v : Py.value,
                     Py.keys_unique v -> plain_loads (plain_dumps v) = Py.Ok v)
    by (intros v _; reflexivity).
  assert (Hmat : Py.keys_unique (Py.VDict [("name", Py.VStr "Composite")])).
  { cbn. split; [|auto]. constructor; [intros []|constructor]. }
  destruct (C3_session_round_trip Py.value plain_dumps plain_loads
              "2024-05-01T10:00:00" reject_payload
              [(0, 146 # 10); (33, 148 # 10); (66, 15)] 22 50
              [("name", Py.VStr "Composite")] "three samples" Hcodec Hmat)
    as (bore_df & Hload & _ & _ & Hsame).
  split; [exact Hcodec|]. split; [exact Hmat|].
  exists bore_df. split; [exact Hload|]. apply Hsame. discriminate.
Defined.

(** C9, as amended. A session text that parses to an object whose
    [bore_profile] is a payload pandas builds a frame from (a list of
    records is one) and whose [environment] is an object loads without
    error; an absent [notes] becomes the empty string, an absent
    [humidity] 50, an absent [temperature] 22 and an absent [material] the
    empty mapping, while a field that is present is returned as it is. *)
Theorem C9_load_session_defaults
    (text : Type) (json_loads : text -> Py.result Py.value)
    (other_payload : Py.value -> Py.result Pandas.DataFrame)
    (json_string : text) (session environment : Py.dict)
    (bore_profile : Py.value) (bore_df : Pandas.DataFrame) :
  json_loads json_string = Py.Ok (Py.VDict session) ->
  Py.dict_lookup session "bore_profile" = Some bore_profile ->
  Pandas.DataFrame_of other_payload bore_profile = Py.Ok bore_df ->
  Py.dict_lookup session "environment" = Some (Py.VDict environment) ->
  (forall records, Pandas.as_records bore_profile = Some records ->
                   bore_df = Pandas.of_records records) /\
  exists temperature humidity material_props notes : Py.value,
    SessionManager.load_session json_loads other_payload json_string
    = Py.Ok (bore_df, temperature, humidity, material_props, notes) /\
    (Py.dict_lookup session "notes" = None -> notes = Py.VStr "") /\
    (Py.dict_lookup environment "humidity" = None -> humidity = Py.VNum 50) /\
    (Py.dict_lookup environment "temperature" = None ->
     temperature = Py.VNum 22) /\
    (Py.dict_lookup session "material" = None -> material_props = Py.VDict []) /\
    (forall v, Py.dict_lookup session "notes" = Some v -> notes = v) /\
    (forall v, Py.dict_lookup environment "humidity" = Some v -> humidity = v) /\
    (forall v, Py.dict_lookup environment "temperature" = Some v ->
               temperature = v) /\
    (forall v, Py.dict_lookup session "material" = Some v -> material_props = v).
Proof.
  intros Hload Hbp Hrec Henv.
  split.
  { intros records Hr. unfold Pandas.DataFrame_of in Hrec.
    rewrite Hr in Hrec. injection Hrec as <-. reflexivity. }
  exists (Py.dict_get environment "temperature" (Py.VNum 22)),
         (Py.dict_get environment "humidity" (Py.VNum 50)),
         (Py.dict_get session "material" (Py.VDict [])),
         (Py.dict_get session "notes" (Py.VStr "")).
  split.
  - unfold SessionManager.load_session. rewrite Hload.
    py_run. cbn [Py.subscript]. rewrite Hbp.
    cbn [Py.bind]. rewrite Hrec.
    cbn [Py.bind]. rewrite Henv. reflexivity.
  - unfold Py.dict_get.
    repeat split; intros;
      repeat match goal with
             | H : Py.dict_lookup _ _ = _ |- _ => rewrite H; clear H
             end; reflexivity.
Qed.

Lemma C9_load_session_defaults_witness :
  exists bore_df : Pandas.DataFrame,
    SessionManager.load_session plain_loads reject_payload bare_session
    = Py.Ok (bore_df, Py.VNum 22, Py.VNum 50, Py.VDict [], Py.VStr "").
Proof.
  destruct (C9_load_session_defaults Py.value plain_loads reject_payload
              bare_session
              [("bore_profile",
                Py.VList [Py.VDict [("position", Py.VNum 0);
                                    ("diameter", Py.VNum 15)]]);
               ("environment", Py.VDict [])]
              []
              (Py.VList [Py.VDict [("position", Py.VNum 0);
                                   ("diameter", Py.VNum 15)]])
              (Pandas.of_records
                 [[("position", Py.VNum 0); ("diameter", Py.VNum 15)]])
              eq_refl eq_refl eq_refl eq_refl)
    as (_ & temperature & humidity & material_props & notes & Hload
        & Hnotes & Hhum & Htemp & Hmat & _).
  rewrite (Hnotes eq_refl), (Hhum eq_refl), (Htemp eq_refl), (Hmat eq_refl)
    in Hload.
  eexists. exact Hload.
Defined.

(** The claim of C9 fails on a text that parses as JSON and contains both
    fields, every optional field being absent: with [environment] set to
    [null] the lookup of the temperature raises [AttributeError]. *)
Lemma C9_counterexample :
  exists session : Py.dict,
    plain_loads null_environment_session = Py.Ok (Py.VDict session) /\
    Py.dict_lookup session "bore_profile"
    = Some (Py.VList [Py.VDict [("position", Py.VNum 0);
                                ("diameter", Py.VNum 15)]]) /\
    Py.dict_lookup session "environment" = Some Py.VNone /\
    Py.dict_lookup session "notes" = None /\
    Py.dict_lookup session "material" = None /\
    (forall other_payload,
       SessionManager.load_session plain_loads other_payload
         null_environment_session
       = Py.Raise Py.AttributeError).
Proof.
  eexists. split; [reflexivity|]. repeat split; reflexivity.
Qed.

(** ** The thickness map *)

Lemma fraction_bounds (i m : nat) :
  (1 <= m)%nat -> (i <= m)%nat ->
  0 <= Py.of_nat i / Py.of_nat m /\ Py.of_nat i / Py.of_nat m <= 1.
Proof.
  intros Hm Hi.
  assert (Hpos : 0 < Py.of_nat m)
    by (change 0 with (Py.of_nat 0); apply of_nat_lt; lia).
  split.
  - apply Qle_shift_div_l; [exact Hpos|]. rewrite Qmult_0_l. apply of_nat_nonneg.
  - apply Qle_shift_div_r; [exact Hpos|]. rewrite Qmult_1_l.
    apply of_nat_le; exact Hi.
Qed.

(** The shape cascade shared by the two copies, for a fraction in [0, 1]:
    the factor exists, and is at least 1 except for an hourglass sample
    out of range. *)
Lemma factor_cases (exterior_shape : string) (length x : Q)
    (fraction : Py.result Q) (fr : Q) :
  fraction = Py.Ok fr -> 0 <= fr -> fr <= 1 ->
  exists f,
    (if String.eqb exterior_shape "Hourglass (waist tapered)" then
       Py.Ok ((11 # 10) - (5 # 10000) * Qabs (x - (1 # 2) * length))
     else if String.eqb exterior_shape "Bell-like Flare (tuned for resonance)" then
       fraction ← fraction; Py.Ok (1 + (2 # 10) * fraction)
     else if String.eqb exterior_shape "Reverse Taper (bulged center)" then
       fraction ← fraction;
       Py.Ok (1 + (25 # 100) * (1 - (fraction - (1 # 2)) ^ 2))
     else if String.eqb exterior_shape "Standard (parallel exterior)" then
       Py.Ok (105 # 100)
     else if String.eqb exterior_shape "User-Defined" then
       fraction ← fraction; Py.Ok (1 + (5 # 100) * fraction)
     else Py.Ok 1) = Py.Ok f /\
    (hourglass_in_range exterior_shape length x -> 1 <= f).
Proof.
  intros -> H0 H1. unfold hourglass_in_range.
  destruct (String.eqb_spec exterior_shape "Hourglass (waist tapered)") as [E|_].
  { eexists. split; [reflexivity|]. intros H. specialize (H E). lra. }
  destruct (String.eqb exterior_shape "Bell-like Flare (tuned for resonance)").
  { eexists. split; [reflexivity|]. intros _. lra. }
  destruct (String.eqb exterior_shape "Reverse Taper (bulged center)").
  { eexists. split; [reflexivity|]. intros _.
    assert (Hsq : (fr - (1 # 2)) ^ 2 <= 1) by (simpl; nra). lra. }
  destruct (String.eqb exterior_shape "Standard (parallel exterior)").
  { eexists. split; [reflexivity|]. intros _. lra. }
  destruct (String.eqb exterior_shape "User-Defined").
  { eexists. split; [reflexivity|]. intros _. lra. }
  eexists. split; [reflexivity|]. intros _. lra.
Qed.

Lemma geometry_outer_factor_ok (exterior_shape : string) (n : nat)
    (length : Q) (i : nat) (x : Q) :
  (i < n)%nat -> n <> 1%nat ->
  exists f, Geometry.outer_factor exterior_shape n length i x = Py.Ok f /\
            (hourglass_in_range exterior_shape length x -> 1 <= f).
Proof.
  intros Hi Hn. unfold Geometry.outer_factor.
  assert (Hpos : 0 < Py.of_nat n - 1) by (apply of_nat_pred_pos; lia).
  destruct (fraction_bounds i (n - 1)) as [H0 H1]; [lia|lia|].
  rewrite of_nat_pred in H0, H1 by lia.
  apply (factor_cases exterior_shape length x _
           (Py.of_nat i / (Py.of_nat n - 1)));
    [apply div_ok; exact Hpos | exact H0 | exact H1].
Qed.

Lemma barrel_outer_factor_ok (exterior_shape : string) (n : nat)
    (length : Q) (i : nat) (x : Q) :
  (i < n)%nat ->
  exists f, Barrel.outer_factor exterior_shape n length i x = Py.Ok f /\
            (hourglass_in_range exterior_shape length x -> 1 <= f).
Proof.
  intros Hi. unfold Barrel.outer_factor.
  assert (Hpos : 0 < Py.of_nat (Nat.max 1 (n - 1)))
    by (change 0 with (Py.of_nat 0); apply of_nat_lt; lia).
  destruct (fraction_bounds i (Nat.max 1 (n - 1))) as [H0 H1]; [lia|lia|].
  apply (factor_cases exterior_shape length x _
           (Py.of_nat i / Py.of_nat (Nat.max 1 (n - 1))));
    [apply div_ok; exact Hpos | exact H0 | exact H1].
Qed.

Lemma thickness_at_ok (bore_diam_vals : list Q)
    (factor : nat -> Q -> Py.result Q) (i : nat) (x f : Q) (C : Prop) :
  (i < List.length bore_diam_vals)%nat ->
  factor i x = Py.Ok f -> (C -> 1 <= f) ->
  exists t, Geometry.thickness_at bore_diam_vals factor (i, x) = Py.Ok t /\
            (List.Forall (fun d => 0 <= d) bore_diam_vals -> C -> 0 <= t).
Proof.
  intros Hi Hf Hge. unfold Geometry.thickness_at. cbn [fst snd]. rewrite Hf.
  py_run. unfold Py.getitem.
  destruct (nth_error bore_diam_vals i) as [d|] eqn:E.
  - eexists. split; [reflexivity|]. intros Hall HC.
    apply nth_error_In in E.
    pose proof (proj1 (List.Forall_forall _ _) Hall d E) as Hd. cbn in Hd.
    specialize (Hge HC).
    assert (0 <= d * (f - 1)) by (apply Qmult_le_0_compat; lra).
    apply Qle_shift_div_l; [reflexivity|]. lra.
  - apply nth_error_None in E. lia.
Qed.

Lemma thickness_map_ok (bore_diam_vals x_vals : list Q)
    (exterior_shape : string) (factor : nat -> Q -> Py.result Q) (length : Q) :
  List.length x_vals = List.length bore_diam_vals ->
  (forall i x, (i < List.length x_vals)%nat ->
     exists f, factor i x = Py.Ok f /\
               (hourglass_in_range exterior_shape length x -> 1 <= f)) ->
  exists t,
    Py.mapM (Geometry.thickness_at bore_diam_vals factor) (Py.enumerate x_vals)
      = Py.Ok t /\
    List.length t = List.length x_vals /\
    (List.Forall (fun d => 0 <= d) bore_diam_vals ->
     List.Forall (hourglass_in_range exterior_shape length) x_vals ->
     List.Forall (fun v => 0 <= v) t).
Proof.
  intros Hlen Hfac.
  destruct (mapM_ok (Geometry.thickness_at bore_diam_vals factor)
              (fun t => List.Forall (fun d => 0 <= d) bore_diam_vals ->
                        List.Forall (hourglass_in_range exterior_shape length)
                                    x_vals ->
                        0 <= t)
              (Py.enumerate x_vals)) as (t & Ht & Hl & Hall).
  - intros [i x] Hin. apply enumerate_In in Hin. destruct Hin as [Hi Hx].
    destruct (Hfac i x Hi) as (f & Hf & Hge).
    destruct (thickness_at_ok bore_diam_vals factor i x f
                (hourglass_in_range exterior_shape length x))
      as (t & Ht & Hnn); [lia | exact Hf | exact Hge |].
    exists t. split; [exact Ht|]. intros Hd Hh. apply Hnn; [exact Hd|].
    exact (proj1 (List.Forall_forall _ _) Hh x Hx).
  - exists t. split; [exact Ht|]. split; [rewrite Hl; apply enumerate_length|].
    intros Hd Hh. eapply List.Forall_impl; [|exact Hall].
    cbn. intros a Ha. exact (Ha Hd Hh).
Qed.

(** C4, as amended. For a curve of as many diameters as positions and any
    exterior shape, the copy of barrel.py returns a thickness sequence of
    the same length, and so does the copy of geometry.py unless the curve
    has a single sample; the empty curve yields the empty sequence. Every
    value is at least 0 when no diameter is negative and, for the
    hourglass exterior, every position lies within 200 of half the span
    of the axis. *)
Theorem C4_thickness_map (x_vals bore_diam_vals : list Q)
    (exterior_shape : string) :
  List.length x_vals = List.length bore_diam_vals ->
  (exists t,
     Barrel.mock_thickness_map x_vals bore_diam_vals exterior_shape = Py.Ok t /\
     List.length t = List.length x_vals /\
     (List.Forall (fun d => 0 <= d) bore_diam_vals ->
      hourglass_curve_in_range exterior_shape x_vals ->
      List.Forall (fun v => 0 <= v) t)) /\
  (List.length x_vals <> 1%nat ->
   exists t,
     Geometry.mock_thickness_map x_vals bore_diam_vals exterior_shape = Py.Ok t /\
     List.length t = List.length x_vals /\
     (List.Forall (fun d => 0 <= d) bore_diam_vals ->
      hourglass_curve_in_range exterior_shape x_vals ->
      List.Forall (fun v => 0 <= v) t)) /\
  Barrel.mock_thickness_map [] [] exterior_shape = Py.Ok [] /\
  Geometry.mock_thickness_map [] [] exterior_shape = Py.Ok [].
Proof.
  intros Hlen. split; [|split; [|split; reflexivity]].
  - unfold Barrel.mock_thickness_map, hourglass_curve_in_range.
    destruct x_vals as [|x0 xs].
    + exists []. repeat split. constructor.
    + apply thickness_map_ok; [exact Hlen|].
      intros i x Hi. apply barrel_outer_factor_ok. exact Hi.
  - intros Hn. unfold Geometry.mock_thickness_map, hourglass_curve_in_range.
    destruct x_vals as [|x0 xs].
    + exists []. repeat split. constructor.
    + apply thickness_map_ok; [exact Hlen|].
      intros i x Hi. apply geometry_outer_factor_ok; [exact Hi | exact Hn].
Qed.

Lemma C4_thickness_map_witness :
  List.length [0; 33; 66] = List.length [15; 15; 15] /\
  exists t,
    Geometry.mock_thickness_map [0; 33; 66] [15; 15; 15]
      "Hourglass (waist tapered)" = Py.Ok t /\
    List.length t = 3%nat /\
    List.Forall (fun v => 0 <= v) t.
Proof.
  assert (Hlen : List.length [0; 33; 66] = List.length [15; 15; 15])
    by reflexivity.
  destruct (C4_thickness_map [0; 33; 66] [15; 15; 15]
              "Hourglass (waist tapered)" Hlen) as (_ & Hgeo & _).
  destruct (Hgeo ltac:(discriminate)) as (t & Ht & Hl & Hnn).
  split; [exact Hlen|]. exists t. split; [exact Ht|]. split; [exact Hl|].
  apply Hnn.
  - repeat constructor; discriminate.
  - repeat constructor; intros _; vm_compute; discriminate.
Defined.

(** The claim of C4 fails for the hourglass exterior on a long axis: for
    the cylindrical profile of a 1000 mm bore of diameter 15, as the
    profile callback computes it, both copies report a negative thickness
    at the entry. *)
Lemma C4_counterexample :
  let profile :=
    Geometry.generate_barrel_profile "Cylindrical" 15 15 1000 "Low" in
  exists t,
    Geometry.mock_thickness_map (fst profile) (snd profile)
      "Hourglass (waist tapered)" = Py.Ok t /\
    Barrel.mock_thickness_map (fst profile) (snd profile)
      "Hourglass (waist tapered)" = Py.Ok t /\
    List.length t = 10%nat /\
    nth 0 t 0 == - (1125 # 1000) /\
    nth 0 t 0 < 0.
Proof.
  cbv zeta. eexists. split; [vm_compute; reflexivity|].
  split; [vm_compute; reflexivity|].
  split; [reflexivity|]. split; reflexivity.
Qed.

(** ** The comparison list *)

Import ComparisonHistory.

Lemma last_slice_app {A : Type} (k : nat) (l m : list A) :
  Py.last_slice k (Py.last_slice k l ++ m) = Py.last_slice k (l ++ m).
Proof.
  unfold Py.last_slice.
  rewrite !List.skipn_app, !List.length_app, List.skipn_skipn, List.length_skipn.
  destruct (Nat.le_gt_cases (List.length l) k) as [H|H].
  - replace (List.length l - k)%nat with 0%nat by lia. cbn [skipn].
    rewrite Nat.add_0_r, Nat.sub_0_r. reflexivity.
  - f_equal; f_equal; lia.
Qed.

Lemma last_slice_last {A : Type} (k : nat) (l : list A) (e d : A) :
  (1 <= k)%nat -> List.last (Py.last_slice k (l ++ [e])) d = e.
Proof.
  intros Hk. unfold Py.last_slice.
  rewrite List.skipn_app, List.length_app. cbn [List.length].
  replace (List.length l + 1 - k - List.length l)%nat with 0%nat by lia.
  cbn [skipn]. apply List.last_last.
Qed.

Lemma last_slice_length {A : Type} (k : nat) (l : list A) :
  List.length (Py.last_slice k l) = Nat.min k (List.length l).
Proof. unfold Py.last_slice. rewrite List.length_skipn. lia. Qed.

Lemma last_slice_short {A : Type} (k : nat) (l : list A) :
  (List.length l <= k)%nat -> Py.last_slice k l = l.
Proof.
  intros H. unfold Py.last_slice.
  replace (List.length l - k)%nat with 0%nat by lia. reflexivity.
Qed.

Lemma render_fst (comparison_data : list Callbacks.entry) :
  fst (Callbacks.render comparison_data) = comparison_data.
Proof. unfold Callbacks.render. destruct comparison_data; reflexivity. Qed.

(** One press with a result in the store appends one entry and keeps the
    last five. *)
Lemma after_present (a : addition) (data : list Callbacks.entry) :
  Callbacks.sim_present (sim a) = true ->
  exists e,
    after a data = Py.last_slice 5 (data ++ [e]) /\
    (forall s, given_name a = Some s -> s <> "" -> Callbacks.name e = s) /\
    (Callbacks.name_given (given_name a) = false ->
     Callbacks.name e
     = String.append "Design " (Py.str_of_nat (List.length data + 1))).
Proof.
  intros Hs. unfold after, Callbacks.add_to_comparison.
  cbn [String.eqb Ascii.eqb Bool.eqb]. rewrite Hs. cbn [negb].
  rewrite render_fst. eexists. split; [reflexivity|].
  cbn [Callbacks.name]. split.
  - intros s Hn Hne. rewrite Hn. cbn [Callbacks.name_given].
    destruct (String.eqb_spec s ""); [contradiction|]. reflexivity.
  - intros Hn. rewrite Hn. reflexivity.
Qed.

Lemma added_entry_spec (a : addition) (data : list Callbacks.entry) :
  Callbacks.sim_present (sim a) = true ->
  after a data = Py.last_slice 5 (data ++ [added_entry a data]).
Proof.
  intros Hs. destruct (after_present a data Hs) as (e & He & _).
  unfold added_entry. rewrite He. rewrite last_slice_last by lia. reflexivity.
Qed.

Lemma run_additions_window (adds : list addition) :
  List.Forall (fun a => Callbacks.sim_present (sim a) = true) adds ->
  forall a0 data, Callbacks.sim_present (sim a0) = true ->
  run_additions (a0 :: adds) data
  = Py.last_slice 5 (data ++ added_log (a0 :: adds) data).
Proof.
  induction 1 as [|a adds Ha _ IH]; intros a0 data H0.
  - cbn [run_additions added_log]. apply added_entry_spec. exact H0.
  - change (run_additions (a0 :: a :: adds) data)
      with (run_additions (a :: adds) (after a0 data)).
    rewrite (IH a (after a0 data) Ha).
    change (added_log (a0 :: a :: adds) data)
      with (added_entry a0 data :: added_log (a :: adds) (after a0 data)).
    rewrite (added_entry_spec a0 data H0) at 1.
    rewrite last_slice_app. rewrite <- List.app_assoc. reflexivity.
Qed.

Lemma added_log_length (adds : list addition) :
  forall data, List.length (added_log adds data) = List.length adds.
Proof.
  induction adds as [|a adds IH]; intros data; cbn; [reflexivity|].
  rewrite IH. reflexivity.
Qed.

Lemma added_log_names (names : list string) :
  List.Forall (fun s => s <> "") names ->
  forall data,
    List.map Callbacks.name (added_log (List.map named names) data) = names.
Proof.
  induction 1 as [|s names Hs _ IH]; intros data; [reflexivity|].
  cbn [List.map added_log]. rewrite IH. f_equal.
  destruct (after_present (named s) data eq_refl) as (e & He & Hname & _).
  unfold added_entry. rewrite He, last_slice_last by lia.
  apply Hname; [reflexivity | exact Hs].
Qed.

(** C5. Starting from any list and pressing the compare button any number
    of times (at least once) with a result in the store, the list kept
    after the last press is the last five entries of the starting list
    followed by every entry added, in that order: one entry is added per
    press, at most five are kept, and from an empty list the kept entries
    are exactly the five added last (all of them up to five). An entry
    carries the name typed in for it. Adding D1 to D6 to the empty list
    leaves D2, D3, D4, D5, D6. *)
Theorem C5_comparison_window (start : list Callbacks.entry)
    (first : addition) (more : list addition) :
  List.Forall (fun a => Callbacks.sim_present (sim a) = true) (first :: more) ->
  let log := added_log (first :: more) start in
  let kept := run_additions (first :: more) start in
  kept = Py.last_slice 5 (start ++ log) /\
  List.length log = List.length (first :: more) /\
  (List.length kept <= 5)%nat /\
  (start = [] -> kept = Py.last_slice 5 log) /\
  (start = [] -> (List.length log <= 5)%nat -> kept = log) /\
  ((5 <= List.length log)%nat -> kept = Py.last_slice 5 log) /\
  (forall names : list string,
     List.Forall (fun s => s <> "") names ->
     List.map Callbacks.name (added_log (List.map named names) start) = names) /\
  List.map Callbacks.name
    (run_additions (List.map named ["D1"; "D2"; "D3"; "D4"; "D5"; "D6"]) [])
  = ["D2"; "D3"; "D4"; "D5"; "D6"].
Proof.
  intros Hall log kept.
  assert (Hkept : kept = Py.last_slice 5 (start ++ log)).
  { inversion Hall as [|a l H0 Hmore]; subst.
    apply run_additions_window; assumption. }
  split; [exact Hkept|].
  split; [apply added_log_length|].
  split; [rewrite Hkept, last_slice_length; lia|].
  split; [intros ->; exact Hkept|].
  split; [intros -> Hlen; rewrite Hkept; apply last_slice_short; exact Hlen|].
  split; [|split; [|reflexivity]].
  - intros Hlen. rewrite Hkept. unfold Py.last_slice.
    rewrite List.skipn_app, List.length_app.
    rewrite List.skipn_all2 by lia. cbn [app]. f_equal. lia.
  - intros names Hnames. apply added_log_names. exact Hnames.
Qed.

Lemma C5_comparison_window_witness :
  List.Forall (fun a => Callbacks.sim_present (sim a) = true)
              [named "D1"; named "D2"] /\
  List.map Callbacks.name (run_additions [named "D1"; named "D2"] [])
  = ["D1"; "D2"].
Proof.
  assert (Hall : List.Forall (fun a => Callbacks.sim_present (sim a) = true)
                             [named "D1"; named "D2"])
    by (repeat constructor).
  destruct (C5_comparison_window [] (named "D1") [named "D2"] Hall)
    as (Hkept & _).
  split; [exact Hall|]. cbv zeta in Hkept. rewrite Hkept. reflexivity.
Defined.

(** ** The optimizer's cost *)






(** ** The performance commentary *)

Ltac decide_comparison c :=
  match c with
  | Py.lt ?a ?b => destruct (lt_cases a b) as [[-> ?]|[-> ?]]
  | Py.ge ?a ?b => destruct (ge_cases a b) as [[-> ?]|[-> ?]]
  end.

Ltac decide_thresholds :=
  repeat match goal with
         | |- context [if ?c then _ else _] => decide_comparison c; try lra
         end.

Lemma comments_boundaries (lower : string) (sim : Simulation.sim_results) :
  (Simulation.resistance sim == 30 ->
   List.hd "" (Simulation.comments_of lower sim)
   = Simulation.moderate_resistance) /\
  (Simulation.resistance sim == 70 ->
   List.hd "" (Simulation.comments_of lower sim) = Simulation.high_resistance) /\
  (Simulation.brightness sim == (4 # 10) ->
   nth 1 (Simulation.comments_of lower sim) "" = Simulation.moderately_bright) /\
  ((75 # 100) <= Simulation.harmonicity sim ->
   Simulation.harmonicity sim < (85 # 100) ->
   List.length (Simulation.comments_of lower sim) = 2%nat) /\
  (Simulation.resistance sim == 30 ->
   Simulation.brightness sim == (4 # 10) ->
   Simulation.harmonicity sim == (80 # 100) ->
   Simulation.comments_of lower sim
   = [Simulation.moderate_resistance; Simulation.moderately_bright]).
Proof.
  unfold Simulation.comments_of. cbn [app].
  repeat split; intros; decide_thresholds; reflexivity.
Qed.

(** C7. A result with resistance 30, brightness 0.4 and harmonicity 0.80
    gets exactly two comments, the moderate-resistance one and then the
    moderately-bright one, and none on harmonicity. More generally a
    resistance of 30 gives the moderate comment and one of 70 the
    high-resistance comment, a brightness of 0.4 the moderately-bright
    comment, and a harmonicity in [0.75, 0.85) no third line. This holds
    for the copy of simulation.py and for the copy of barrel.py. *)
Theorem C7_attribute_boundaries (sim : Simulation.sim_results) :
  (Simulation.resistance sim == 30 ->
   Simulation.brightness sim == (4 # 10) ->
   Simulation.harmonicity sim == (80 # 100) ->
   Simulation.evaluate_barrel_attributes sim
   = [Simulation.moderate_resistance; Simulation.moderately_bright] /\
   Barrel.evaluate_barrel_attributes sim
   = [Simulation.moderate_resistance; Simulation.moderately_bright]) /\
  (Simulation.resistance sim == 30 ->
   List.hd "" (Simulation.evaluate_barrel_attributes sim)
   = Simulation.moderate_resistance /\
   List.hd "" (Barrel.evaluate_barrel_attributes sim)
   = Simulation.moderate_resistance) /\
  (Simulation.resistance sim == 70 ->
   List.hd "" (Simulation.evaluate_barrel_attributes sim)
   = Simulation.high_resistance /\
   List.hd "" (Barrel.evaluate_barrel_attributes sim)
   = Simulation.high_resistance) /\
  (Simulation.brightness sim == (4 # 10) ->
   nth 1 (Simulation.evaluate_barrel_attributes sim) ""
   = Simulation.moderately_bright /\
   nth 1 (Barrel.evaluate_barrel_attributes sim) ""
   = Simulation.moderately_bright) /\
  ((75 # 100) <= Simulation.harmonicity sim ->
   Simulation.harmonicity sim < (85 # 100) ->
   List.length (Simulation.evaluate_barrel_attributes sim) = 2%nat /\
   List.length (Barrel.evaluate_barrel_attributes sim) = 2%nat).
Proof.
  unfold Simulation.evaluate_barrel_attributes, Barrel.evaluate_barrel_attributes.
  destruct (comments_boundaries Simulation.overtones_mismatched sim)
    as (S30 & S70 & Sb & Sh & Sall).
  destruct (comments_boundaries Barrel.overtones_slightly_mismatched sim)
    as (B30 & B70 & Bb & Bh & Ball).
  repeat split; auto.
Qed.

Lemma C7_attribute_boundaries_witness :
  Simulation.resistance boundary_result == 30 /\
  Simulation.brightness boundary_result == (4 # 10) /\
  Simulation.harmonicity boundary_result == (80 # 100) /\
  Simulation.evaluate_barrel_attributes boundary_result
  = ["Moderate resistance, balancing control and ease of airflow.";
     Simulation.moderately_bright] /\
  Barrel.evaluate_barrel_attributes boundary_result
  = ["Moderate resistance, balancing control and ease of airflow.";
     Simulation.moderately_bright].
Proof.
  assert (Hr : Simulation.resistance boundary_result == 30) by reflexivity.
  assert (Hb : Simulation.brightness boundary_result == (4 # 10)) by reflexivity.
  assert (Hh : Simulation.harmonicity boundary_result == (80 # 100))
    by reflexivity.
  destruct (C7_attribute_boundaries boundary_result) as (Hall & _).
  destruct (Hall Hr Hb Hh) as [Hs Hbarrel].
  repeat split; assumption.
Defined.

(** ** The unfolded outline *)

Lemma insert_segment_perm (s : Geometry.segment) (l : list Geometry.segment) :
  Permutation (s :: l) (Geometry.insert_segment s l).
Proof.
  induction l as [|t l IH]; cbn [Geometry.insert_segment];
    [constructor; constructor|].
  destruct (Qle_bool (Geometry.start_pos s) (Geometry.start_pos t)).
  - apply Permutation_refl.
  - eapply Permutation_trans; [apply perm_swap|]. apply perm_skip. exact IH.
Qed.

Lemma insert_segment_hd (s t : Geometry.segment) (l : list Geometry.segment) :
  starts_before t s -> HdRel starts_before t l ->
  HdRel starts_before t (Geometry.insert_segment s l).
Proof.
  intros Hts Hl. destruct l as [|u l]; cbn [Geometry.insert_segment].
  - constructor. exact Hts.
  - destruct (Qle_bool (Geometry.start_pos s) (Geometry.start_pos u));
      constructor; [exact Hts|]. inversion Hl; assumption.
Qed.

Lemma insert_segment_sorted (s : Geometry.segment) (l : list Geometry.segment) :
  Sorted starts_before l -> Sorted starts_before (Geometry.insert_segment s l).
Proof.
  induction 1 as [|t l Hl IH Hhd]; cbn [Geometry.insert_segment].
  - repeat constructor.
  - destruct (Qle_bool (Geometry.start_pos s) (Geometry.start_pos t)) eqn:E.
    + constructor; [constructor; assumption|]. constructor.
      apply Qle_bool_iff. exact E.
    + constructor; [exact IH|]. apply insert_segment_hd; [|exact Hhd].
      unfold starts_before. apply Qlt_le_weak. apply Qnot_le_lt. intro H.
      apply Qle_bool_iff in H. congruence.
Qed.

Lemma sorted_segments_perm (bore_data : list Geometry.segment) :
  Permutation bore_data (Geometry.sorted_segments bore_data).
Proof.
  induction bore_data as [|s l IH]; [constructor|].
  cbn [Geometry.sorted_segments fold_right].
  eapply Permutation_trans; [|apply insert_segment_perm].
  apply perm_skip. exact IH.
Qed.

Lemma sorted_segments_sorted (bore_data : list Geometry.segment) :
  Sorted starts_before (Geometry.sorted_segments bore_data).
Proof.
  induction bore_data as [|s l IH]; [constructor|].
  cbn [Geometry.sorted_segments fold_right].
  apply insert_segment_sorted. exact IH.
Qed.

Lemma combine_fst_snd {A B : Type} (l m : list (A * B)) :
  combine (List.map fst l ++ List.map fst m) (List.map snd l ++ List.map snd m)
  = l ++ m.
Proof.
  induction l as [|[a b] l IH]; cbn.
  - induction m as [|[a b] m IH]; cbn; [reflexivity|]. rewrite IH. reflexivity.
  - rewrite IH. reflexivity.
Qed.

(** C8. The segments are put in ascending order of [start_pos] (the
    sorted list is a rearrangement of the input), and the outline is the
    top-edge points [(start_pos, start_dia/2)], [(end_pos, end_dia/2)] of
    each segment in that order, followed by the mirrored points
    [(end_pos, -(end_dia/2))], [(start_pos, -(start_dia/2))] of the segments
    in reverse order; the two coordinate lists have the same length. The
    empty list gives the empty outline, the single segment from 0 to 10 of
    diameter 14 the four points (0, 7), (10, 7), (10, -7), (0, -7), and the
    segments 10..20 (diameters 14, 16) and 0..10 (diameters 12, 14), given
    in this order, the eight points (0, 6), (10, 7), (10, 7), (20, 8),
    (20, -8), (10, -7), (10, -7), (0, -6). *)
Theorem C8_unfolded_outline (bore_data : list Geometry.segment) :
  let sorted := Geometry.sorted_segments bore_data in
  Permutation bore_data sorted /\
  Sorted starts_before sorted /\
  outline_points (Geometry.build_unfolded_bore_outline bore_data)
  = flat_map (fun seg =>
                [(Geometry.start_pos seg, Geometry.start_dia seg / 2);
                 (Geometry.end_pos seg, Geometry.end_dia seg / 2)]) sorted
    ++ flat_map (fun seg =>
                   [(Geometry.end_pos seg, - (Geometry.end_dia seg / 2));
                    (Geometry.start_pos seg, - (Geometry.start_dia seg / 2))])
                (rev sorted) /\
  List.length (fst (Geometry.build_unfolded_bore_outline bore_data))
  = List.length (snd (Geometry.build_unfolded_bore_outline bore_data)) /\
  Geometry.build_unfolded_bore_outline [] = ([], []) /\
  (forall (sec_type : string) (param : option Q),
     let outline :=
       Geometry.build_unfolded_bore_outline
         [{| Geometry.start_pos := 0; Geometry.end_pos := 10;
             Geometry.start_dia := 14; Geometry.end_dia := 14;
             Geometry.sec_type := sec_type; Geometry.param := param |}] in
     fst outline = [0; 10; 10; 0] /\
     List.Forall2 Qeq (snd outline) [7; 7; -7; -7]) /\
  (forall (sec_type : string) (param : option Q),
     let outline :=
       Geometry.build_unfolded_bore_outline
         [{| Geometry.start_pos := 10; Geometry.end_pos := 20;
             Geometry.start_dia := 14; Geometry.end_dia := 16;
             Geometry.sec_type := sec_type; Geometry.param := param |};
          {| Geometry.start_pos := 0; Geometry.end_pos := 10;
             Geometry.start_dia := 12; Geometry.end_dia := 14;
             Geometry.sec_type := sec_type; Geometry.param := param |}] in
     fst outline = [0; 10; 10; 20; 20; 10; 10; 0] /\
     List.Forall2 Qeq (snd outline) [6; 7; 7; 8; -8; -7; -7; -6]).
Proof.
  intros sorted. split; [apply sorted_segments_perm|].
  split; [apply sorted_segments_sorted|].
  split; [|split; [|split; [|split]]].
  - unfold outline_points, Geometry.build_unfolded_bore_outline.
    destruct bore_data as [|s l]; [reflexivity|]. cbn [fst snd].
    rewrite combine_fst_snd. reflexivity.
  - unfold Geometry.build_unfolded_bore_outline.
    destruct bore_data as [|s l]; [reflexivity|]. cbn [fst snd].
    rewrite !List.length_app, !List.length_map. reflexivity.
  - reflexivity.
  - intros sec_type param. cbn. split; [reflexivity|].
    repeat constructor.
  - intros sec_type param. cbn. split; [reflexivity|].
    repeat constructor.
Qed.

(** ** The design store *)

(** C10. With an empty or missing design name the callback returns 0 and
    leaves the state as it was. With a non-empty name it writes the design
    under that name and changes no other entry; so an entry of the store
    changes only if a non-empty name was given, and it is the entry of
    that name. *)
Theorem C10_save_design_frame (n_clicks : Z) (design_name : option string)
    (bore_shape exterior_shape entry_diam exit_diam length_mm resolution
       material sim_data : Py.value)
    (st : Callbacks.app_state) :
  let out :=
    Callbacks.save_design_to_memory n_clicks design_name bore_shape
      exterior_shape entry_diam exit_diam length_mm resolution material
      sim_data st in
  let design_dict :=
    {| Callbacks.bore_shape := bore_shape;
       Callbacks.exterior_shape := exterior_shape;
       Callbacks.entry_diam := entry_diam;
       Callbacks.exit_diam := exit_diam;
       Callbacks.length_mm := length_mm;
       Callbacks.resolution := resolution;
       Callbacks.material := material;
       Callbacks.simulation := sim_data |} in
  (Callbacks.name_given design_name = false -> out = (0%Z, st)) /\
  (forall name : string,
     design_name = Some name -> name <> "" ->
     fst out = 0%Z /\
     Callbacks.stored_designs (snd out)
     = <[name := design_dict]> (Callbacks.stored_designs st) /\
     Callbacks.stored_designs (snd out) !! name = Some design_dict /\
     forall other : string,
       other <> name ->
       Callbacks.stored_designs (snd out) !! other
       = Callbacks.stored_designs st !! other) /\
  (forall key : string,
     Callbacks.stored_designs (snd out) !! key
     <> Callbacks.stored_designs st !! key ->
     design_name = Some key /\ key <> "").
Proof.
  intros out design_dict. subst out. unfold Callbacks.save_design_to_memory.
  split; [|split].
  - destruct design_name as [s|]; [|reflexivity]. cbn [Callbacks.name_given].
    destruct (String.eqb s ""); [reflexivity | discriminate].
  - intros name -> Hne. destruct (String.eqb_spec name ""); [contradiction|].
    cbn [fst snd Callbacks.stored_designs].
    split; [reflexivity|]. split; [reflexivity|].
    split; [apply lookup_insert_eq|].
    intros other Hother. apply lookup_insert_ne. congruence.
  - intros key Hkey. destruct design_name as [s|]; [|contradiction].
    destruct (String.eqb_spec s ""); [contradiction|].
    cbn [fst snd Callbacks.stored_designs] in Hkey.
    destruct (decide (s = key)) as [->|Hsk]; [split; [reflexivity | assumption]|].
    rewrite lookup_insert_ne in Hkey by exact Hsk. contradiction.
Qed.

Lemma C10_save_design_frame_witness :
  let st := {| Callbacks.stored_designs := ∅; Callbacks.stdout := [] |} in
  Callbacks.name_given (Some "") = false /\
  Callbacks.save_design_to_memory 1 (Some "") (Py.VStr "Tapered")
    (Py.VStr "User-Defined") (Py.VNum 15) (Py.VNum 15) (Py.VNum 66)
    (Py.VStr "Medium") (Py.VStr "Composite") Py.VNone st = (0%Z, st) /\
  Callbacks.stored_designs
    (snd (Callbacks.save_design_to_memory 1 (Some "B1") (Py.VStr "Tapered")
            (Py.VStr "User-Defined") (Py.VNum 15) (Py.VNum 15) (Py.VNum 66)
            (Py.VStr "Medium") (Py.VStr "Composite") Py.VNone st)) !! "B2"
  = None.
Proof.
  intros st.
  assert (Hno : Callbacks.name_given (Some "") = false) by reflexivity.
  destruct (C10_save_design_frame 1 (Some "") (Py.VStr "Tapered")
              (Py.VStr "User-Defined") (Py.VNum 15) (Py.VNum 15) (Py.VNum 66)
              (Py.VStr "Medium") (Py.VStr "Composite") Py.VNone st)
    as (Hempty & _ & _).
  destruct (C10_save_design_frame 1 (Some "B1") (Py.VStr "Tapered")
              (Py.VStr "User-Defined") (Py.VNum 15) (Py.VNum 15) (Py.VNum 66)
              (Py.VStr "Medium") (Py.VStr "Composite") Py.VNone st)
    as (_ & Hnamed & _).
  destruct (Hnamed "B1" eq_refl ltac:(discriminate)) as (_ & _ & _ & Hother).
  split; [exact Hno|]. split; [exact (Hempty Hno)|].
  rewrite (Hother "B2" ltac:(discriminate)). reflexivity.
Defined.

(** ** Further properties of the profile and of the unfolded views *)

Lemma shaped_diameter_plain (bore_shape : string) (e x fr : Q) :
  plain_shape bore_shape ->
  Geometry.shaped_diameter bore_shape e x fr = e + fr * (x - e).
Proof.
  intros (H1 & H2 & H3 & H4). unfold Geometry.shaped_diameter.
  destruct (String.eqb_spec bore_shape "Tapered"); [contradiction|].
  destruct (String.eqb_spec bore_shape "Reverse Tapered"); [contradiction|].
  destruct (String.eqb_spec bore_shape "Parabolic"); [contradiction|].
  destruct (String.eqb_spec bore_shape "Stepped"); [contradiction|].
  reflexivity.
Qed.

Lemma sample_fraction_bounds (n i : nat) :
  (2 <= n)%nat -> (i < n)%nat ->
  0 <= Py.of_nat i / (Py.of_nat n - 1) /\ Py.of_nat i / (Py.of_nat n - 1) <= 1.
Proof.
  intros Hn Hi. destruct (fraction_bounds i (n - 1)) as [H0 H1]; [lia|lia|].
  rewrite of_nat_pred in H0, H1 by lia. split; assumption.
Qed.

(** X1. For end diameters that are not negative and a bore shape that is
    none of Tapered, Reverse Tapered, Parabolic and Stepped (Cylindrical, or
    any unknown text), sample [i] of the [n] diameters of
    [generate_barrel_profile] is [entry + (i / (n - 1)) * (exit - entry)],
    the interpolation without any shape factor; the first sample is the
    entry diameter, and with equal ends every sample is that diameter. *)
Theorem X1_plain_profile_is_linear (bore_shape : string)
    (entry_diam exit_diam length_mm : Q) (resolution : string) :
  plain_shape bore_shape ->
  0 <= entry_diam -> 0 <= exit_diam ->
  let n := Geometry.num_points_of resolution in
  let diam_vals :=
    snd (Geometry.generate_barrel_profile bore_shape entry_diam exit_diam
           length_mm resolution) in
  List.length diam_vals = n /\
  (forall i, (i < n)%nat ->
     nth i diam_vals 0
     = entry_diam + Py.of_nat i / (Py.of_nat n - 1) * (exit_diam - entry_diam)) /\
  nth 0 diam_vals 0 == entry_diam /\
  (entry_diam == exit_diam ->
   forall i, (i < n)%nat -> nth i diam_vals 0 == entry_diam).
Proof.
  intros Hplain _ _ n diam_vals.
  pose proof (num_points_ge_2 resolution) as Hn. fold n in Hn.
  pose proof (of_nat_pred_pos n Hn) as Hd.
  assert (Hnth : forall i, (i < n)%nat ->
            nth i diam_vals 0
            = entry_diam + Py.of_nat i / (Py.of_nat n - 1) * (exit_diam - entry_diam)).
  { intros i Hi. subst diam_vals. unfold Geometry.generate_barrel_profile.
    fold n. cbn [snd]. rewrite nth_map_seq by exact Hi.
    apply shaped_diameter_plain. exact Hplain. }
  split.
  { subst diam_vals. unfold Geometry.generate_barrel_profile. cbn [snd].
    rewrite List.length_map, List.length_seq. reflexivity. }
  split; [exact Hnth|].
  split.
  { rewrite Hnth by lia. unfold Py.of_nat. simpl inject_Z. field.
    intro E. rewrite E in Hd. discriminate. }
  intros Heq i Hi. rewrite Hnth by exact Hi. rewrite Heq. ring.
Qed.

Lemma square_nonneg (x : Q) : 0 <= x * x.
Proof. unfold Qle, Qmult. simpl. rewrite Z.mul_1_r. apply Z.square_nonneg. Qed.

Lemma power_two (x : Q) : x ^ 2 == x * x.
Proof. unfold Qpower, Qpower_positive, pow_pos; cbn [Pos.iter_op]; ring. Qed.

Lemma shape_factor_bounds (bore_shape : string) (e x fr lo hi : Q) :
  0 <= fr -> fr <= 1 -> 0 <= lo ->
  lo <= e -> e <= hi -> lo <= x -> x <= hi ->
  lo <= Geometry.shaped_diameter bore_shape e x fr /\
  Geometry.shaped_diameter bore_shape e x fr <= (11 # 10) * hi.
Proof.
  intros H0 H1 Hlo He1 He2 Hx1 Hx2.
  set (base := e + fr * (x - e)).
  assert (P1 : 0 <= (1 - fr) * (e - lo)) by (apply Qmult_le_0_compat; lra).
  assert (P2 : 0 <= fr * (x - lo)) by (apply Qmult_le_0_compat; lra).
  assert (P3 : 0 <= (1 - fr) * (hi - e)) by (apply Qmult_le_0_compat; lra).
  assert (P4 : 0 <= fr * (hi - x)) by (apply Qmult_le_0_compat; lra).
  assert (Hb1 : lo <= base).
  { apply Qle_minus_iff. assert (E : (base + - lo) == ((1 - fr) * (e - lo) + fr * (x - lo))) by (subst base; ring). rewrite E; clear E.
    lra. }
  assert (Hb2 : base <= hi).
  { apply Qle_minus_iff. assert (E : (hi + - base) == ((1 - fr) * (hi - e) + fr * (hi - x))) by (subst base; ring). rewrite E; clear E.
    lra. }
  assert (Hfac : forall k, 1 <= k -> k <= 11 # 10 ->
                   lo <= base * k /\ base * k <= (11 # 10) * hi).
  { intros k Hk1 Hk2.
    assert (Q1 : 0 <= base * (k - 1)) by (apply Qmult_le_0_compat; lra).
    assert (Q2 : 0 <= base * ((11 # 10) - k)) by (apply Qmult_le_0_compat; lra).
    split; apply Qle_minus_iff.
    - assert (E : (base * k + - lo) == (base * (k - 1) + (base - lo))) by ring. rewrite E; clear E.
      lra.
    - assert (E : ((11 # 10) * hi + - (base * k)) == (base * ((11 # 10) - k) + (11 # 10) * (hi - base))) by ring. rewrite E; clear E.
      lra. }
  unfold Geometry.shaped_diameter. fold base.
  destruct (String.eqb bore_shape "Tapered"); [apply Hfac; lra|].
  destruct (String.eqb bore_shape "Reverse Tapered"); [apply Hfac; lra|].
  destruct (String.eqb bore_shape "Parabolic").
  { pose proof (power_two (fr - (1 # 2))) as E2.
    assert (S0 : 0 <= (fr - (1 # 2)) ^ 2) by (rewrite E2; apply square_nonneg).
    assert (S1 : (fr - (1 # 2)) ^ 2 <= 1 # 4).
    { assert (P : 0 <= fr * (1 - fr)) by (apply Qmult_le_0_compat; lra).
      apply Qle_minus_iff.
      assert (E : (1 # 4) + - (fr - (1 # 2)) ^ 2 == fr * (1 - fr))
        by (rewrite E2; ring).
      rewrite E. exact P. }
    apply Hfac; lra. }
  destruct (String.eqb bore_shape "Stepped").
  { destruct (Py.gt fr (1 # 2)); [apply Hfac; lra|]. split; lra. }
  split; lra.
Qed.

Lemma fraction_le (n i j : nat) :
  (2 <= n)%nat -> (i <= j)%nat ->
  Py.of_nat i / (Py.of_nat n - 1) <= Py.of_nat j / (Py.of_nat n - 1).
Proof.
  intros Hn Hij. pose proof (of_nat_pred_pos n Hn) as Hd.
  apply Qmult_le_compat_r; [apply of_nat_le; exact Hij|].
  apply Qlt_le_weak. apply Qinv_lt_0_compat. exact Hd.
Qed.

(** X2. When the end diameters are not negative, no diameter of
    [generate_barrel_profile] is negative, whatever the bore shape. For a
    shape without a factor (Cylindrical or an unknown text) the diameters
    moreover follow the order of the ends: with [entry <= exit] they never
    decrease along the axis and none is below the entry diameter, with
    [exit <= entry] they never increase and none is above it. *)
Theorem X2_profile_diameter_order (bore_shape : string)
    (entry_diam exit_diam length_mm : Q) (resolution : string) :
  0 <= entry_diam -> 0 <= exit_diam ->
  let n := Geometry.num_points_of resolution in
  let diam_vals :=
    snd (Geometry.generate_barrel_profile bore_shape entry_diam exit_diam
           length_mm resolution) in
  List.Forall (fun d => 0 <= d) diam_vals /\
  (plain_shape bore_shape -> entry_diam <= exit_diam ->
   (forall i j, (i <= j)%nat -> (j < n)%nat ->
      nth i diam_vals 0 <= nth j diam_vals 0) /\
   (forall i, (i < n)%nat -> entry_diam <= nth i diam_vals 0)) /\
  (plain_shape bore_shape -> exit_diam <= entry_diam ->
   (forall i j, (i <= j)%nat -> (j < n)%nat ->
      nth j diam_vals 0 <= nth i diam_vals 0) /\
   (forall i, (i < n)%nat -> nth i diam_vals 0 <= entry_diam)).
Proof.
  intros He Hx n diam_vals.
  pose proof (num_points_ge_2 resolution) as Hn. fold n in Hn.
  assert (Hnth : plain_shape bore_shape -> forall i, (i < n)%nat ->
            nth i diam_vals 0
            = entry_diam + Py.of_nat i / (Py.of_nat n - 1) * (exit_diam - entry_diam)).
  { intros Hplain i Hi. subst diam_vals. unfold Geometry.generate_barrel_profile.
    fold n. cbn [snd]. rewrite nth_map_seq by exact Hi.
    apply shaped_diameter_plain. exact Hplain. }
  split; [|split].
  - subst diam_vals. unfold Geometry.generate_barrel_profile. cbn [snd].
    apply List.Forall_forall. intros d Hd. apply List.in_map_iff in Hd.
    destruct Hd as (i & <- & Hi). apply List.in_seq in Hi.
    destruct (sample_fraction_bounds (Geometry.num_points_of resolution) i)
      as [H0 H1]; [apply num_points_ge_2 | lia |].
    apply (shape_factor_bounds bore_shape entry_diam exit_diam _ 0
             (entry_diam + exit_diam)); try assumption; lra.
  - intros Hplain Hle. split.
    + intros i j Hij Hj. rewrite !Hnth by (assumption || lia).
      pose proof (fraction_le n i j Hn Hij) as Hf.
      set (fi := Py.of_nat i / (Py.of_nat n - 1)) in *.
      set (fj := Py.of_nat j / (Py.of_nat n - 1)) in *.
      assert (P : 0 <= (fj - fi) * (exit_diam - entry_diam))
        by (apply Qmult_le_0_compat; lra).
      apply Qle_minus_iff.
      assert (E : entry_diam + fj * (exit_diam - entry_diam)
                  + - (entry_diam + fi * (exit_diam - entry_diam))
                  == (fj - fi) * (exit_diam - entry_diam)) by ring.
      rewrite E. exact P.
    + intros i Hi. rewrite Hnth by assumption.
      destruct (sample_fraction_bounds n i Hn Hi) as [H0 _].
      set (fi := Py.of_nat i / (Py.of_nat n - 1)) in *.
      assert (P : 0 <= fi * (exit_diam - entry_diam))
        by (apply Qmult_le_0_compat; lra).
      lra.
  - intros Hplain Hle. split.
    + intros i j Hij Hj. rewrite !Hnth by (assumption || lia).
      pose proof (fraction_le n i j Hn Hij) as Hf.
      set (fi := Py.of_nat i / (Py.of_nat n - 1)) in *.
      set (fj := Py.of_nat j / (Py.of_nat n - 1)) in *.
      assert (P : 0 <= (fj - fi) * (entry_diam - exit_diam))
        by (apply Qmult_le_0_compat; lra).
      apply Qle_minus_iff.
      assert (E : entry_diam + fi * (exit_diam - entry_diam)
                  + - (entry_diam + fj * (exit_diam - entry_diam))
                  == (fj - fi) * (entry_diam - exit_diam)) by ring.
      rewrite E. exact P.
    + intros i Hi. rewrite Hnth by assumption.
      destruct (sample_fraction_bounds n i Hn Hi) as [H0 _].
      set (fi := Py.of_nat i / (Py.of_nat n - 1)) in *.
      assert (P : 0 <= fi * (entry_diam - exit_diam))
        by (apply Qmult_le_0_compat; lra).
      apply Qle_minus_iff.
      assert (E : entry_diam + - (entry_diam + fi * (exit_diam - entry_diam))
                  == fi * (entry_diam - exit_diam)) by ring.
      rewrite E. exact P.
Qed.

Lemma bottom_is_mirrored_top (l : list Geometry.segment) :
  flat_map Geometry.bot_points (rev l)
  = List.map mirror (rev (flat_map Geometry.top_points l)).
Proof.
  induction l as [|s l IH]; [reflexivity|].
  cbn [rev flat_map]. rewrite List.flat_map_app, IH.
  rewrite List.rev_app_distr, List.map_app. reflexivity.
Qed.

Lemma sorted_segments_length (l : list Geometry.segment) :
  List.length (Geometry.sorted_segments l) = List.length l.
Proof.
  symmetry. apply Permutation_length. apply sorted_segments_perm.
Qed.

Lemma top_edge_length (l : list Geometry.segment) :
  List.length (flat_map Geometry.top_points l) = (2 * List.length l)%nat.
Proof. induction l as [|s l IH]; cbn in *; lia. Qed.

(** X3. The outline of [build_unfolded_bore_outline] is the top edge
    returned by [build_unfolded_bore_fill] followed by the same points in
    reverse order, mirrored at the axis; the fill has two points per
    segment and the outline four. *)
Theorem X3_outline_is_mirrored_fill (bore_data : list Geometry.segment) :
  let fill := Geometry.build_unfolded_bore_fill bore_data in
  outline_points (Geometry.build_unfolded_bore_outline bore_data)
  = fill ++ List.map mirror (rev fill) /\
  List.length fill = (2 * List.length bore_data)%nat /\
  List.length (outline_points (Geometry.build_unfolded_bore_outline bore_data))
  = (4 * List.length bore_data)%nat.
Proof.
  intros fill.
  assert (Hfill : fill = flat_map Geometry.top_points
                           (Geometry.sorted_segments bore_data))
    by (subst fill; destruct bore_data; reflexivity).
  assert (Hout : outline_points (Geometry.build_unfolded_bore_outline bore_data)
                 = fill ++ List.map mirror (rev fill)).
  { rewrite Hfill, <- bottom_is_mirrored_top.
    unfold outline_points, Geometry.build_unfolded_bore_outline.
    destruct bore_data as [|s l]; [reflexivity|]. cbn [fst snd].
    apply combine_fst_snd. }
  assert (Hlen : List.length fill = (2 * List.length bore_data)%nat)
    by (rewrite Hfill, top_edge_length, sorted_segments_length; reflexivity).
  split; [exact Hout|]. split; [exact Hlen|].
  rewrite Hout, List.length_app, List.length_map, List.length_rev, Hlen. lia.
Qed.

Lemma hole_points_spec (h : Py.dict) :
  (has_minus (Py.dict_get h "diameter" (Py.VNum 0)) = true ->
   exists bottom,
     Geometry.hole_points h
     = Py.Ok [(Py.dict_get h "position" (Py.VNum 0), Py.VNum 0);
              (Py.dict_get h "position" (Py.VNum 0), bottom)]) /\
  (has_minus (Py.dict_get h "diameter" (Py.VNum 0)) = false ->
   Geometry.hole_points h = Py.Raise Py.TypeError).
Proof.
  unfold Geometry.hole_points.
  destruct (Py.dict_get h "diameter" (Py.VNum 0)); cbn;
    split; intros H; try discriminate; eauto.
Qed.

(** X4. [build_unfolded_holes] (and the three helpers with the same
    body) returns two points per row when every diameter cell is a number;
    a row whose diameter cell is anything else (None, a string) makes the
    call raise [TypeError]; a row without position and diameter gives the
    two points (0, 0). *)
Theorem X4_unfolded_holes (holes_data : list Py.dict) :
  (List.Forall (fun h => has_minus (Py.dict_get h "diameter" (Py.VNum 0)) = true)
     holes_data ->
   exists points,
     Geometry.build_unfolded_holes holes_data = Py.Ok points /\
     List.length points = (2 * List.length holes_data)%nat) /\
  (List.Exists (fun h => has_minus (Py.dict_get h "diameter" (Py.VNum 0)) = false)
     holes_data ->
   Geometry.build_unfolded_holes holes_data = Py.Raise Py.TypeError) /\
  Geometry.build_unfolded_holes [[("label", Py.VStr "Hole1")]]
  = Py.Ok [(Py.VNum 0, Py.VNum 0); (Py.VNum 0, Py.VNum 0)] /\
  Geometry.build_unfolded_holes
    [[("position", Py.VNum 40); ("diameter", Py.VNone)]]
  = Py.Raise Py.TypeError.
Proof.
  split; [|split; [|split; reflexivity]].
  - induction 1 as [|h l Hh _ IH].
    + exists []. split; reflexivity.
    + destruct IH as (points & Hp & Hlen).
      destruct (proj1 (hole_points_spec h) Hh) as (bottom & Hb).
      unfold Geometry.build_unfolded_holes in *. cbn [Py.mapM]. rewrite Hb.
      py_run. destruct (Py.mapM Geometry.hole_points l) as [rs|e]; [|discriminate].
      cbn [Py.bind] in *. injection Hp as <-.
      eexists. split; [reflexivity|]. cbn [concat app List.length]. lia.
  - induction 1 as [h l Hh|h l _ IH].
    + unfold Geometry.build_unfolded_holes. cbn [Py.mapM].
      rewrite (proj2 (hole_points_spec h) Hh). reflexivity.
    + unfold Geometry.build_unfolded_holes in *. cbn [Py.mapM].
      destruct (has_minus (Py.dict_get h "diameter" (Py.VNum 0))) eqn:E.
      * destruct (proj1 (hole_points_spec h) E) as (bottom & Hb). rewrite Hb.
        py_run. py_run. 
        destruct (Py.mapM Geometry.hole_points l) as [rs|e]; [discriminate|].
        cbn [Py.bind] in *. exact IH.
      * rewrite (proj2 (hole_points_spec h) E). reflexivity.
Qed.

Lemma X1_plain_profile_is_linear_witness :
  plain_shape "Cylindrical" /\ 0 <= 14 /\ 0 <= 15 /\
  nth 0 (snd (Geometry.generate_barrel_profile "Cylindrical" 14 15 66 "Low")) 0
  == 14.
Proof.
  assert (H : plain_shape "Cylindrical") by (repeat split; discriminate).
  assert (H14 : 0 <= 14) by discriminate.
  assert (H15 : 0 <= 15) by discriminate.
  split; [exact H|]. split; [exact H14|]. split; [exact H15|].
  exact (proj1 (proj2 (proj2 (X1_plain_profile_is_linear "Cylindrical" 14 15 66
                                "Low" H H14 H15)))).
Defined.

Lemma X2_profile_diameter_order_witness :
  0 <= 14 /\ 0 <= 15 /\
  List.Forall (fun d => 0 <= d)
    (snd (Geometry.generate_barrel_profile "Parabolic" 14 15 66 "Low")).
Proof.
  assert (H14 : 0 <= 14) by discriminate.
  assert (H15 : 0 <= 15) by discriminate.
  split; [exact H14|]. split; [exact H15|].
  exact (proj1 (X2_profile_diameter_order "Parabolic" 14 15 66 "Low" H14 H15)).
Defined.

Lemma X4_unfolded_holes_witness :
  exists points,
    Geometry.build_unfolded_holes
      [[("position", Py.VNum 40); ("diameter", Py.VNum 7)]] = Py.Ok points /\
    List.length points = 2%nat.
Proof.
  apply (proj1 (X4_unfolded_holes
                  [[("position", Py.VNum 40); ("diameter", Py.VNum 7)]])).
  repeat constructor.
Defined.

(** ** Ranges of the placeholder simulations *)

Lemma round_half_even_bounds (y : Q) (A B : Z) :
  inject_Z A <= y -> y <= inject_Z B ->
  (A <= Py.round_half_even y <= B)%Z.
Proof.
  intros HA HB. unfold Py.round_half_even.
  assert (Hfl : (A <= Qfloor y)%Z).
  { rewrite <- (Qfloor_Z A). apply Qfloor_resp_le. exact HA. }
  assert (Hfu : (Qfloor y <= B)%Z).
  { rewrite <- (Qfloor_Z B). apply Qfloor_resp_le. exact HB. }
  assert (Hup : 0 < y - inject_Z (Qfloor y) -> (Qfloor y + 1 <= B)%Z).
  { intros Hpos. 
    assert (Hlt : inject_Z (Qfloor y) < inject_Z B) by lra.
    rewrite <- Zlt_Qlt in Hlt. lia. }
  destruct (Qcompare_spec (y - inject_Z (Qfloor y)) (1 # 2)) as [E|E|E].
  - destruct (Z.even (Qfloor y)); [lia|]. 
    assert (0 < y - inject_Z (Qfloor y)) by (rewrite E; reflexivity).
    specialize (Hup H). lia.
  - lia.
  - assert (0 < y - inject_Z (Qfloor y)) by lra. specialize (Hup H). lia.
Qed.

Lemma round_between (x : Q) (ndigits : nat) (A B : Z) :
  inject_Z A <= x * inject_Z (10 ^ Z.of_nat ndigits) ->
  x * inject_Z (10 ^ Z.of_nat ndigits) <= inject_Z B ->
  inject_Z A / inject_Z (10 ^ Z.of_nat ndigits) <= Py.round x ndigits /\
  Py.round x ndigits <= inject_Z B / inject_Z (10 ^ Z.of_nat ndigits).
Proof.
  intros HA HB. unfold Py.round.
  set (scale := inject_Z (10 ^ Z.of_nat ndigits)) in *.
  assert (Hs : 0 < scale).
  { subst scale. change 0 with (inject_Z 0). rewrite <- Zlt_Qlt.
    apply Z.pow_pos_nonneg; lia. }
  destruct (round_half_even_bounds (x * scale) A B HA HB) as [H1 H2].
  split; apply Qmult_le_compat_r;
    try (apply Qlt_le_weak, Qinv_lt_0_compat; exact Hs);
    rewrite <- Zle_Qle; assumption.
Qed.

Lemma div_le_scale (a b x : Q) : 0 < b -> a / b <= x -> a <= x * b.
Proof.
  intros Hb H. apply (Qmult_le_compat_r _ _ b) in H; [|apply Qlt_le_weak; exact Hb].
  assert (E : a / b * b == a) by (field; intro E; rewrite E in Hb; discriminate).
  rewrite E in H. exact H.
Qed.

Lemma scale_le_div (a b x : Q) : 0 < b -> x <= a / b -> x * b <= a.
Proof.
  intros Hb H. apply (Qmult_le_compat_r _ _ b) in H; [|apply Qlt_le_weak; exact Hb].
  assert (E : a / b * b == a) by (field; intro E; rewrite E in Hb; discriminate).
  rewrite E in H. exact H.
Qed.

Lemma round2_between (x : Q) (A B : Z) :
  inject_Z A / 100 <= x -> x <= inject_Z B / 100 ->
  inject_Z A / 100 <= Py.round x 2 /\ Py.round x 2 <= inject_Z B / 100.
Proof.
  intros HA HB. apply (round_between x 2 A B);
    [apply div_le_scale | apply scale_le_div]; try reflexivity; assumption.
Qed.

Lemma round3_between (x : Q) (A B : Z) :
  inject_Z A / 1000 <= x -> x <= inject_Z B / 1000 ->
  inject_Z A / 1000 <= Py.round x 3 /\ Py.round x 3 <= inject_Z B / 1000.
Proof.
  intros HA HB. apply (round_between x 3 A B);
    [apply div_le_scale | apply scale_le_div]; try reflexivity; assumption.
Qed.

Lemma round_range (x : Q) (ndigits : nat) (a b : Q) (A B : Z) :
  a == inject_Z A / inject_Z (10 ^ Z.of_nat ndigits) ->
  b == inject_Z B / inject_Z (10 ^ Z.of_nat ndigits) ->
  a <= x -> x <= b ->
  a <= Py.round x ndigits /\ Py.round x ndigits <= b.
Proof.
  intros Ea Eb Ha Hb.
  assert (Hs : 0 < inject_Z (10 ^ Z.of_nat ndigits)).
  { change 0 with (inject_Z 0). rewrite <- Zlt_Qlt. apply Z.pow_pos_nonneg; lia. }
  rewrite Ea, Eb in *.
  apply round_between; [apply div_le_scale | apply scale_le_div]; assumption.
Qed.

(** The result of the placeholder simulation, draw by draw. *)
Lemma mock_simulation_shape (profile_points : list Q) (material : string)
    (thickness : Q) (g : Simulation.rng) :
  Simulation.unit_draws g ->
  exists (u1 u2 u3 u4 : Q) (impedance admittance : list Q),
    (-30 <= u1 /\ u1 < 30) /\ (20 <= u2 /\ u2 < 80) /\
    ((7 # 10) <= u3 /\ u3 < (95 # 100)) /\ ((3 # 10) <= u4 /\ u4 < (8 # 10)) /\
    fst (Simulation.run_mock_simulation profile_points material thickness g)
    = Py.Ok {| Simulation.f1 := Py.round (450 + u1) 2;
               Simulation.cutoff := Py.round (Py.round (450 + u1) 2 * (22 # 10)) 2;
               Simulation.resistance := Py.round u2 2;
               Simulation.freq := Py.range 100 2000 50;
               Simulation.impedance_curve := impedance;
               Simulation.admittance_curve := admittance;
               Simulation.harmonicity := Py.round u3 3;
               Simulation.brightness := Py.round u4 3 |}.
Proof.
  intros Hg. unfold Simulation.run_mock_simulation.
  pose proof (uniform_bounds (-30) 30 g Hg eq_refl) as B1.
  pose proof (uniform_keeps_draws (-30) 30 g Hg) as Hg1.
  destruct (Simulation.uniform (-30) 30 g) as [u1 g1]. cbn [fst snd] in B1, Hg1.
  pose proof (uniform_bounds 20 80 g1 Hg1 eq_refl) as B2.
  pose proof (uniform_keeps_draws 20 80 g1 Hg1) as Hg2.
  destruct (Simulation.uniform 20 80 g1) as [u2 g2]. cbn [fst snd] in B2, Hg2.
  pose proof (uniform_each_spec (1 # 2) (3 # 2) (Py.range 100 2000 50)
                eq_refl g2 Hg2) as (Hlen & Hall & Hg3).
  destruct (Simulation.uniform_each (1 # 2) (3 # 2) (Py.range 100 2000 50) g2)
    as [impedance g3].
  cbn [fst snd] in Hlen, Hall, Hg3.
  pose proof (uniform_bounds (7 # 10) (95 # 100) g3 Hg3 eq_refl) as B3.
  pose proof (uniform_keeps_draws (7 # 10) (95 # 100) g3 Hg3) as Hg4.
  destruct (Simulation.uniform (7 # 10) (95 # 100) g3) as [u3 g4].
  cbn [fst snd] in B3, Hg4.
  pose proof (uniform_bounds (3 # 10) (8 # 10) g4 Hg4 eq_refl) as B4.
  destruct (Simulation.uniform (3 # 10) (8 # 10) g4) as [u4 g5].
  cbn [fst snd] in B4.
  assert (Hnz : List.Forall (fun z => ~ z == 0) impedance).
  { eapply List.Forall_impl; [|exact Hall]. cbn. intros z [Hz _] E.
    rewrite E in Hz. apply Hz. reflexivity. }
  destruct (reciprocals_spec impedance Hnz) as (adm & Hadm & Hrec).
  cbn [fst]. rewrite Hadm.
  exists u1, u2, u3, u4, impedance, adm.
  repeat (split; [assumption|]). reflexivity.
Qed.

(** X5. With draws in [0, 1), [run_mock_simulation] succeeds and its
    scores stay in range: f1 in [420, 480], cutoff in [924, 1056],
    resistance in [20, 80], harmonicity in [0.7, 0.95] and brightness in
    [0.3, 0.8], rounding included. *)
Theorem X5_mock_scores_in_range (profile_points : list Q) (material : string)
    (thickness : Q) (g : Simulation.rng) :
  Simulation.unit_draws g ->
  exists r : Simulation.sim_results,
    fst (Simulation.run_mock_simulation profile_points material thickness g)
    = Py.Ok r /\
    (420 <= Simulation.f1 r /\ Simulation.f1 r <= 480) /\
    (924 <= Simulation.cutoff r /\ Simulation.cutoff r <= 1056) /\
    (20 <= Simulation.resistance r /\ Simulation.resistance r <= 80) /\
    ((7 # 10) <= Simulation.harmonicity r /\
     Simulation.harmonicity r <= (95 # 100)) /\
    ((3 # 10) <= Simulation.brightness r /\ Simulation.brightness r <= (8 # 10)).
Proof.
  intros Hg.
  destruct (mock_simulation_shape profile_points material thickness g Hg)
    as (u1 & u2 & u3 & u4 & impedance & adm & B1 & B2 & B3 & B4 & Hr).
  eexists. split; [exact Hr|].
  cbn [Simulation.f1 Simulation.cutoff Simulation.resistance
       Simulation.harmonicity Simulation.brightness].
  assert (F1 : 420 <= Py.round (450 + u1) 2 /\ Py.round (450 + u1) 2 <= 480)
    by (apply (round_range _ 2 420 480 42000 48000); try reflexivity; lra).
  split; [exact F1|].
  split; [apply (round_range _ 2 924 1056 92400 105600); try reflexivity; lra|].
  split; [apply (round_range _ 2 20 80 2000 8000); try reflexivity; lra|].
  split; [apply (round_range _ 3 (7 # 10) (95 # 100) 700 950);
          try reflexivity; lra|].
  apply (round_range _ 3 (3 # 10) (8 # 10) 300 800); try reflexivity; lra.
Qed.

Lemma comments_structure (lower : string) (sim : Simulation.sim_results) :
  exists (first second : string) (rest : list string),
    Simulation.comments_of lower sim = first :: second :: rest /\
    In first [Simulation.very_free_blowing; Simulation.moderate_resistance;
              Simulation.high_resistance] /\
    In second [Simulation.darker_timbre; Simulation.moderately_bright;
               Simulation.quite_bright] /\
    (rest = [] \/ rest = [Simulation.overtones_align] \/ rest = [lower]) /\
    (rest = [] <->
     (75 # 100) <= Simulation.harmonicity sim /\
     Simulation.harmonicity sim < (85 # 100)) /\
    ((85 # 100) <= Simulation.harmonicity sim ->
     rest = [Simulation.overtones_align]) /\
    (Simulation.harmonicity sim < (75 # 100) -> rest = [lower]).
Proof.
  unfold Simulation.comments_of. cbn [app].
  decide_thresholds; cbn [app];
    eexists _, _, _; (split; [reflexivity|]);
    (split; [cbn; tauto|]); (split; [cbn; tauto|]);
    (split; [tauto|]); (split; [split|split]);
    try discriminate; try (intros; reflexivity); try (intros; split; lra);
    try (intros [? ?]; lra); try (intros; lra).
Qed.

(** X6. [evaluate_barrel_attributes] (simulation.py and barrel.py)
    always returns a resistance comment, then a brightness comment, then at
    most one harmonicity comment: none exactly when
    [0.75 <= harmonicity < 0.85], the aligned-overtones text from 0.85 on,
    the mismatched-overtones text below 0.75. *)
Theorem X6_comment_structure (sim : Simulation.sim_results) :
  (exists (first second : string) (rest : list string),
     Simulation.evaluate_barrel_attributes sim = first :: second :: rest /\
     In first [Simulation.very_free_blowing; Simulation.moderate_resistance;
               Simulation.high_resistance] /\
     In second [Simulation.darker_timbre; Simulation.moderately_bright;
                Simulation.quite_bright] /\
     (rest = [] \/ rest = [Simulation.overtones_align]
      \/ rest = [Simulation.overtones_mismatched]) /\
     (rest = [] <->
      (75 # 100) <= Simulation.harmonicity sim /\
      Simulation.harmonicity sim < (85 # 100)) /\
     ((85 # 100) <= Simulation.harmonicity sim ->
      rest = [Simulation.overtones_align]) /\
     (Simulation.harmonicity sim < (75 # 100) ->
      rest = [Simulation.overtones_mismatched])) /\
  (exists (first second : string) (rest : list string),
     Barrel.evaluate_barrel_attributes sim = first :: second :: rest /\
     In first [Simulation.very_free_blowing; Simulation.moderate_resistance;
               Simulation.high_resistance] /\
     In second [Simulation.darker_timbre; Simulation.moderately_bright;
                Simulation.quite_bright] /\
     (rest = [] \/ rest = [Simulation.overtones_align]
      \/ rest = [Barrel.overtones_slightly_mismatched]) /\
     (rest = [] <->
      (75 # 100) <= Simulation.harmonicity sim /\
      Simulation.harmonicity sim < (85 # 100)) /\
     ((85 # 100) <= Simulation.harmonicity sim ->
      rest = [Simulation.overtones_align]) /\
     (Simulation.harmonicity sim < (75 # 100) ->
      rest = [Barrel.overtones_slightly_mismatched])).
Proof.
  split.
  - apply (comments_structure Simulation.overtones_mismatched sim).
  - apply (comments_structure Barrel.overtones_slightly_mismatched sim).
Qed.

Lemma simulation_factor_ge_1 (exterior_shape : string) (frac : Q) :
  0 <= frac -> frac <= 1 -> 1 <= Simulation.outer_factor exterior_shape frac.
Proof.
  intros H0 H1. unfold Simulation.outer_factor.
  destruct (String.eqb exterior_shape "Standard"); [lra|].
  destruct (String.eqb exterior_shape "Hourglass (waist tapered)").
  { assert (Qabs (frac - (1 # 2)) <= 1 # 2) by (apply Qabs_Qle_condition; split; lra).
    lra. }
  destruct (String.eqb exterior_shape "Reverse Taper (bulged center)").
  { pose proof (power_two (frac - (1 # 2))) as E2.
    assert (S1 : (frac - (1 # 2)) ^ 2 <= 1 # 4).
    { assert (P : 0 <= frac * (1 - frac)) by (apply Qmult_le_0_compat; lra).
      apply Qle_minus_iff.
      assert (E : (1 # 4) + - (frac - (1 # 2)) ^ 2 == frac * (1 - frac))
        by (rewrite E2; ring).
      rewrite E. exact P. }
    lra. }
  destruct (String.eqb exterior_shape "Bell-like Flare (tuned)"); [lra|].
  destruct (String.eqb exterior_shape "User-Defined"); lra.
Qed.

Lemma axis_fraction_bounds (length x : Q) :
  0 <= x -> x <= length ->
  0 <= (if Qeq_bool length 0 then 0 else x / length) /\
  (if Qeq_bool length 0 then 0 else x / length) <= 1.
Proof.
  intros H0 H1. destruct (Qeq_bool length 0) eqn:E; [split; lra|].
  assert (Hne : ~ length == 0) by (intro H; apply Qeq_bool_iff in H; congruence).
  assert (Hpos : 0 < length).
  { apply Qnot_le_lt. intro Hle. apply Hne. lra. }
  split.
  - apply Qle_shift_div_l; [exact Hpos|]. lra.
  - apply Qle_shift_div_r; [exact Hpos|]. lra.
Qed.

(** X7. The thickness map of simulation.py returns the empty list when the
    two lists differ in length or one of them is empty. For lists of equal
    length whose positions start at 0 and stay between 0 and the last one,
    it returns one thickness per sample, for every exterior shape (the
    hourglass included), and no thickness is negative when no bore diameter
    is. *)
Theorem X7_guarded_thickness_map (x_vals bore_diam_vals : list Q)
    (exterior_shape : string) :
  (List.length x_vals <> List.length bore_diam_vals ->
   Simulation.mock_thickness_map x_vals bore_diam_vals exterior_shape
   = Py.Ok []) /\
  (x_vals = [] \/ bore_diam_vals = [] ->
   Simulation.mock_thickness_map x_vals bore_diam_vals exterior_shape
   = Py.Ok []) /\
  (List.length x_vals = List.length bore_diam_vals ->
   on_axis x_vals ->
   exists t,
     Simulation.mock_thickness_map x_vals bore_diam_vals exterior_shape
     = Py.Ok t /\
     List.length t = List.length x_vals /\
     (List.Forall (fun d => 0 <= d) bore_diam_vals ->
      List.Forall (fun v => 0 <= v) t)).
Proof.
  unfold Simulation.mock_thickness_map.
  destruct x_vals as [|x0 xs].
  { split; [reflexivity|]. split; [reflexivity|].
    intros _ _. exists []. repeat split; auto. }
  destruct bore_diam_vals as [|d0 ds].
  { split; [reflexivity|]. split; [reflexivity|]. discriminate. }
  destruct (Nat.eqb_spec (List.length (x0 :: xs)) (List.length (d0 :: ds)))
    as [Hlen|Hlen]; cbn [negb].
  2:{ split; [reflexivity|].
      split; [intros [H|H]; discriminate H | contradiction]. }
  split; [contradiction|]. split; [intros [H|H]; discriminate H|].
  intros _ [Hfirst Haxis].
  set (length := Py.last_item (x0 :: xs) - Py.first_item (x0 :: xs)).
  destruct (mapM_ok
              (fun ix : nat * Q =>
                 let frac := if Qeq_bool length 0 then 0 else snd ix / length in
                 let outer_factor := Simulation.outer_factor exterior_shape frac in
                 bore ← Py.getitem (d0 :: ds) (fst ix);
                 let outer_diam := bore * outer_factor in
                 bore' ← Py.getitem (d0 :: ds) (fst ix);
                 Py.Ok ((outer_diam - bore') / 2))
              (fun t => List.Forall (fun d => 0 <= d) (d0 :: ds) -> 0 <= t)
              (Py.enumerate (x0 :: xs))) as (t & Ht & Hl & Hall).
  - intros [i x] Hin. apply enumerate_In in Hin. destruct Hin as [Hi Hx].
    cbn [fst snd]. unfold Py.getitem.
    destruct (nth_error (d0 :: ds) i) as [d|] eqn:E.
    2:{ apply nth_error_None in E. lia. }
    py_run. eexists. split; [reflexivity|].
    intros Hd.
    apply nth_error_In in E.
    pose proof (proj1 (List.Forall_forall _ _) Hd d E) as Hdn. cbn in Hdn.
    pose proof (proj1 (List.Forall_forall _ _) Haxis x Hx) as [Hx0 Hx1].
    assert (Hxl : x <= length) by (subst length; rewrite Hfirst; lra).
    destruct (axis_fraction_bounds length x Hx0 Hxl) as [F0 F1].
    pose proof (simulation_factor_ge_1 exterior_shape _ F0 F1) as Hf.
    set (f := Simulation.outer_factor exterior_shape
                (if Qeq_bool length 0 then 0 else x / length)) in *.
    assert (0 <= d * (f - 1)) by (apply Qmult_le_0_compat; lra).
    apply Qle_shift_div_l; [reflexivity|]. lra.
  - exists t. split; [exact Ht|].
    split; [rewrite Hl; apply enumerate_length|].
    intros Hd. eapply List.Forall_impl; [|exact Hall].
    cbn. intros a Ha. exact (Ha Hd).
Qed.

(** X8. With draws in [0, 1), [run_real_simulation] returns 18
    frequencies and 18 impedances; the thickness factor is the thickness
    given as a number and 1 for a list; with [k = 1 + 0.01 * thickness
    factor >= 0] every impedance lies in [0.5 k, 2 k]; the material factor
    is 1.05 for African Blackwood, 0.95 for Hard Rubber and 1 otherwise,
    and f1 lies in [420, 460] and the cutoff in [882, 966], both times the
    material factor. *)
Theorem X8_real_simulation_ranges (bore_shape : string)
    (entry_diam exit_diam : Q) (length_mm resolution : Z)
    (material : string) (thickness : Q + list Q) (g : Simulation.rng) :
  Simulation.unit_draws g ->
  let r := fst (Simulation.run_real_simulation bore_shape entry_diam exit_diam
                  length_mm resolution material thickness g) in
  let k := 1 + (1 # 100) * Simulation.thickness_factor r in
  List.length (Simulation.real_freq r) = 18%nat /\
  List.length (Simulation.impedances r) = 18%nat /\
  Simulation.thickness_factor r
  = match thickness with inl t => t | inr _ => 1 end /\
  (0 <= k ->
   List.Forall (fun z => (1 # 2) * k <= z /\ z <= 2 * k)
               (Simulation.impedances r)) /\
  (Simulation.material_factor r = (105 # 100) \/
   Simulation.material_factor r = (95 # 100) \/
   Simulation.material_factor r = 1) /\
  (material = "African Blackwood" ->
   Simulation.material_factor r = (105 # 100)) /\
  (material = "Hard Rubber" -> Simulation.material_factor r = (95 # 100)) /\
  420 * Simulation.material_factor r <= Simulation.real_f1 r /\
  Simulation.real_f1 r <= 460 * Simulation.material_factor r /\
  882 * Simulation.material_factor r <= Simulation.real_cutoff r /\
  Simulation.real_cutoff r <= 966 * Simulation.material_factor r.
Proof.
  intros Hg r k. subst k r. unfold Simulation.run_real_simulation.
  pose proof (uniform_bounds (-20) 20 g Hg eq_refl) as B1.
  pose proof (uniform_keeps_draws (-20) 20 g Hg) as Hg1.
  destruct (Simulation.uniform (-20) 20 g) as [u g1]. cbn [fst snd] in B1, Hg1.
  pose proof (uniform_each_spec (1 # 2) 2 (Py.range 200 2000 100)
                eq_refl g1 Hg1) as (Hlen & Hall & _).
  destruct (Simulation.uniform_each (1 # 2) 2 (Py.range 200 2000 100) g1)
    as [imp g2].
  cbn [fst snd] in Hlen, Hall.
  cbn [fst Simulation.real_freq Simulation.impedances Simulation.thickness_factor
       Simulation.material_factor Simulation.real_f1 Simulation.real_cutoff].
  set (tf := match thickness with inl t => t | inr _ => 1 end).
  set (mf := if String.eqb material "African Blackwood" then 105 # 100
             else if String.eqb material "Hard Rubber" then 95 # 100 else 1).
  assert (Hmf : mf = (105 # 100) \/ mf = (95 # 100) \/ mf = 1).
  { subst mf. destruct (String.eqb material "African Blackwood"); [auto|].
    destruct (String.eqb material "Hard Rubber"); auto. }
  assert (Hmfpos : 0 <= mf) by (destruct Hmf as [->|[->| ->]]; discriminate).
  assert (F1 : 420 <= Py.round (440 + u) 2 /\ Py.round (440 + u) 2 <= 460)
    by (apply (round_range _ 2 420 460 42000 46000); try reflexivity; lra).
  assert (F2 : 882 <= Py.round (Py.round (440 + u) 2 * (21 # 10)) 2 /\
               Py.round (Py.round (440 + u) 2 * (21 # 10)) 2 <= 966)
    by (apply (round_range _ 2 882 966 88200 96600); try reflexivity; lra).
  split; [reflexivity|].
  split; [rewrite List.length_map; exact Hlen|].
  split; [reflexivity|].
  split.
  { intros Hk. apply List.Forall_forall. intros z Hz.
    apply List.in_map_iff in Hz. destruct Hz as (z0 & <- & Hz0).
    pose proof (proj1 (List.Forall_forall _ _) Hall z0 Hz0) as [Hlo Hhi].
    cbn in Hlo, Hhi.
    set (k := 1 + (1 # 100) * tf) in *.
    assert (0 <= (z0 - (1 # 2)) * k) by (apply Qmult_le_0_compat; lra).
    assert (0 <= (2 - z0) * k) by (apply Qmult_le_0_compat; lra).
    split; lra. }
  split; [exact Hmf|].
  split; [intros ->; reflexivity|].
  split; [intros ->; reflexivity|].
  assert (M : forall a b x, a <= x -> x <= b -> a * mf <= x * mf /\ x * mf <= b * mf).
  { intros a b x Ha Hb. split; apply Qmult_le_compat_r; assumption. }
  destruct (M 420 460 _ (proj1 F1) (proj2 F1)).
  destruct (M 882 966 _ (proj1 F2) (proj2 F2)).
  repeat split; assumption.
Qed.

Lemma steady_rng_unit : Simulation.unit_draws steady_rng.
Proof. intros k. cbn. split; [discriminate | reflexivity]. Qed.

Lemma X5_mock_scores_in_range_witness :
  exists r : Simulation.sim_results,
    fst (Simulation.run_mock_simulation [15; 15] "Composite" 1 steady_rng)
    = Py.Ok r /\
    420 <= Simulation.f1 r /\ Simulation.f1 r <= 480.
Proof.
  destruct (X5_mock_scores_in_range [15; 15] "Composite" 1 steady_rng
              steady_rng_unit) as (r & Hr & Hf1 & _).
  exists r. split; [exact Hr | exact Hf1].
Defined.

Lemma X7_guarded_thickness_map_witness :
  exists t,
    Simulation.mock_thickness_map [0; 33; 66] [15; 15; 15] "Hourglass (waist tapered)"
    = Py.Ok t /\
    List.Forall (fun v => 0 <= v) t.
Proof.
  destruct (proj2 (proj2 (X7_guarded_thickness_map [0; 33; 66] [15; 15; 15]
                            "Hourglass (waist tapered)")))
    as (t & Ht & _ & Hpos).
  - reflexivity.
  - split; [reflexivity|]. repeat constructor; discriminate.
  - exists t. split; [exact Ht|]. apply Hpos.
    repeat constructor; discriminate.
Defined.

Lemma X8_real_simulation_ranges_witness :
  List.length
    (Simulation.impedances
       (fst (Simulation.run_real_simulation "Cylindrical" 15 15 66 1
               "Hard Rubber" (inl 2) steady_rng))) = 18%nat.
Proof.
  exact (proj1 (proj2 (X8_real_simulation_ranges "Cylindrical" 15 15 66 1
                         "Hard Rubber" (inl 2) steady_rng steady_rng_unit))).
Defined.

Lemma X6_comment_structure_witness :
  exists first second : string,
    Simulation.evaluate_barrel_attributes boundary_result = [first; second].
Proof.
  destruct (proj1 (X6_comment_structure boundary_result))
    as (first & second & rest & Hc & _ & _ & _ & Hrest & _).
  exists first, second. rewrite Hc. f_equal. f_equal.
  apply Hrest. split; [discriminate | reflexivity].
Defined.

(** ** The callbacks *)

Lemma given_number_some (q : Q) :
  ~ q == 0 -> Callbacks.given_number (Some q) = Some q.
Proof.
  intros H. cbn. destruct (Qeq_bool q 0) eqn:E; [|reflexivity].
  apply Qeq_bool_iff in E. contradiction.
Qed.

Lemma given_number_sound (v : option Q) (q : Q) :
  Callbacks.given_number v = Some q -> v = Some q /\ ~ q == 0.
Proof.
  destruct v as [p|]; cbn; [|discriminate].
  destruct (Qeq_bool p 0) eqn:E; [discriminate|].
  intros [= <-]. split; [reflexivity|]. intro H. apply Qeq_bool_iff in H. congruence.
Qed.

Lemma last_map_seq {A : Type} (f : nat -> A) (n : nat) (d : A) :
  (1 <= n)%nat -> List.last (List.map f (seq 0 n)) d = f (n - 1)%nat.
Proof.
  intros Hn. destruct n as [|m]; [lia|].
  rewrite List.seq_S, List.map_app. cbn [List.map]. rewrite List.last_last.
  f_equal. lia.
Qed.

Lemma profile_diameters_nonneg (bore_shape : string)
    (entry_diam exit_diam length_mm : Q) (resolution : string) :
  0 <= entry_diam -> 0 <= exit_diam ->
  List.Forall (fun d => 0 <= d)
    (snd (Geometry.generate_barrel_profile bore_shape entry_diam exit_diam
            length_mm resolution)).
Proof.
  intros He Hx. unfold Geometry.generate_barrel_profile. cbn [snd].
  apply List.Forall_forall. intros d Hd. apply List.in_map_iff in Hd.
  destruct Hd as (i & <- & Hi). apply List.in_seq in Hi.
  destruct (sample_fraction_bounds (Geometry.num_points_of resolution) i) as [H0 H1];
    [apply num_points_ge_2 | lia |].
  apply (shape_factor_bounds bore_shape entry_diam exit_diam _ 0
           (entry_diam + exit_diam)); try assumption; lra.
Qed.

Lemma profile_positions_on_axis (bore_shape : string)
    (entry_diam exit_diam length_mm : Q) (resolution : string) :
  0 <= length_mm ->
  let x_vals := fst (Geometry.generate_barrel_profile bore_shape entry_diam
                       exit_diam length_mm resolution) in
  Py.first_item x_vals == 0 /\
  Py.last_item x_vals == length_mm /\
  List.Forall (fun x => 0 <= x /\ x <= length_mm) x_vals.
Proof.
  intros HL x_vals. subst x_vals. unfold Geometry.generate_barrel_profile.
  cbn [fst]. set (n := Geometry.num_points_of resolution).
  pose proof (num_points_ge_2 resolution) as Hn. fold n in Hn.
  pose proof (of_nat_pred_pos n Hn) as Hd.
  assert (Hne : ~ Py.of_nat n - 1 == 0) by (intro E; rewrite E in Hd; discriminate).
  split; [|split].
  - destruct n as [|m]; [lia|]. cbn [seq List.map Py.first_item hd].
    unfold Py.of_nat at 1. simpl inject_Z. ring.
  - unfold Py.last_item. rewrite last_map_seq by lia.
    rewrite of_nat_pred by lia. field. exact Hne.
  - apply List.Forall_forall. intros x Hx. apply List.in_map_iff in Hx.
    destruct Hx as (i & <- & Hi). apply List.in_seq in Hi.
    destruct (sample_fraction_bounds n i Hn ltac:(lia)) as [F0 F1].
    assert (E : Py.of_nat i * (length_mm / (Py.of_nat n - 1))
                == Py.of_nat i / (Py.of_nat n - 1) * length_mm)
      by (field; exact Hne).
    rewrite E.
    set (fr := Py.of_nat i / (Py.of_nat n - 1)) in *.
    assert (0 <= fr * length_mm) by (apply Qmult_le_0_compat; lra).
    assert (0 <= (1 - fr) * length_mm) by (apply Qmult_le_0_compat; lra).
    split; lra.
Qed.

Lemma outer_not_inside (bore thickness : list Q) :
  List.length bore = List.length thickness ->
  List.Forall (fun t => 0 <= t) thickness ->
  List.Forall2 Qle bore
    (List.map (fun bt : Q * Q => fst bt + 2 * snd bt) (combine bore thickness)).
Proof.
  revert thickness. induction bore as [|b bore IH]; intros [|t thickness] Hlen Hall;
    try discriminate; [constructor|].
  cbn [combine List.map fst snd]. inversion Hall; subst.
  constructor; [lra|]. apply IH; [cbn in Hlen; lia | assumption].
Qed.

(** X9. The profile callback: when the entry diameter, the exit
    diameter or the length is missing or 0, the figure has no trace, the
    title asks for valid dimensions and the comment is empty. Otherwise it
    succeeds with exactly two traces over the generated positions, the
    bore and the outer diameter, the outer one with one value per sample,
    and the outer diameter is nowhere below the bore when the end
    diameters are not negative and, for the hourglass exterior, the length
    is between 0 and 400. *)
Theorem X9_profile_callback (bore_shape : string)
    (entry_diam exit_diam length_mm : option Q) (resolution : string)
    (exterior_shape : string) (edu_mode : option (list string)) :
  (Callbacks.given_number entry_diam = None \/
   Callbacks.given_number exit_diam = None \/
   Callbacks.given_number length_mm = None ->
   Callbacks.update_bore_profile bore_shape entry_diam exit_diam length_mm
     resolution exterior_shape edu_mode
   = Py.Ok ({| Plotly.traces := [];
               Plotly.title := Some "Please enter valid dimensions.";
               Plotly.xaxis_title := None;
               Plotly.yaxis_title := None |}, "")) /\
  (forall e x l : Q,
     Callbacks.given_number entry_diam = Some e ->
     Callbacks.given_number exit_diam = Some x ->
     Callbacks.given_number length_mm = Some l ->
     let profile := Geometry.generate_barrel_profile bore_shape e x l resolution in
     exists (outer : list Q) (fig : Plotly.figure) (comment : string),
       Callbacks.update_bore_profile bore_shape entry_diam exit_diam length_mm
         resolution exterior_shape edu_mode = Py.Ok (fig, comment) /\
       Plotly.traces fig
       = [{| Plotly.x := fst profile; Plotly.y := snd profile;
             Plotly.mode := "lines"; Plotly.name := "Bore Diameter" |};
          {| Plotly.x := fst profile; Plotly.y := outer;
             Plotly.mode := "lines"; Plotly.name := "Outer Diameter" |}] /\
       List.length outer = Geometry.num_points_of resolution /\
       (0 <= e -> 0 <= x ->
        (exterior_shape = "Hourglass (waist tapered)" -> 0 <= l /\ l <= 400) ->
        List.Forall2 Qle (snd profile) outer)).
Proof.
  split.
  - unfold Callbacks.update_bore_profile.
    intros [H|[H|H]]; rewrite H;
      destruct (Callbacks.given_number entry_diam);
      destruct (Callbacks.given_number exit_diam);
      try destruct (Callbacks.given_number length_mm); reflexivity.
  - intros e x l He Hx Hl profile. unfold Callbacks.update_bore_profile.
    rewrite He, Hx, Hl. fold profile.
    set (n := Geometry.num_points_of resolution).
    assert (Hxs : List.length (fst profile) = n)
      by (subst profile; unfold Geometry.generate_barrel_profile; cbn [fst];
          rewrite List.length_map, List.length_seq; reflexivity).
    assert (Hds : List.length (snd profile) = n)
      by (subst profile; unfold Geometry.generate_barrel_profile; cbn [snd];
          rewrite List.length_map, List.length_seq; reflexivity).
    pose proof (num_points_ge_2 resolution) as Hn. fold n in Hn.
    assert (Hmap : exists t,
              Geometry.mock_thickness_map (fst profile) (snd profile) exterior_shape
              = Py.Ok t /\
              List.length t = List.length (fst profile) /\
              (List.Forall (fun d => 0 <= d) (snd profile) ->
               hourglass_curve_in_range exterior_shape (fst profile) ->
               List.Forall (fun v => 0 <= v) t)).
    { unfold Geometry.mock_thickness_map, hourglass_curve_in_range.
      destruct (fst profile) as [|x0 xs] eqn:Efst; [cbn in Hxs; lia|].
      apply thickness_map_ok; [rewrite Hxs, Hds; reflexivity|].
      intros i y Hi. apply geometry_outer_factor_ok; [exact Hi | lia]. }
    destruct Hmap as (t & Ht & Htl & Htn). rewrite Ht. py_run.
    eexists _, _, _. split; [reflexivity|]. cbn [Plotly.traces].
    split; [reflexivity|].
    split.
    { rewrite List.length_map, List.length_combine, Htl, Hxs, Hds. lia. }
    intros He0 Hx0 Hhour.
    apply outer_not_inside; [rewrite Htl, Hxs, Hds; reflexivity|].
    apply Htn; [apply profile_diameters_nonneg; assumption|].
    unfold hourglass_curve_in_range, hourglass_in_range.
    apply List.Forall_forall. intros y Hy Hshape.
    destruct (Hhour Hshape) as [Hl0 Hl400].
    destruct (profile_positions_on_axis bore_shape e x l resolution Hl0)
      as (Hfirst & Hlast & Hall).
    fold profile in Hfirst, Hlast, Hall.
    pose proof (proj1 (List.Forall_forall _ _) Hall y Hy) as [Hy0 Hyl].
    rewrite Hfirst, Hlast. apply Qabs_Qle_condition. split; lra.
Qed.

(** X10. The simulation callback feeds the comparison callback: after
    a press ([n_clicks] not 0) with the three numbers given and draws in
    [0, 1) it stores the dict of a result [r], with the insight comments of
    [r]; adding that stored dict under a name appends the entry carrying
    the name and the f1, cutoff, resistance, brightness and harmonicity of
    [r], keeping the last five. With [n_clicks = 0] it stores the empty
    dict, on which the comparison callback leaves the list as it is. *)
Theorem X10_simulate_then_compare (n_clicks : Z) (bore_shape : string)
    (entry_diam exit_diam length_mm : Q) (resolution exterior_shape : string)
    (material : string) (edu_mode : option (list string))
    (g : Simulation.rng) :
  Simulation.unit_draws g ->
  n_clicks <> 0%Z ->
  exists (r : Simulation.sim_results) (imp_fig adm_fig : Plotly.figure),
    fst (Callbacks.run_simulation n_clicks bore_shape (Some entry_diam)
           (Some exit_diam) (Some length_mm) resolution exterior_shape
           material edu_mode g)
    = Py.Ok (Callbacks.sim_to_dict r,
             Callbacks.Stats (Simulation.evaluate_barrel_attributes r)
               (Callbacks.edu_on edu_mode),
             imp_fig, adm_fig) /\
    (forall (clicks : Z) (design_name : string)
            (comparison_data : list Callbacks.entry),
       design_name <> "" ->
       fst (Callbacks.add_to_comparison "compare-mode-btn" clicks
              (Some (Callbacks.sim_to_dict r)) (Some design_name)
              (Some comparison_data))
       = Py.last_slice 5 (comparison_data ++ [entry_of design_name r])) /\
    Callbacks.run_simulation 0 bore_shape (Some entry_diam) (Some exit_diam)
      (Some length_mm) resolution exterior_shape material edu_mode g
    = (Py.Ok ([], Callbacks.NoStats, Plotly.empty, Plotly.empty), g) /\
    (forall (clicks : Z) (design_name : option string)
            (comparison_data : list Callbacks.entry),
       Callbacks.add_to_comparison "compare-mode-btn" clicks (Some [])
         design_name (Some comparison_data)
       = (comparison_data, Callbacks.Message "No simulation results to compare.")).
Proof.
  intros Hg Hn. unfold Callbacks.run_simulation.
  destruct (Z.eqb_spec n_clicks 0) as [E|_]; [contradiction|].
  set (profile := Geometry.generate_barrel_profile bore_shape entry_diam
                    exit_diam length_mm resolution).
  set (n := Geometry.num_points_of resolution).
  assert (Hxs : List.length (fst profile) = n)
    by (subst profile; unfold Geometry.generate_barrel_profile; cbn [fst];
        rewrite List.length_map, List.length_seq; reflexivity).
  assert (Hds : List.length (snd profile) = n)
    by (subst profile; unfold Geometry.generate_barrel_profile; cbn [snd];
        rewrite List.length_map, List.length_seq; reflexivity).
  pose proof (num_points_ge_2 resolution) as Hn2. fold n in Hn2.
  assert (Hmap : exists t,
            Geometry.mock_thickness_map (fst profile) (snd profile) exterior_shape
            = Py.Ok t).
  { unfold Geometry.mock_thickness_map.
    destruct (fst profile) as [|x0 xs] eqn:Efst; [cbn in Hxs; lia|].
    destruct (thickness_map_ok (snd profile) (x0 :: xs) exterior_shape
                (Geometry.outer_factor exterior_shape (List.length (x0 :: xs))
                   (Py.last_item (x0 :: xs) - Py.first_item (x0 :: xs)))
                (Py.last_item (x0 :: xs) - Py.first_item (x0 :: xs)))
      as (t & Ht & _); [rewrite Hxs, Hds; reflexivity| |eauto].
    intros i y Hi. apply geometry_outer_factor_ok; [exact Hi | lia]. }
  destruct Hmap as (t & Ht). rewrite Ht.
  set (avg := match t with
              | [] => 0
              | _ => fold_right Qplus 0 t / Py.of_nat (List.length t)
              end).
  destruct (mock_simulation_shape (snd profile) material avg g Hg)
    as (u1 & u2 & u3 & u4 & impedance & adm & _ & _ & _ & _ & Hr).
  destruct (Simulation.run_mock_simulation (snd profile) material avg g)
    as [sim g']. cbn [fst] in Hr. subst sim. py_run. cbn [fst].
  eexists _, _, _. split; [reflexivity|].
  split; [|split; [reflexivity|]].
  - intros clicks design_name comparison_data Hname.
    unfold Callbacks.add_to_comparison. cbn [String.eqb Ascii.eqb Bool.eqb].
    cbn [Callbacks.sim_present Callbacks.sim_to_dict negb Callbacks.name_given].
    destruct (String.eqb_spec design_name ""); [contradiction|]. cbn [negb].
    rewrite render_fst. reflexivity.
  - intros clicks design_name comparison_data. reflexivity.
Qed.

Lemma X9_profile_callback_witness :
  exists fig comment,
    Callbacks.update_bore_profile "Cylindrical" (Some 15) (Some 15) (Some 66)
      "Low" "Standard (parallel exterior)" None = Py.Ok (fig, comment) /\
    List.length (Plotly.traces fig) = 2%nat.
Proof.
  destruct (proj2 (X9_profile_callback "Cylindrical" (Some 15) (Some 15)
                     (Some 66) "Low" "Standard (parallel exterior)" None)
              15 15 66 eq_refl eq_refl eq_refl)
    as (outer & fig & comment & Hrun & Htraces & _).
  exists fig, comment. split; [exact Hrun|]. rewrite Htraces. reflexivity.
Defined.

Lemma X10_simulate_then_compare_witness :
  exists r : Simulation.sim_results,
    fst (fst (fst (match
      fst (Callbacks.run_simulation 1 "Cylindrical" (Some 15) (Some 15)
             (Some 66) "Low" "Standard (parallel exterior)" "Composite" None
             steady_rng)
      with
      | Py.Ok out => out
      | Py.Raise _ => ([], Callbacks.NoStats, Plotly.empty, Plotly.empty)
      end)))
    = Callbacks.sim_to_dict r.
Proof.
  assert (H1 : (1 <> 0)%Z) by discriminate.
  destruct (X10_simulate_then_compare 1 "Cylindrical" 15 15 66 "Low"
              "Standard (parallel exterior)" "Composite" None steady_rng
              steady_rng_unit H1) as (r & imp_fig & adm_fig & Hrun & _).
  exists r. rewrite Hrun. reflexivity.
Defined.

(** ** Default names, table rows and saved designs *)

Lemma after_length (a : addition) (data : list Callbacks.entry) :
  Callbacks.sim_present (sim a) = true ->
  List.length (after a data) = Nat.min 5 (List.length data + 1).
Proof.
  intros Hs. destruct (after_present a data Hs) as (e & He & _).
  rewrite He, last_slice_length, List.length_app. reflexivity.
Qed.

Lemma unnamed_log_names (adds : list addition) :
  List.Forall unnamed adds ->
  forall data, (List.length data <= 5)%nat ->
  List.map Callbacks.name (added_log adds data)
  = List.map (fun j => default_name (Nat.min 5 (List.length data + j)))
             (seq 0 (List.length adds)).
Proof.
  induction 1 as [|a adds [Hs Hn] _ IH]; intros data Hlen; [reflexivity|].
  cbn [added_log List.map List.length seq]. f_equal.
  - destruct (after_present a data Hs) as (e & He & _ & Hname).
    unfold added_entry. rewrite He, last_slice_last by lia.
    rewrite (Hname Hn). unfold default_name.
    replace (Nat.min 5 (List.length data + 0)) with (List.length data) by lia.
    reflexivity.
  - rewrite IH by (rewrite after_length by exact Hs; lia).
    rewrite <- List.seq_shift, List.map_map.
    apply List.map_ext. intros j. rewrite after_length by exact Hs.
    f_equal. lia.
Qed.

(** X11. An addition without a name is called ["Design k"], where [k]
    is one more than the number of entries kept so far. From a list of at
    most five entries the j-th unnamed addition is therefore named
    ["Design (min 5 (len + j) + 1)"]: once five entries are kept, every
    further unnamed design is called ["Design 6"], so the names repeat. *)
Theorem X11_default_design_names (start : list Callbacks.entry)
    (adds : list addition) :
  List.Forall unnamed adds ->
  (List.length start <= 5)%nat ->
  List.map Callbacks.name (added_log adds start)
  = List.map (fun j => default_name (Nat.min 5 (List.length start + j)))
             (seq 0 (List.length adds)) /\
  (forall j, (5 <= List.length start + j)%nat -> (j < List.length adds)%nat ->
     Callbacks.name (nth j (added_log adds start) no_entry) = "Design 6") /\
  (forall j k, (5 <= List.length start + j)%nat ->
     (j < k)%nat -> (k < List.length adds)%nat ->
     Callbacks.name (nth j (added_log adds start) no_entry)
     = Callbacks.name (nth k (added_log adds start) no_entry)).
Proof.
  intros Hall Hlen.
  pose proof (unnamed_log_names adds Hall start Hlen) as Hnames.
  assert (Hsix : forall j, (5 <= List.length start + j)%nat ->
            (j < List.length adds)%nat ->
            Callbacks.name (nth j (added_log adds start) no_entry) = "Design 6").
  { intros j H5 Hj.
    change "Design 6" with (default_name 5).
    rewrite <- (List.map_nth Callbacks.name), Hnames.
    rewrite (nth_indep _ _ "")
      by (rewrite List.length_map, List.length_seq; exact Hj).
    rewrite nth_map_seq by exact Hj.
    replace (Nat.min 5 (List.length start + j)) with 5%nat by lia.
    reflexivity. }
  split; [exact Hnames|]. split; [exact Hsix|].
  intros j k H5 Hjk Hk. rewrite !Hsix by lia. reflexivity.
Qed.

Lemma X11_default_design_names_witness :
  List.map Callbacks.name
    (added_log [ {| clicks := 1; sim := Some [("f1", Py.VNum 440)];
                    given_name := None |};
                 {| clicks := 2; sim := Some [("f1", Py.VNum 441)];
                    given_name := Some "" |} ] [])
  = ["Design 1"; "Design 2"].
Proof.
  refine (proj1 (X11_default_design_names [] _ _ _)).
  - repeat constructor.
  - cbn. lia.
Defined.

Lemma to_uint_nonnil (n : nat) : Nat.to_uint n <> Decimal.Nil.
Proof.
  pose proof (Unsigned.to_of (Nat.to_uint n)) as H.
  rewrite Unsigned.of_to in H. rewrite H.
  apply DecimalFacts.unorm_nonnil.
Qed.

Lemma str_of_nat_inj (m n : nat) : Py.str_of_nat m = Py.str_of_nat n -> m = n.
Proof.
  unfold Py.str_of_nat. intros H.
  apply (f_equal NilZero.uint_of_string) in H.
  rewrite !NilZero.usu in H by apply to_uint_nonnil. injection H as H.
  apply Unsigned.to_uint_inj. exact H.
Qed.

Lemma press_add_holes_spec (k : nat) (data : list Py.dict) :
  press_add_holes k data
  = data ++ List.map (fun j => hole_row (List.length data + j)) (seq 0 k).
Proof.
  induction k as [|k IH]; [cbn; rewrite List.app_nil_r; reflexivity|].
  cbn [press_add_holes]. unfold Callbacks.add_holes_row. rewrite IH.
  rewrite List.seq_S, List.map_app, List.app_assoc. cbn [List.map Nat.add].
  rewrite List.length_app, List.length_map, List.length_seq. reflexivity.
Qed.

(** X12. Pressing the add-row button of the holes table [k] times
    appends [k] rows to the table and changes no earlier row; the new rows
    are labelled ["Hole(n+1)"], ..., ["Hole(n+k)"] for a table of [n] rows,
    their labels are pairwise distinct, and [build_unfolded_holes] draws
    each of them as the two points (0, 0) and (0, -7). *)
Theorem X12_hole_rows (k : nat) (current_data : list Py.dict) :
  let table := press_add_holes k current_data in
  let added := List.map (fun j => hole_row (List.length current_data + j)) (seq 0 k) in
  table = current_data ++ added /\
  List.length table = (List.length current_data + k)%nat /\
  List.NoDup (List.map (fun h => Py.dict_get h "label" Py.VNone) added) /\
  Geometry.build_unfolded_holes added
  = Py.Ok (concat (repeat [(Py.VNum 0, Py.VNum 0); (Py.VNum 0, Py.VNum (- (7)))] k)).
Proof.
  intros table added. subst table added.
  split; [apply press_add_holes_spec|].
  split; [rewrite press_add_holes_spec, List.length_app, List.length_map,
            List.length_seq; reflexivity|].
  split.
  - rewrite List.map_map. cbn [hole_row Py.dict_get Py.dict_lookup String.eqb
                               Ascii.eqb Bool.eqb].
    apply Finite.Injective_map_NoDup; [|apply List.seq_NoDup].
    intros i j H. injection H as H.
    apply str_of_nat_inj in H. lia.
  - unfold Geometry.build_unfolded_holes.
    assert (H : forall n, Py.mapM Geometry.hole_points
                (List.map (fun j => hole_row (List.length current_data + j)) (seq n k))
              = Py.Ok (repeat [(Py.VNum 0, Py.VNum 0); (Py.VNum 0, Py.VNum (- (7)))] k)).
    { induction k as [|k IH]; intros n; [reflexivity|].
      cbn [seq List.map Py.mapM repeat]. rewrite IH. reflexivity. }
    rewrite H. reflexivity.
Qed.

Lemma run_saves_app (l m : list save_request) (st : Callbacks.app_state) :
  run_saves (l ++ m) st = run_saves m (run_saves l st).
Proof. revert st. induction l as [|r l IH]; intros st; cbn; [reflexivity|apply IH]. Qed.

Lemma save_one_spec (r : save_request) (st : Callbacks.app_state) :
  (forall s, s <> "" ->
     Callbacks.stored_designs (save_one r st) !! s
     = if saved_as s r then Some (saved r)
       else Callbacks.stored_designs st !! s) /\
  Callbacks.stored_designs (save_one r st) !! ""
  = Callbacks.stored_designs st !! "" /\
  Callbacks.stdout (save_one r st) = Callbacks.stdout st ++ printed_line r.
Proof.
  unfold save_one, Callbacks.save_design_to_memory, saved_as, printed_line.
  destruct r as [[n|] d]; cbn [save_name saved].
  - destruct (String.eqb_spec n "") as [->|Hn]; cbn [snd].
    + repeat split; [|rewrite List.app_nil_r; reflexivity].
      intros s Hs. destruct (String.eqb_spec "" s); [congruence|reflexivity].
    + cbn [Callbacks.stored_designs Callbacks.stdout].
      repeat split.
      * intros s Hs. destruct (String.eqb_spec n s) as [->|Hns].
        -- rewrite lookup_insert_eq. destruct d; reflexivity.
        -- rewrite lookup_insert_ne by exact Hns. reflexivity.
      * rewrite lookup_insert_ne by exact Hn. reflexivity.
  - cbn [snd]. repeat split. rewrite List.app_nil_r. reflexivity.
Qed.

(** X13. After any sequence of presses of the save button, the design
    stored under a non-empty name is the one of the last press that used
    this name, and the stored one from before when no press did; nothing
    is ever stored under the empty name; and one line is printed per press
    with a name, in order. *)
Theorem X13_saved_designs (requests : list save_request)
    (st : Callbacks.app_state) :
  (forall s, s <> "" ->
     Callbacks.stored_designs (run_saves requests st) !! s
     = match List.find (saved_as s) (List.rev requests) with
       | Some r => Some (saved r)
       | None => Callbacks.stored_designs st !! s
       end) /\
  Callbacks.stored_designs (run_saves requests st) !! ""
  = Callbacks.stored_designs st !! "" /\
  Callbacks.stdout (run_saves requests st)
  = Callbacks.stdout st ++ concat (List.map printed_line requests).
Proof.
  induction requests as [|r requests IH] using List.rev_ind.
  - cbn. repeat split. rewrite List.app_nil_r. reflexivity.
  - rewrite run_saves_app. cbn [run_saves].
    destruct IH as (IHl & IHe & IHo).
    destruct (save_one_spec r (run_saves requests st)) as (Hl & He & Ho).
    repeat split.
    + intros s Hs. rewrite (Hl s Hs), List.rev_app_distr. cbn [List.rev app List.find].
      destruct (saved_as s r); [reflexivity|]. apply IHl. exact Hs.
    + rewrite He. exact IHe.
    + rewrite Ho, IHo, List.map_app, List.concat_app. cbn [List.map concat].
      rewrite List.app_nil_r, List.app_assoc. reflexivity.
Qed.

Lemma X13_saved_designs_witness :
  Callbacks.stored_designs
    (run_saves [ {| save_name := Some "study"; saved := study_design |};
                 {| save_name := None; saved := study_design |} ]
       empty_state) !! "study"
  = Some study_design.
Proof.
  refine (proj1 (X13_saved_designs
                   [ {| save_name := Some "study"; saved := study_design |};
                     {| save_name := None; saved := study_design |} ]
                   empty_state) "study" _).
  discriminate.
Defined.

(** ** The optimizer of deepseek.py *)

Lemma py_linspace_length (a b : Q) (n : nat) :
  List.length (Py.linspace a b n) = n.
Proof. unfold Py.linspace. rewrite List.length_map, List.length_seq. reflexivity. Qed.

Lemma py_linspace_nth (a b : Q) (n i : nat) :
  (i < n)%nat ->
  nth i (Py.linspace a b n) 0 = a + Py.of_nat i * ((b - a) / (Py.of_nat n - 1)).
Proof.
  intros Hi.
  exact (nth_map_seq
           (fun i => a + Py.of_nat i * ((b - a) / (Py.of_nat n - 1))) n i 0 Hi).
Qed.

Lemma getitem_nth (l : list Q) (i : nat) :
  (i < List.length l)%nat -> Py.getitem l i = Py.Ok (nth i l 0).
Proof.
  intros Hi. unfold Py.getitem.
  rewrite (List.nth_error_nth' l 0 Hi). reflexivity.
Qed.

Lemma getitem_out (l : list Q) (i : nat) :
  (List.length l <= i)%nat -> Py.getitem l i = Py.Raise Py.IndexError.
Proof.
  intros Hi. unfold Py.getitem.
  apply List.nth_error_None in Hi. rewrite Hi. reflexivity.
Qed.

(** A sample of a grid lies between its two ends. *)
Lemma py_linspace_between (a b : Q) (n i : nat) :
  a <= b -> (i < n)%nat ->
  a <= nth i (Py.linspace a b n) 0 /\ nth i (Py.linspace a b n) 0 <= b.
Proof.
  intros Hab Hi. rewrite py_linspace_nth by exact Hi.
  destruct (Nat.eq_dec n 1%nat) as [->|Hn].
  - replace i with 0%nat by lia.
    split; apply Qle_minus_iff.
    + assert (E1 : a + Py.of_nat 0 * ((b - a) / (Py.of_nat 1 - 1)) + - a == 0)
        by (unfold Py.of_nat; cbn [Z.of_nat]; ring).
      rewrite E1. apply Qle_refl.
    + assert (E1 : b + - (a + Py.of_nat 0 * ((b - a) / (Py.of_nat 1 - 1))) == b - a)
        by (unfold Py.of_nat; cbn [Z.of_nat]; ring).
      rewrite E1. lra.
  - assert (Hpos : 0 < Py.of_nat n - 1) by (apply of_nat_pred_pos; lia).
    assert (Hi0 : 0 <= Py.of_nat i) by apply of_nat_nonneg.
    assert (Hi1 : Py.of_nat i <= Py.of_nat n - 1)
      by (rewrite <- of_nat_pred by lia; apply of_nat_le; lia).
    set (m := Py.of_nat n - 1) in *. set (t := Py.of_nat i) in *.
    assert (Hfr0 : 0 <= t / m)
      by (apply Qle_shift_div_l; [exact Hpos | lra]).
    assert (Hfr1 : t / m <= 1)
      by (apply Qle_shift_div_r; [exact Hpos | lra]).
    assert (E : a + t * ((b - a) / m) == a + (t / m) * (b - a))
      by (field; lra).
    rewrite E.
    assert (H0 : 0 <= (t / m) * (b - a))
      by (apply Qmult_le_0_compat; lra).
    assert (H1 : 0 <= (1 - t / m) * (b - a))
      by (apply Qmult_le_0_compat; lra).
    split; lra.
Qed.

Lemma argmax_from_spec (a : list Q) :
  forall (best : Q) (best_i i : nat),
    let p := Deepseek.argmax_from best best_i i a in
    (p = best_i /\ List.Forall (fun x => x <= best) a) \/
    ((i <= p)%nat /\ (p < i + List.length a)%nat /\
     best < nth (p - i) a 0 /\
     List.Forall (fun x => x <= nth (p - i) a 0) a /\
     forall j, (j < p - i)%nat -> nth j a 0 < nth (p - i) a 0).
Proof.
  induction a as [|v a IH]; intros best best_i i; cbn [Deepseek.argmax_from].
  - left. split; [reflexivity | constructor].
  - destruct (lt_cases best v) as [[E Hlt]|[E Hle]]; rewrite E.
    + right. destruct (IH v i (S i)) as [[Hp Hall]|(H1 & H2 & H3 & H4 & H5)].
      * rewrite Hp. replace (i - i)%nat with 0%nat by lia. cbn [nth List.length].
        repeat split; [lia | lia | exact Hlt | | intros j Hj; lia].
        constructor; [apply Qle_refl | exact Hall].
      * set (p := Deepseek.argmax_from v i (S i) a) in *.
        replace (p - i)%nat with (S (p - S i)) by lia. cbn [nth List.length].
        repeat split; [lia | lia | lra | |].
        -- constructor; [lra | exact H4].
        -- intros [|j] Hj; cbn [nth]; [exact H3 | apply H5; lia].
    + destruct (IH best best_i (S i)) as [[Hp Hall]|(H1 & H2 & H3 & H4 & H5)].
      * left. split; [exact Hp|]. constructor; assumption.
      * right. set (p := Deepseek.argmax_from best best_i (S i) a) in *.
        replace (p - i)%nat with (S (p - S i)) by lia. cbn [nth List.length].
        repeat split; [lia | lia | exact H3 | |].
        -- constructor; [lra | exact H4].
        -- intros [|j] Hj; cbn [nth]; [lra | apply H5; lia].
Qed.

(** [np.argmax] gives the first position of the largest item. *)
Lemma np_argmax_spec (a : list Q) :
  a <> [] ->
  exists p,
    Deepseek.np_argmax a = Py.Ok p /\ (p < List.length a)%nat /\
    (forall j, (j < List.length a)%nat -> nth j a 0 <= nth p a 0) /\
    (forall j, (j < p)%nat -> nth j a 0 < nth p a 0).
Proof.
  destruct a as [|v a]; [congruence|]. intros _.
  exists (Deepseek.argmax_from v 0 1 a). split; [reflexivity|].
  pose proof (argmax_from_spec a v 0 1) as H. cbv zeta in H.
  remember (Deepseek.argmax_from v 0 1 a) as p eqn:Ep. clear Ep.
  destruct H as [[Hp Hall]|(H1 & H2 & H3 & H4 & H5)].
  - rewrite Hp. cbn [nth List.length]. repeat split; [lia | | intros j Hj; lia].
    intros [|j] Hj; cbn [nth]; [apply Qle_refl|].
    rewrite List.Forall_forall in Hall. apply Hall. apply List.nth_In. lia.
  - destruct p as [|q]; [lia|].
    replace (S q - 1)%nat with q in * by lia. cbn [nth List.length].
    repeat split; [lia | |].
    + intros [|j] Hj; cbn [nth]; [lra|].
      rewrite List.Forall_forall in H4. apply H4. apply List.nth_In. lia.
    + intros [|j] Hj; cbn [nth]; [exact H3 | apply H5; lia].
Qed.

(** X14. [_run_openwind_simulation] passes an engine error on and
    raises [ValueError] on an empty impedance array. Otherwise the peak is
    the first index of the largest magnitude; a peak index of 100 or more
    raises [IndexError], and below 100 the result carries the magnitudes,
    the grid of 100 frequencies, and as [f1] the grid frequency at the
    peak, [100 + peak * 1900/99], which lies between 100 and 2000. *)
Theorem X14_first_resonance
    (impedance_magnitude : list Q -> Deepseek.cone -> Py.result (list Q))
    (geometry : Deepseek.geometry) :
  (forall e, impedance_magnitude engine_grid (cone_of geometry) = Py.Raise e ->
     Deepseek._run_openwind_simulation impedance_magnitude geometry = Py.Raise e) /\
  (impedance_magnitude engine_grid (cone_of geometry) = Py.Ok [] ->
     Deepseek._run_openwind_simulation impedance_magnitude geometry
     = Py.Raise Py.ValueError) /\
  (forall impedance,
     impedance_magnitude engine_grid (cone_of geometry) = Py.Ok impedance ->
     impedance <> [] ->
     exists p,
       (p < List.length impedance)%nat /\
       (forall j, (j < List.length impedance)%nat ->
                  nth j impedance 0 <= nth p impedance 0) /\
       (forall j, (j < p)%nat -> nth j impedance 0 < nth p impedance 0) /\
       ((100 <= p)%nat ->
        Deepseek._run_openwind_simulation impedance_magnitude geometry
        = Py.Raise Py.IndexError) /\
       ((p < 100)%nat ->
        exists r,
          Deepseek._run_openwind_simulation impedance_magnitude geometry = Py.Ok r /\
          Deepseek.f1 r = nth p engine_grid 0 /\
          Deepseek.f1 r == 100 + Py.of_nat p * (1900 # 99) /\
          100 <= Deepseek.f1 r /\ Deepseek.f1 r <= 2000 /\
          Deepseek.impedance_curve r = impedance /\
          Deepseek.frequencies r = engine_grid)).
Proof.
  unfold Deepseek._run_openwind_simulation.
  fold (cone_of geometry). fold engine_grid.
  split; [intros e He; rewrite He; reflexivity|].
  split; [intros He; rewrite He; reflexivity|].
  intros impedance He Hne. rewrite He. py_run.
  destruct (np_argmax_spec impedance Hne) as (p & Hp & Hlt & Hmax & Hfirst).
  exists p. rewrite Hp. py_run.
  split; [exact Hlt|]. split; [exact Hmax|]. split; [exact Hfirst|].
  split.
  - intros H100. rewrite getitem_out; [reflexivity|].
    unfold engine_grid. rewrite py_linspace_length. exact H100.
  - intros H100. rewrite getitem_nth
      by (unfold engine_grid; rewrite py_linspace_length; exact H100).
    py_run. eexists. split; [reflexivity|]. cbn [Deepseek.f1
      Deepseek.impedance_curve Deepseek.frequencies].
    split; [reflexivity|].
    destruct (py_linspace_between 100 2000 100 p) as [Hlo Hhi]; [lra | exact H100 |].
    fold engine_grid in Hlo, Hhi.
    split; [|split; [exact Hlo | split; [exact Hhi | split; reflexivity]]].
    unfold engine_grid. rewrite py_linspace_nth by exact H100.
    apply Qplus_comp; [reflexivity|]. apply Qmult_comp; [reflexivity|].
    reflexivity.
Qed.

Lemma sum_nonneg (l : list Q) :
  List.Forall (fun x => 0 <= x) l -> 0 <= fold_right Qplus 0 l.
Proof.
  induction 1 as [|x l Hx _ IH]; cbn [fold_right]; [apply Qle_refl | lra].
Qed.

Lemma sum_zero (l : list Q) :
  List.Forall (fun x => 0 <= x) l ->
  (fold_right Qplus 0 l == 0 <-> List.Forall (fun x => x == 0) l).
Proof.
  induction 1 as [|x l Hx Hl IH]; cbn [fold_right].
  - split; [constructor | reflexivity].
  - pose proof (sum_nonneg l Hl) as Hs. split.
    + intros H. constructor; [lra|]. apply IH. lra.
    + intros H. inversion H as [|y m Hy Hm]; subst.
      apply IH in Hm. lra.
Qed.

Lemma squares_nonneg (l : list Q) :
  List.Forall (fun x => 0 <= x) (Deepseek.np_square l).
Proof.
  unfold Deepseek.np_square. apply List.Forall_forall. intros y Hy.
  apply List.in_map_iff in Hy. destruct Hy as (x & <- & _).
  rewrite power_two. apply square_nonneg.
Qed.

Lemma square_zero (x : Q) : x ^ 2 == 0 <-> x == 0.
Proof.
  rewrite power_two. split; intros H; [|rewrite H; reflexivity].
  destruct (Qmult_integral _ _ H); assumption.
Qed.

(** The mean of non-negative numbers: never negative, zero only when
    all of them are. *)
Lemma mean_nonneg_spec (l : list Q) (m : Q) :
  List.Forall (fun x => 0 <= x) l ->
  Deepseek.np_mean l = Py.Ok m ->
  0 <= m /\ (m == 0 <-> List.Forall (fun x => x == 0) l).
Proof.
  intros Hnn H.
  assert (Hne : l <> []) by (intros ->; discriminate).
  assert (E : Deepseek.np_mean l
              = Py.Ok (fold_right Qplus 0 l / Py.of_nat (List.length l)))
    by (destruct l; [congruence | reflexivity]).
  rewrite E in H. injection H as <-. clear E.
  pose proof (sum_nonneg l Hnn) as Hsum.
  assert (Hn : 0 < Py.of_nat (List.length l)).
  { change 0 with (Py.of_nat 0). apply of_nat_lt.
    destruct l; [congruence | cbn; lia]. }
  rewrite <- (sum_zero l Hnn).
  set (n := Py.of_nat _) in *. set (s := fold_right Qplus 0 _) in *.
  split.
  - apply Qle_shift_div_l; [exact Hn | rewrite Qmult_0_l; exact Hsum].
  - split; intros H.
    + assert (E : s == (s / n) * n) by (field; lra). rewrite E, H. ring.
    + rewrite H. field. lra.
Qed.

Lemma mean_square_spec (diff : list Q) (m : Q) :
  Deepseek.np_mean (Deepseek.np_square diff) = Py.Ok m ->
  0 <= m /\ (m == 0 <-> List.Forall (fun d => d == 0) diff).
Proof.
  intros H.
  destruct (mean_nonneg_spec _ m (squares_nonneg diff) H) as [H0 Hz].
  split; [exact H0|]. rewrite Hz.
  unfold Deepseek.np_square. rewrite List.Forall_map.
  split; intros Hall; eapply List.Forall_impl; try exact Hall;
    intros x Hx; apply square_zero; exact Hx.
Qed.

(** X15. For a positive target frequency, a cost that
    [_cost_function] returns is never negative, and it is zero exactly
    when the simulated f1 equals the target and, if a target curve is
    given, the impedance curve minus the target is zero everywhere. *)
Theorem X15_cost_sign
    (_run_openwind_simulation : Deepseek.geometry -> Py.result Deepseek.openwind_result)
    (self : Deepseek.BarrelOptimizer) (params : list Q) (cost : Q) :
  0 < Deepseek.target_f1 self ->
  Deepseek._cost_function _run_openwind_simulation self params = Py.Ok cost ->
  0 <= cost /\
  exists entry exit_diam length result,
    params = [entry; exit_diam; length] /\
    _run_openwind_simulation
      {| Deepseek.entry_diam := entry; Deepseek.exit_diam := exit_diam;
         Deepseek.length_mm := length |} = Py.Ok result /\
    (cost == 0 <->
     Deepseek.f1 result == Deepseek.target_f1 self /\
     (Deepseek.target_truth (Deepseek.target_impedance self) = Py.Ok true ->
      exists target diff,
        Deepseek.target_impedance self = Some target /\
        Deepseek.np_sub (Deepseek.impedance_curve result)
          (Deepseek.curve_items target) = Py.Ok diff /\
        List.Forall (fun d => d == 0) diff)).
Proof.
  intros Ht. unfold Deepseek._cost_function.
  destruct params as [|entry [|exit_diam [|length [|]]]]; try discriminate.
  destruct (_run_openwind_simulation _) as [result|] eqn:Hrun; [|discriminate].
  py_run. unfold Deepseek.np_div.
  destruct (Qeq_bool (Deepseek.target_f1 self) 0) eqn:E0; [discriminate|].
  py_run.
  set (t := Deepseek.target_f1 self) in *.
  assert (Hf : 0 <= Qabs (Deepseek.f1 result - t) / t)
    by (apply Qle_shift_div_l; [exact Ht | pose proof (Qabs_nonneg (Deepseek.f1 result - t)); lra]).
  assert (Hf0 : Qabs (Deepseek.f1 result - t) / t == 0 <-> Deepseek.f1 result == t).
  { split; intros H.
    - assert (E : Qabs (Deepseek.f1 result - t) == 0).
      { assert (E : Qabs (Deepseek.f1 result - t)
                    == (Qabs (Deepseek.f1 result - t) / t) * t) by (field; lra).
        rewrite E, H. ring. }
      pose proof (Qle_Qabs (Deepseek.f1 result - t)) as Hup.
      pose proof (Qle_Qabs (- (Deepseek.f1 result - t))) as Hdown.
      rewrite Qabs_opp in Hdown. lra.
    - assert (E : Deepseek.f1 result - t == 0) by lra.
      rewrite E. change (Qabs 0) with 0. field. lra. }
  set (f1_error := Qabs (Deepseek.f1 result - t) / t) in *.
  destruct (Deepseek.target_truth (Deepseek.target_impedance self))
    as [[|]|] eqn:Eg; [| |discriminate].
  - destruct (Deepseek.target_impedance self) as [target|] eqn:Etarget;
      [|discriminate].
    py_run.
    destruct (Deepseek.np_sub _ (Deepseek.curve_items target))
      as [diff|] eqn:Hsub; [|discriminate].
    py_run.
    destruct (Deepseek.np_mean _) as [m|] eqn:Hm; [|discriminate].
    py_run. intros H. injection H as <-.
    destruct (mean_square_spec diff m Hm) as [Hm0 Hmz].
    split; [lra|].
    exists entry, exit_diam, length, result.
    split; [reflexivity|]. split; [exact Hrun|]. split.
    + intros Hc. split; [apply Hf0; lra|]. intros _.
      exists target, diff.
      split; [reflexivity|]. split; [exact Hsub|]. apply Hmz. lra.
    + intros [H1 H2]. apply Hf0 in H1.
      destruct (H2 eq_refl) as (target' & diff' & Ht' & Hd' & Hz).
      injection Ht' as <-. rewrite Hsub in Hd'. injection Hd' as <-.
      apply Hmz in Hz. lra.
  - py_run. intros H. injection H as <-.
    split; [lra|].
    exists entry, exit_diam, length, result.
    split; [reflexivity|]. split; [exact Hrun|]. split.
    + intros Hc. split; [apply Hf0; lra | discriminate].
    + intros [H1 _]. apply Hf0 in H1. lra.
Qed.

(** X16. The search box of [optimize_geometry] contains its starting
    point exactly when the three initial values are not negative. An error
    of the minimizer is passed on, an answer with fewer than three
    coordinates raises [IndexError], and when the minimizer's answer lies
    in the box, the optimized entry diameter, exit diameter and length are
    within 20, 30 and 10 percent of the initial ones and [success] is the
    minimizer's flag. *)
Theorem X16_search_box
    (minimize : (list Q -> Py.result Q) -> list Q -> list (Q * Q) -> string ->
                Py.result Deepseek.optimize_result)
    (impedance_magnitude : list Q -> Deepseek.cone -> Py.result (list Q))
    (self : Deepseek.BarrelOptimizer) (initial_params : Deepseek.geometry) :
  let e := Deepseek.entry_diam initial_params in
  let x := Deepseek.exit_diam initial_params in
  let l := Deepseek.length_mm initial_params in
  let call :=
    minimize
      (Deepseek._cost_function
         (Deepseek._run_openwind_simulation impedance_magnitude) self)
      (start_point initial_params) (Deepseek.search_bounds initial_params)
      "L-BFGS-B" in
  (in_box (start_point initial_params) (Deepseek.search_bounds initial_params)
   <-> 0 <= e /\ 0 <= x /\ 0 <= l) /\
  (forall err, call = Py.Raise err ->
     Deepseek.optimize_geometry minimize impedance_magnitude self initial_params
     = Py.Raise err) /\
  (forall r, call = Py.Ok r -> (List.length (Deepseek.opt_x r) < 3)%nat ->
     Deepseek.optimize_geometry minimize impedance_magnitude self initial_params
     = Py.Raise Py.IndexError) /\
  (forall r, call = Py.Ok r ->
     in_box (Deepseek.opt_x r) (Deepseek.search_bounds initial_params) ->
     exists o,
       Deepseek.optimize_geometry minimize impedance_magnitude self initial_params
       = Py.Ok o /\
       Deepseek.success o = Deepseek.opt_success r /\
       (8 # 10) * e <= Deepseek.best_entry_diam o <= (12 # 10) * e /\
       (7 # 10) * x <= Deepseek.best_exit_diam o <= (13 # 10) * x /\
       (9 # 10) * l <= Deepseek.best_length_mm o <= (11 # 10) * l).
Proof.
  intros e x l call. unfold Deepseek.optimize_geometry.
  fold (start_point initial_params). fold call.
  split; [|split; [|split]].
  - unfold in_box, start_point, Deepseek.search_bounds. fold e x l. split.
    + intros H. inversion H as [|? ? ? ? [H1 H1'] H']; subst.
      inversion H' as [|? ? ? ? [H2 H2'] H'']; subst.
      inversion H'' as [|? ? ? ? [H3 H3'] _]; subst.
      cbn [fst snd] in *. repeat split; lra.
    + intros (He & Hx & Hl).
      repeat constructor; cbn [fst snd]; lra.
  - intros err ->. reflexivity.
  - intros r -> Hlen. py_run.
    destruct (Deepseek.opt_x r) as [|x0 [|x1 [|x2 rest]]];
      [reflexivity | reflexivity | reflexivity | cbn in Hlen; lia].
  - intros r -> Hbox. py_run.
    unfold in_box, Deepseek.search_bounds in Hbox. fold e x l in Hbox.
    destruct (Deepseek.opt_x r) as [|x0 [|x1 [|x2 [|x3 rest]]]] eqn:Ex;
      try (exfalso; inversion Hbox as [|? ? ? ? ? Ha]; subst;
           try (inversion Ha as [|? ? ? ? ? Hb]; subst;
                try (inversion Hb as [|? ? ? ? ? Hc]; subst;
                     inversion Hc)); fail).
    inversion Hbox as [|? ? ? ? [H1 H1'] Ha]; subst.
    inversion Ha as [|? ? ? ? [H2 H2'] Hb]; subst.
    inversion Hb as [|? ? ? ? [H3 H3'] _]; subst.
    cbn [Py.getitem nth_error]. py_run.
    eexists. split; [reflexivity|].
    cbn [Deepseek.success Deepseek.best_entry_diam Deepseek.best_exit_diam
         Deepseek.best_length_mm fst snd] in *.
    split; [reflexivity|]. repeat split; lra.
Qed.

Lemma X16_search_box_witness :
  exists o,
    Deepseek.optimize_geometry keep_start silent_engine
      (Deepseek.init None None) plain_barrel = Py.Ok o /\
    Deepseek.success o = true.
Proof.
  destruct (X16_search_box keep_start silent_engine (Deepseek.init None None)
              plain_barrel) as (Hbox & _ & _ & Hok).
  destruct (Hok {| Deepseek.opt_x := [15; 15; 66]; Deepseek.opt_success := true |}
              eq_refl) as (o & Ho & Hs & _).
  - apply Hbox. cbn. repeat split; discriminate.
  - exists o. split; [exact Ho | exact Hs].
Defined.



Lemma X14_first_resonance_witness :
  exists r,
    Deepseek._run_openwind_simulation silent_engine plain_barrel = Py.Ok r /\
    100 <= Deepseek.f1 r /\ Deepseek.f1 r <= 2000.
Proof.
  destruct (X14_first_resonance silent_engine plain_barrel) as (_ & _ & Hok).
  destruct (Hok (List.map (fun _ => 1) engine_grid) eq_refl) as
    (p & Hp & _ & _ & _ & Hin); [discriminate|].
  destruct Hin as (r & Hr & _ & _ & Hlo & Hhi & _); [exact Hp|].
  exists r. split; [exact Hr|]. split; [exact Hlo | exact Hhi].
Defined.

Lemma X15_cost_sign_witness :
  exists cost,
    Deepseek._cost_function flat_response (Deepseek.init None None) [15; 15; 66]
    = Py.Ok cost /\
    0 <= cost.
Proof.
  eexists. split; [reflexivity|].
  apply (X15_cost_sign flat_response (Deepseek.init None None) [15; 15; 66]);
    reflexivity.
Defined.


(** ** The engine adapter and the automatic tuner *)

Lemma real_linspace_nth (start stop : R) (num i : nat) :
  (i < num)%nat ->
  nth i (OpenwindAdapter.linspace start stop num) 0%R
  = (start + INR i * ((stop - start) / (INR num - 1)))%R.
Proof.
  intros Hi.
  exact (nth_map_seq
           (fun i => (start + INR i * ((stop - start) / (INR num - 1)))%R)
           num i 0%R Hi).
Qed.

Lemma real_linspace_between (start stop : R) (num : nat) :
  (2 <= num)%nat -> (start <= stop)%R ->
  List.Forall (fun v => (start <= v <= stop)%R)
              (OpenwindAdapter.linspace start stop num).
Proof.
  intros Hn Hle. unfold OpenwindAdapter.linspace.
  apply List.Forall_forall. intros v Hv.
  apply List.in_map_iff in Hv. destruct Hv as (i & <- & Hi).
  apply List.in_seq in Hi.
  assert (Hm : (0 < INR num - 1)%R).
  { assert (H2 : (INR 2 <= INR num)%R) by (apply le_INR; exact Hn).
    change (INR 2) with (1 + 1)%R in H2. Lra.lra. }
  assert (Hi0 : (0 <= INR i)%R) by apply pos_INR.
  assert (Hi1 : (INR i <= INR num - 1)%R).
  { assert (H : (INR (S i) <= INR num)%R) by (apply le_INR; lia).
    rewrite S_INR in H. Lra.lra. }
  set (m := (INR num - 1)%R) in *. set (t := INR i) in *.
  assert (E : (start + t * ((stop - start) / m)
               = start + (t / m) * (stop - start))%R)
    by (field; Lra.lra).
  rewrite E.
  assert (Hfr0 : (0 <= t / m)%R)
    by (apply Rmult_le_pos; [exact Hi0 | left; apply Rinv_0_lt_compat; exact Hm]).
  assert (Hfr1 : (t / m <= 1)%R)
    by (apply (Rmult_le_reg_r m); [exact Hm|];
        replace (t / m * m)%R with t by (field; Lra.lra); Lra.lra).
  assert (H0 : (0 <= (t / m) * (stop - start))%R)
    by (apply Rmult_le_pos; Lra.lra).
  assert (H1 : (0 <= (1 - t / m) * (stop - start))%R)
    by (apply Rmult_le_pos; Lra.lra).
  split; Lra.lra.
Qed.

Lemma adapter_cases
    (simulate : Q -> list (list Py.value) -> Py.value -> bool -> bool ->
                option string -> Z -> Py.result unit)
    (bore_df : Pandas.DataFrame) (temperature material_props : Py.value)
    (freq_range : R * R) :
  match Pandas.select_values bore_df ["position"; "diameter"] with
  | Py.Raise e =>
      OpenwindAdapter.run_impedance_simulation simulate bore_df temperature
        material_props freq_range = Py.Raise e
  | Py.Ok main_bore =>
      match simulate (5 # 100) main_bore temperature true true None 0%Z with
      | Py.Raise e =>
          OpenwindAdapter.run_impedance_simulation simulate bore_df temperature
            material_props freq_range = Py.Raise e
      | Py.Ok _ =>
          OpenwindAdapter.run_impedance_simulation simulate bore_df temperature
            material_props freq_range = Py.Ok (response_of freq_range)
      end
  end.
Proof.
  unfold OpenwindAdapter.run_impedance_simulation.
  destruct (Pandas.select_values bore_df _) as [main_bore|e]; [|reflexivity].
  py_run. destruct (simulate _ _ _ _ _ _ _) as [u|e]; reflexivity.
Qed.

(** X18. For a frequency range [0 <= low <= high <= 1e6] (hertz), a
    response of [run_impedance_simulation] consists of the frequency,
    magnitude and phase arrays, 500 values each; the frequencies start at
    the lower and end at the upper end of the range and stay between them;
    every magnitude lies between 0 and 1e6; and every phase is 0 or 180
    degrees. *)
Theorem X18_adapter_ranges
    (simulate : Q -> list (list Py.value) -> Py.value -> bool -> bool ->
                option string -> Z -> Py.result unit)
    (bore_df : Pandas.DataFrame) (temperature material_props : Py.value)
    (freq_range : R * R) (r : OpenwindAdapter.response) :
  (0 <= fst freq_range)%R ->
  (fst freq_range <= snd freq_range)%R ->
  (snd freq_range <= 1000000)%R ->
  OpenwindAdapter.run_impedance_simulation simulate bore_df temperature
    material_props freq_range = Py.Ok r ->
  exists f mag phase,
    r = [("frequency", f); ("magnitude", mag); ("phase", phase)] /\
    List.length f = 500%nat /\
    List.length mag = 500%nat /\
    List.length phase = 500%nat /\
    nth 0 f 0%R = fst freq_range /\
    nth 499 f 0%R = snd freq_range /\
    List.Forall (fun v => (fst freq_range <= v <= snd freq_range)%R) f /\
    List.Forall (fun m => (0 <= m <= 1000000)%R) mag /\
    List.Forall (fun p => p = 0%R \/ p = 180%R) phase.
Proof.
  intros _ Hle _ Hrun.
  pose proof (adapter_cases simulate bore_df temperature material_props
                freq_range) as Hcases.
  destruct (Pandas.select_values bore_df _) as [main_bore|e]; [|congruence].
  destruct (simulate _ _ _ _ _ _ _) as [u|e]; [|congruence].
  rewrite Hcases in Hrun. injection Hrun as <-. unfold response_of.
  set (f := OpenwindAdapter.linspace (fst freq_range) (snd freq_range) 500).
  assert (Hlen : List.length f = 500%nat) by apply linspace_length.
  assert (Hpi : (PI <> 0)%R) by apply PI_neq0.
  assert (Hangle : forall x,
            ((x < 0)%R /\ (OpenwindAdapter.np_angle x * 180 / PI = 180)%R) \/
            ((0 <= x)%R /\ (OpenwindAdapter.np_angle x * 180 / PI = 0)%R)).
  { intros x. unfold OpenwindAdapter.np_angle.
    destruct (Rlt_dec x 0) as [H|H]; [left | right];
      (split; [Lra.lra | field; exact Hpi]). }
  eexists _, _, _. split; [reflexivity|].
  split; [exact Hlen|].
  split; [rewrite List.length_map; exact Hlen|].
  split; [rewrite List.length_map; exact Hlen|].
  split; [|split; [|split; [|split]]].
  - subst f. rewrite real_linspace_nth by lia. cbn [INR]. ring.
  - subst f. rewrite real_linspace_nth by lia.
    rewrite !INR_IZR_INZ. cbn [Z.of_nat Pos.of_succ_nat Pos.succ]. field.
  - apply real_linspace_between; [lia | exact Hle].
  - apply List.Forall_forall. intros m Hm.
    apply List.in_map_iff in Hm. destruct Hm as (v & <- & _).
    pose proof (Rabs_pos (sin (2 * PI * v / 1500))%R) as H0.
    assert (H1 : (Rabs (sin (2 * PI * v / 1500)) <= 1)%R).
    { apply Rabs_le. pose proof (SIN_bound (2 * PI * v / 1500)%R). Lra.lra. }
    split; Lra.lra.
  - apply List.Forall_forall. intros p Hp.
    apply List.in_map_iff in Hp. destruct Hp as (v & <- & _).
    destruct (Hangle (sin (2 * PI * v / 1500))%R) as [[_ E]|[_ E]];
      rewrite E; [right | left]; reflexivity.
Qed.

(** X19. The response of [run_impedance_simulation] depends on the
    frequency range alone: two successful calls with the same range return
    the same arrays whatever the bore, temperature and material. A bore
    frame without a position or a diameter column raises [KeyError], and
    an error of the engine run is passed on. *)
Theorem X19_adapter_ignores_bore
    (simulate : Q -> list (list Py.value) -> Py.value -> bool -> bool ->
                option string -> Z -> Py.result unit)
    (freq_range : R * R) :
  (forall bore1 temperature1 material1 r1 bore2 temperature2 material2 r2,
     OpenwindAdapter.run_impedance_simulation simulate bore1 temperature1
       material1 freq_range = Py.Ok r1 ->
     OpenwindAdapter.run_impedance_simulation simulate bore2 temperature2
       material2 freq_range = Py.Ok r2 ->
     r1 = r2) /\
  (forall bore_df temperature material_props,
     Pandas.column_index (Pandas.columns bore_df) "position" = None \/
     Pandas.column_index (Pandas.columns bore_df) "diameter" = None ->
     OpenwindAdapter.run_impedance_simulation simulate bore_df temperature
       material_props freq_range = Py.Raise Py.KeyError) /\
  (forall bore_df temperature material_props main_bore e,
     Pandas.select_values bore_df ["position"; "diameter"] = Py.Ok main_bore ->
     simulate (5 # 100) main_bore temperature true true None 0%Z = Py.Raise e ->
     OpenwindAdapter.run_impedance_simulation simulate bore_df temperature
       material_props freq_range = Py.Raise e).
Proof.
  split; [|split].
  - intros bore1 temperature1 material1 r1 bore2 temperature2 material2 r2 H1 H2.
    pose proof (adapter_cases simulate bore1 temperature1 material1 freq_range) as C1.
    pose proof (adapter_cases simulate bore2 temperature2 material2 freq_range) as C2.
    destruct (Pandas.select_values bore1 _) as [mb1|e1]; [|congruence].
    destruct (simulate _ mb1 _ _ _ _ _) as [u1|e1]; [|congruence].
    destruct (Pandas.select_values bore2 _) as [mb2|e2]; [|congruence].
    destruct (simulate _ mb2 _ _ _ _ _) as [u2|e2]; [|congruence].
    congruence.
  - intros bore_df temperature material_props Hmiss.
    unfold OpenwindAdapter.run_impedance_simulation, Pandas.select_values.
    cbn [Py.mapM].
    destruct (Pandas.column_index (Pandas.columns bore_df) "position") as [i|];
      [|reflexivity].
    destruct (Pandas.column_index (Pandas.columns bore_df) "diameter") as [j|];
      [|reflexivity].
    destruct Hmiss; discriminate.
  - intros bore_df temperature material_props main_bore e Hsel Hsim.
    unfold OpenwindAdapter.run_impedance_simulation.
    rewrite Hsel. py_run. rewrite Hsim. reflexivity.
Qed.

Lemma getitem_nth_default {A : Type} (l : list A) (i : nat) (d : A) :
  (i < List.length l)%nat -> Py.getitem l i = Py.Ok (nth i l d).
Proof.
  intros Hi. unfold Py.getitem.
  rewrite (List.nth_error_nth' l d Hi). reflexivity.
Qed.

Lemma argmin_from_bound (a : list R) :
  forall (best : R) (best_i i : nat),
    Autotune.argmin_from best best_i i a = best_i \/
    (i <= Autotune.argmin_from best best_i i a < i + List.length a)%nat.
Proof.
  induction a as [|v a IH]; intros best best_i i; cbn [Autotune.argmin_from].
  - left. reflexivity.
  - cbn [List.length]. destruct (Rlt_dec v best).
    + right. destruct (IH v i (S i)) as [H|H]; lia.
    + destruct (IH best best_i (S i)) as [H|H]; [left; exact H | right; lia].
Qed.

Lemma np_argmin_bound (a : list R) :
  a <> [] ->
  exists idx, Autotune.np_argmin a = Py.Ok idx /\ (idx < List.length a)%nat.
Proof.
  destruct a as [|v a]; [congruence|]. intros _.
  eexists. split; [reflexivity|]. cbn [List.length].
  destruct (argmin_from_bound a v 0 1) as [H|H]; lia.
Qed.

Section TunerRun.

Variable simulate :
  Q -> list (list Py.value) -> Py.value -> bool -> bool -> option string -> Z ->
  Py.result unit.
Variables (bore_df : Pandas.DataFrame) (target_freq : R).
Variables (temperature material_props : Py.value) (freq_range : R * R).
Variable opt_x : list Py.value.

Hypothesis engine_runs :
  forall main_bore,
    simulate (5 # 100) main_bore temperature true true None 0%Z = Py.Ok tt.
Hypothesis positions : Pandas.column bore_df "position" = Py.Ok opt_x.

(** One candidate: the score read off the response is the same for every
    candidate, so only the state decides. *)
Lemma try_candidate_step :
  exists peak_value : R,
    forall (st : Autotune.best) (candidate : Q * Q),
      Autotune.try_candidate simulate bore_df target_freq temperature
        material_props freq_range st candidate
      = Py.Ok (if Autotune.improves peak_value (Autotune.best_score st)
               then {| Autotune.best_score := Some peak_value;
                       Autotune.best_bore := Some (candidate_bore opt_x candidate);
                       Autotune.best_result := Some (response_of freq_range) |}
               else st).
Proof.
  set (f := OpenwindAdapter.linspace (fst freq_range) (snd freq_range) 500).
  set (mag := List.map (fun f => (Rabs (sin (2 * PI * f / 1500)) * 1000000)%R) f).
  assert (Hf : List.length f = 500%nat) by apply linspace_length.
  destruct (np_argmin_bound (List.map (fun v => Rabs (v - target_freq)) f))
    as (idx & Hidx & Hlt).
  { intros E. apply (f_equal (@List.length R)) in E.
    rewrite List.length_map, Hf in E. discriminate. }
  rewrite List.length_map, Hf in Hlt.
  exists (nth idx mag 0%R). intros st candidate.
  unfold Autotune.try_candidate. rewrite positions. py_run.
  unfold Pandas.of_two_columns.
  rewrite List.length_map, py_linspace_length, Nat.eqb_refl. py_run.
  fold (candidate_bore opt_x candidate).
  unfold OpenwindAdapter.run_impedance_simulation.
  assert (Hsel : exists main_bore,
            Pandas.select_values (candidate_bore opt_x candidate)
              ["position"; "diameter"] = Py.Ok main_bore)
    by (eexists; reflexivity).
  destruct Hsel as (main_bore & Hsel). rewrite Hsel. py_run.
  rewrite engine_runs. py_run.
  fold f. fold mag.
  unfold Autotune.response_item.
  cbn [OpenwindAdapter.response_get String.eqb Ascii.eqb Bool.eqb]. py_run.
  rewrite Hidx. py_run.
  rewrite (getitem_nth_default mag idx 0%R)
    by (unfold mag; rewrite List.length_map, Hf; exact Hlt).
  py_run. unfold response_of. fold f. fold mag.
  destruct (Autotune.improves _ _); reflexivity.
Qed.

End TunerRun.

Lemma foldM_settled {A S : Type} (f : S -> A -> Py.result S) (l : list A) (s : S) :
  (forall a, f s a = Py.Ok s) -> Py.foldM f l s = Py.Ok s.
Proof.
  intros H. induction l as [|a l IH]; [reflexivity|].
  cbn [Py.foldM]. rewrite H. cbn [Py.bind]. exact IH.
Qed.

Lemma list_prod_head (l : list Q) (n : nat) (f : nat -> Q) :
  l = List.map f (seq 0 (S n)) ->
  exists rest, list_prod l l = (f 0%nat, f 0%nat) :: rest.
Proof.
  intros ->. cbn [seq List.map list_prod app]. eexists. reflexivity.
Qed.

(** X20. [autotune_bore] with [max_iter = 0] returns (None, None). With
    [max_iter >= 1], a bore frame without a position column raises
    [KeyError]; with the column present and an engine that runs, the search
    returns the first candidate it tries, whatever the target frequency:
    the bore over the given positions whose diameters are all 12.5 mm
    (0.0125), together with the adapter's response. *)
Theorem X20_autotune_first_candidate
    (simulate : Q -> list (list Py.value) -> Py.value -> bool -> bool ->
                option string -> Z -> Py.result unit)
    (bore_df : Pandas.DataFrame) (target_freq : R)
    (temperature material_props : Py.value) (freq_range : R * R)
    (max_iter : nat) :
  (max_iter = 0%nat ->
   Autotune.autotune_bore simulate bore_df target_freq temperature
     material_props freq_range max_iter = Py.Ok (None, None)) /\
  ((1 <= max_iter)%nat ->
   Pandas.column_index (Pandas.columns bore_df) "position" = None ->
   Autotune.autotune_bore simulate bore_df target_freq temperature
     material_props freq_range max_iter = Py.Raise Py.KeyError) /\
  (forall opt_x,
     (1 <= max_iter)%nat ->
     Pandas.column bore_df "position" = Py.Ok opt_x ->
     (forall main_bore,
        simulate (5 # 100) main_bore temperature true true None 0%Z = Py.Ok tt) ->
     exists test_bore diameters,
       Autotune.autotune_bore simulate bore_df target_freq temperature
         material_props freq_range max_iter
       = Py.Ok (Some test_bore, Some (response_of freq_range)) /\
       Pandas.column test_bore "position" = Py.Ok opt_x /\
       Pandas.column test_bore "diameter" = Py.Ok (List.map Py.VNum diameters) /\
       List.length diameters = List.length opt_x /\
       List.Forall (fun d => d == 125 # 10000) diameters).
Proof.
  split; [|split].
  - intros ->. reflexivity.
  - intros Hn Hmiss. unfold Autotune.autotune_bore.
    destruct max_iter as [|n]; [lia|].
    destruct (list_prod_head (Py.linspace (125 # 10) 15 (S n)) n _ eq_refl)
      as (rest & ->).
    cbn [Py.foldM]. unfold Autotune.try_candidate at 1, Pandas.column.
    rewrite Hmiss. reflexivity.
  - intros opt_x Hn Hpos Hsim. unfold Autotune.autotune_bore.
    destruct max_iter as [|n]; [lia|].
    destruct (try_candidate_step simulate bore_df target_freq temperature
                material_props freq_range opt_x Hsim Hpos) as (peak & Hstep).
    destruct (list_prod_head (Py.linspace (125 # 10) 15 (S n)) n _ eq_refl)
      as (rest & ->).
    set (d0 := (125 # 10) + Py.of_nat 0 * ((15 - (125 # 10)) / (Py.of_nat (S n) - 1))).
    cbn [Py.foldM]. rewrite Hstep. cbn [Py.bind Autotune.improves Autotune.best_score].
    rewrite foldM_settled.
    + py_run. cbn [Autotune.best_bore Autotune.best_result].
      exists (candidate_bore opt_x (d0, d0)),
             (Py.linspace (d0 / 1000) (d0 / 1000) (List.length opt_x)).
      split; [reflexivity|].
      assert (Hlen : List.length
                (List.map Py.VNum
                   (Py.linspace (d0 / 1000) (d0 / 1000) (List.length opt_x)))
              = List.length opt_x)
        by (rewrite List.length_map; apply py_linspace_length).
      unfold Pandas.column, candidate_bore.
      cbn [Pandas.columns Pandas.rows Pandas.column_index String.eqb Ascii.eqb
           Bool.eqb option_map fst snd].
      rewrite !List.map_map. cbn [nth fst snd].
      split; [|split; [|split]].
      * f_equal. rewrite <- (List.map_map fst (fun v => v)), List.map_id.
        clear -Hlen. revert Hlen.
        generalize (List.map Py.VNum
                      (Py.linspace (d0 / 1000) (d0 / 1000) (List.length opt_x))).
        induction opt_x as [|v l IH]; intros [|w m] Hm;
          cbn in *; try lia; [reflexivity|]. f_equal. apply IH. lia.
      * f_equal. rewrite <- (List.map_map snd (fun v => v)), List.map_id.
        clear -Hlen. revert Hlen.
        generalize (List.map Py.VNum
                      (Py.linspace (d0 / 1000) (d0 / 1000) (List.length opt_x))).
        intros m. revert opt_x.
        induction m as [|w m IH]; intros [|v l] Hm;
          cbn in *; try lia; [reflexivity|]. f_equal. apply IH. lia.
      * apply py_linspace_length.
      * unfold Py.linspace. apply List.Forall_forall. intros d Hd.
        apply List.in_map_iff in Hd. destruct Hd as (i & <- & _).
        assert (E0 : d0 == 125 # 10)
          by (subst d0; change (Py.of_nat 0) with 0; ring).
        assert (E1 : d0 / 1000 == 125 # 10000) by (rewrite E0; reflexivity).
        rewrite <- E1. generalize (d0 / 1000). intros a.
        unfold Qdiv. ring.
    + intros c. rewrite Hstep. cbn [Autotune.improves Autotune.best_score].
      destruct (Rgt_dec peak peak) as [H|_]; [|reflexivity].
      exfalso. exact (Rgt_irrefl peak H).
Qed.

Lemma X18_adapter_ranges_witness :
  exists mag,
    OpenwindAdapter.response_get (response_of OpenwindAdapter.default_freq_range)
      "magnitude" = Some mag /\
    List.Forall (fun m => (0 <= m <= 1000000)%R) mag.
Proof.
  destruct (X18_adapter_ranges engine_ok short_bore (Py.VNum 22) Py.VNone
              OpenwindAdapter.default_freq_range
              (response_of OpenwindAdapter.default_freq_range))
    as (f & mag & phase & Hr & _ & _ & _ & _ & _ & _ & Hmag & _).
  - cbn [fst OpenwindAdapter.default_freq_range]. Lra.lra.
  - cbn [fst snd OpenwindAdapter.default_freq_range]. Lra.lra.
  - cbn [snd OpenwindAdapter.default_freq_range]. Lra.lra.
  - reflexivity.
  - exists mag. split; [rewrite Hr; reflexivity | exact Hmag].
Defined.

Lemma X19_adapter_ignores_bore_witness :
  OpenwindAdapter.run_impedance_simulation engine_ok
    {| Pandas.columns := ["position"]; Pandas.rows := [[Py.VNum 0]] |}
    (Py.VNum 22) Py.VNone OpenwindAdapter.default_freq_range
  = Py.Raise Py.KeyError.
Proof.
  apply (proj1 (proj2 (X19_adapter_ignores_bore engine_ok
                         OpenwindAdapter.default_freq_range))).
  right. reflexivity.
Defined.

Lemma X20_autotune_first_candidate_witness :
  exists test_bore,
    Autotune.autotune_bore engine_ok short_bore 440%R (Py.VNum 22) Py.VNone
      OpenwindAdapter.default_freq_range 2
    = Py.Ok (Some test_bore, Some (response_of OpenwindAdapter.default_freq_range)).
Proof.
  destruct (proj2 (proj2 (X20_autotune_first_candidate engine_ok short_bore
                            440%R (Py.VNum 22) Py.VNone
                            OpenwindAdapter.default_freq_range 2))
              [Py.VNum 0; Py.VNum (66 # 1000)])
    as (test_bore & diameters & Hrun & _).
  - lia.
  - reflexivity.
  - intros main_bore. reflexivity.
  - exists test_bore. exact Hrun.
Defined.

(** ** Sessions: field values and rejected documents *)

(** X21. With a JSON library that reads back what it writes, loading
    a saved session returns the temperature, humidity and notes exactly as
    they were saved, whatever values they are: a value saved as None comes
    back as None, not as the default of [load_session]. The material comes
    back unchanged when it is truthy and as the empty mapping otherwise.
    The time stamp plays no part. *)
Theorem X21_session_field_values
    (text : Type) (json_dumps : Py.value -> text)
    (json_loads : text -> Py.result Py.value) (now_isoformat : string)
    (other_payload : Py.value -> Py.result Pandas.DataFrame)
    (profile : list (Q * Q))
    (temperature humidity material_props notes : Py.value) :
  (forall v : Py.value,
     Py.keys_unique v -> json_loads (json_dumps v) = Py.Ok v) ->
  Py.keys_unique temperature -> Py.keys_unique humidity ->
  Py.keys_unique material_props -> Py.keys_unique notes ->
  SessionManager.load_session json_loads other_payload
    (SessionManager.save_session json_dumps now_isoformat
       (Pandas.of_profile profile) temperature humidity material_props notes)
  = Py.Ok (Pandas.of_records (profile_dicts profile), temperature, humidity,
           Py.or_else material_props (Py.VDict []), notes) /\
  (Py.truthy material_props = true ->
   Py.or_else material_props (Py.VDict []) = material_props) /\
  (Py.truthy material_props = false ->
   Py.or_else material_props (Py.VDict []) = Py.VDict []).
Proof.
  intros Hcodec Ht Hh Hm Hn.
  split; [|split; unfold Py.or_else; intros ->; reflexivity].
  unfold SessionManager.save_session, SessionManager.load_session.
  rewrite Hcodec.
  - cbn -[Pandas.to_dict_records Pandas.of_profile Pandas.DataFrame_of Py.or_else].
    unfold Pandas.DataFrame_of, Pandas.as_records.
    rewrite records_of_profile, all_dicts_map. reflexivity.
  - cbn -[Pandas.to_dict_records Pandas.of_profile Py.or_else].
    pose proof (keys_unique_records profile) as Hrec.
    cbn [Py.keys_unique] in Hrec.
    assert (Hor : Py.keys_unique (Py.or_else material_props (Py.VDict []))).
    { unfold Py.or_else. destruct (Py.truthy material_props); [exact Hm|].
      cbn. split; [constructor | exact I]. }
    repeat split; try exact I; try assumption.
    all: repeat constructor; cbn; intuition discriminate.
Qed.

(** X22. [load_session] passes a parse error on; a document that is
    not an object raises [TypeError]; an object without [bore_profile]
    raises [KeyError]; a [bore_profile] that pandas rejects raises that
    error; with a good [bore_profile], a missing [environment] raises
    [KeyError] and an [environment] that is not an object raises
    [AttributeError]. *)
Theorem X22_rejected_sessions
    (text : Type) (json_loads : text -> Py.result Py.value)
    (other_payload : Py.value -> Py.result Pandas.DataFrame)
    (json_string : text) :
  (forall e, json_loads json_string = Py.Raise e ->
     SessionManager.load_session json_loads other_payload json_string
     = Py.Raise e) /\
  (forall v, json_loads json_string = Py.Ok v -> is_object v = false ->
     SessionManager.load_session json_loads other_payload json_string
     = Py.Raise Py.TypeError) /\
  (forall session, json_loads json_string = Py.Ok (Py.VDict session) ->
     Py.dict_lookup session "bore_profile" = None ->
     SessionManager.load_session json_loads other_payload json_string
     = Py.Raise Py.KeyError) /\
  (forall session bore_profile e,
     json_loads json_string = Py.Ok (Py.VDict session) ->
     Py.dict_lookup session "bore_profile" = Some bore_profile ->
     Pandas.DataFrame_of other_payload bore_profile = Py.Raise e ->
     SessionManager.load_session json_loads other_payload json_string
     = Py.Raise e) /\
  (forall session bore_profile bore_df,
     json_loads json_string = Py.Ok (Py.VDict session) ->
     Py.dict_lookup session "bore_profile" = Some bore_profile ->
     Pandas.DataFrame_of other_payload bore_profile = Py.Ok bore_df ->
     (Py.dict_lookup session "environment" = None ->
      SessionManager.load_session json_loads other_payload json_string
      = Py.Raise Py.KeyError) /\
     (forall environment,
        Py.dict_lookup session "environment" = Some environment ->
        is_object environment = false ->
        SessionManager.load_session json_loads other_payload json_string
        = Py.Raise Py.AttributeError)).
Proof.
  unfold SessionManager.load_session.
  split; [|split; [|split; [|split]]].
  - intros e ->. reflexivity.
  - intros v -> Hv. destruct v; try reflexivity. discriminate.
  - intros session -> Hbp. py_run. cbn [Py.subscript]. rewrite Hbp. reflexivity.
  - intros session bore_profile e -> Hbp Hdf. py_run. cbn [Py.subscript].
    rewrite Hbp. cbn [Py.bind]. rewrite Hdf. reflexivity.
  - intros session bore_profile bore_df -> Hbp Hdf. py_run. cbn [Py.subscript].
    rewrite Hbp. cbn [Py.bind]. rewrite Hdf. cbn [Py.bind]. split.
    + intros ->. reflexivity.
    + intros environment -> Henv. cbn [Py.bind].
      destruct environment; try reflexivity. discriminate.
Qed.

Lemma X21_session_field_values_witness :
  SessionManager.load_session plain_loads reject_payload
    (SessionManager.save_session plain_dumps "2024-05-01T10:00:00"
       (Pandas.of_profile [(0, 15); (66, 15)]) Py.VNone (Py.VNum 50)
       Py.VNone (Py.VStr ""))
  = Py.Ok (Pandas.of_records (profile_dicts [(0, 15); (66, 15)]),
           Py.VNone, Py.VNum 50, Py.VDict [], Py.VStr "").
Proof.
  refine (proj1 (X21_session_field_values Py.value plain_dumps plain_loads
                   "2024-05-01T10:00:00" reject_payload [(0, 15); (66, 15)]
                   Py.VNone (Py.VNum 50) Py.VNone (Py.VStr "") _ I I I I)).
  intros v _. reflexivity.
Defined.

Lemma X22_rejected_sessions_witness :
  SessionManager.load_session plain_loads reject_payload
    (Py.VDict [("environment", Py.VDict [])])
  = Py.Raise Py.KeyError.
Proof.
  apply (proj1 (proj2 (proj2 (X22_rejected_sessions Py.value plain_loads
                                reject_payload
                                (Py.VDict [("environment", Py.VDict [])]))))
           [("environment", Py.VDict [])]);
    reflexivity.
Defined.
